(** * Content scraper pipeline: a shallow embedding and its properties

    The development follows the layout of the Python sources:

    - [PyStr]      the string methods the code calls (strip, lower, split, ...);
    - [Py]         Python values as they come out of JSON documents and of
                   the LLM client, exceptions, truthiness, [str] and [repr];
    - [Extractor]  [BaseScraperModule._extract_field_value]   (modules/base.py);
    - [Fetch]      [BaseScraperModule._make_request] and the head of
                   [RSSScraperModule.scrape_feed]             (modules/*.py);
    - [Content]    [RawContent] and [EnhancedContent]          (models/content.py);
    - [Output]     [DealOutput], [OutputSummary] and
                   [convert_to_deal_output]                    (models/output.py);
    - [Quality]    [QualityValidatorAgent.filter_high_quality_content];
    - [Enhancer]   [ContentEnhancerAgent.enhance_content];
    - [Pipeline]   [ContentPipeline]                           (main.py);
    - [QualityTool], [EnhancerTools]  the tools the agents register
                   (agents/quality_validator.py, agents/content_enhancer.py);
    - [ConfigFile] [SiteConfig] and [ConfigValidator._filter_comments]
                   (models/config.py, config/validator.py);
    - [Barren], [Outcome], [Frame], [Digest], [Keep]  the predicates the
                   statements are worded with.

    Strings are modelled on the ASCII range; Python floats are IEEE-754
    binary64 values, i.e. Rocq's primitive floats. *)

From Stdlib Require Import ZArith String Ascii List Bool Lia DecimalString.
From Stdlib Require Import Uint63 PrimFloat SpecFloat FloatOps.
From Stdlib Require FloatAxioms.
From stdpp Require Import gmap strings list.
Import ListNotations.

Set Warnings "-inexact-float,-register-all".
Local Open Scope string_scope.
Local Open Scope list_scope.

(* ===================================================================== *)
(** ** String methods *)
(* ===================================================================== *)

Module PyStr.

Definition code (c : ascii) : nat := nat_of_ascii c.

Definition between (lo hi : nat) (c : ascii) : bool :=
  (lo <=? code c)%nat && (code c <=? hi)%nat.

(** [str.isspace] on the ASCII range: TAB..CR, FS..US and the blank. *)
Definition is_space (c : ascii) : bool := between 9 13 c || between 28 32 c.
Definition is_digit (c : ascii) : bool := between 48 57 c.
Definition is_upper (c : ascii) : bool := between 65 90 c.
Definition is_lower (c : ascii) : bool := between 97 122 c.
Definition is_alpha (c : ascii) : bool := is_upper c || is_lower c.
Definition is_alnum (c : ascii) : bool := is_alpha c || is_digit c.

Definition to_lower (c : ascii) : ascii :=
  if is_upper c then ascii_of_nat (code c + 32) else c.
Definition to_upper (c : ascii) : ascii :=
  if is_lower c then ascii_of_nat (code c - 32) else c.

Fixpoint map_chars (f : ascii -> ascii) (s : string) : string :=
  match s with
  | EmptyString => EmptyString
  | String c r => String (f c) (map_chars f r)
  end.

Fixpoint all_chars (p : ascii -> bool) (s : string) : bool :=
  match s with
  | EmptyString => true
  | String c r => p c && all_chars p r
  end.

Fixpoint filter_chars (p : ascii -> bool) (s : string) : string :=
  match s with
  | EmptyString => EmptyString
  | String c r => if p c then String c (filter_chars p r) else filter_chars p r
  end.

Definition is_empty (s : string) : bool :=
  match s with EmptyString => true | _ => false end.

(** [s.lower()] *)
Definition lower (s : string) : string := map_chars to_lower s.

Fixpoint lstrip_by (p : ascii -> bool) (s : string) : string :=
  match s with
  | EmptyString => EmptyString
  | String c r => if p c then lstrip_by p r else s
  end.

Fixpoint rstrip_by (p : ascii -> bool) (s : string) : string :=
  match s with
  | EmptyString => EmptyString
  | String c r =>
      match rstrip_by p r with
      | EmptyString => if p c then EmptyString else String c EmptyString
      | r' => String c r'
      end
  end.

(** [s.strip()] and [s.rstrip(chars)] *)
Definition strip (s : string) : string := rstrip_by is_space (lstrip_by is_space s).

Definition one_of (cs : string) (c : ascii) : bool :=
  existsb (Ascii.eqb c) (list_ascii_of_string cs).

Definition rstrip_chars (cs : string) (s : string) : string := rstrip_by (one_of cs) s.

(** [needle in hay] *)
Fixpoint contains (needle hay : string) : bool :=
  String.prefix needle hay ||
  match hay with
  | EmptyString => false
  | String _ r => contains needle r
  end.

Definition startswith (p s : string) : bool := String.prefix p s.

Definition endswith (suffix s : string) : bool :=
  let n := String.length s in
  let k := String.length suffix in
  (k <=? n)%nat && String.eqb (substring (n - k) k s) suffix.

(** [s[:n]] and [s[:-n]] *)
Definition take (n : nat) (s : string) : string := substring 0 n s.
Definition drop_last (n : nat) (s : string) : string :=
  substring 0 (String.length s - n) s.

(** [s.split(sep)] for a one-character separator: never the empty list. *)
Fixpoint split (sep : ascii) (s : string) : list string :=
  match s with
  | EmptyString => [EmptyString]
  | String c r =>
      if Ascii.eqb c sep then EmptyString :: split sep r
      else match split sep r with
           | h :: t => String c h :: t
           | [] => [String c EmptyString]
           end
  end.

(** [s.isdigit()] and [s.isalnum()]: false on the empty string. *)
Definition isdigit (s : string) : bool := negb (is_empty s) && all_chars is_digit s.

(** The value of a string of decimal digits, most significant first. *)
Fixpoint digits_value (acc : Z) (s : string) : Z :=
  match s with
  | EmptyString => acc
  | String c r => digits_value (10 * acc + Z.of_nat (code c - 48))%Z r
  end.

(** [s.replace(a, b)] for single characters. *)
Definition replace_char (a b : ascii) (s : string) : string :=
  map_chars (fun c => if Ascii.eqb c a then b else c) s.

(** [s.title()]: a letter is upper-cased when the previous character is not
    a letter and lower-cased otherwise. *)
Fixpoint title_from (prev_cased : bool) (s : string) : string :=
  match s with
  | EmptyString => EmptyString
  | String c r =>
      String (if is_alpha c then (if prev_cased then to_lower c else to_upper c) else c)
             (title_from (is_alpha c) r)
  end.
Definition title (s : string) : string := title_from false s.

Definition of_Z (z : Z) : string := NilZero.string_of_int (Z.to_int z).

(** Two decimal digits, as [%m] and [%d] of [strftime] print them. *)
Definition two_digits (n : nat) : string :=
  if (n <? 10)%nat then "0" +:+ of_Z (Z.of_nat n) else of_Z (Z.of_nat n).

Fixpoint zeros (n : nat) : string :=
  match n with
  | O => EmptyString
  | S k => String "0" (zeros k)
  end.

(** Left-padding with zeros up to a width, as [%Y] does to four digits. *)
Definition zero_pad (width : nat) (s : string) : string :=
  zeros (width - String.length s) +:+ s.

(** No whitespace anywhere in the string. *)
Definition no_space (s : string) : bool := all_chars (fun c => negb (is_space c)) s.

Fixpoint take_until (p : ascii -> bool) (s : string) : string :=
  match s with
  | EmptyString => EmptyString
  | String c r => if p c then EmptyString else String c (take_until p r)
  end.

(** What follows the last occurrence of [sep]; the whole string when there
    is none. *)
Fixpoint after_last (sep : ascii) (s : string) : string :=
  match s with
  | EmptyString => EmptyString
  | String c r =>
      if contains (String sep EmptyString) r then after_last sep r
      else if Ascii.eqb c sep then r else s
  end.

(** What follows the first occurrence of [marker]; empty when there is none. *)
Fixpoint after_first (marker : string) (s : string) : string :=
  match s with
  | EmptyString => EmptyString
  | String _ r =>
      if String.prefix marker s
      then substring (String.length marker) (String.length s) s
      else after_first marker r
  end.

End PyStr.

(* ===================================================================== *)
(** ** Python values, exceptions and results *)
(* ===================================================================== *)

Module Py.

(** The exception classes the modelled code raises or catches. *)
Inductive exn : Type :=
| KeyError | IndexError | ValueError | TypeError | AttributeError
| ValidationError        (* pydantic *)
| RequestException       (* requests *)
| ScraperError
| OSError
| OverflowError
| LLMError.              (* whatever the LLM client raises *)

Inductive result (A : Type) : Type :=
| Ok (a : A)
| Raise (e : exn).
Arguments Ok {A} a.
Arguments Raise {A} e.

Definition bind {A B} (m : result A) (k : A -> result B) : result B :=
  match m with
  | Ok a => k a
  | Raise e => Raise e
  end.

Definition is_ok {A} (m : result A) : bool :=
  match m with Ok _ => true | Raise _ => false end.

(** What a call returned, [None] when it raised. *)
Definition returned {A} (m : result A) : option A :=
  match m with Ok a => Some a | Raise _ => None end.

(** A document tree: what [json.loads] returns, and what the LLM client
    hands back in [result.data].  A float is carried by its [repr], the
    only thing the modelled code ever asks of one inside a document. *)
Inductive pyval : Type :=
| PNone
| PBool (b : bool)
| PInt (z : Z)
| PFloat (repr : string)
| PStr (s : string)
| PList (items : list pyval)
| PDict (items : list (string * pyval)).

Definition is_none (v : pyval) : bool :=
  match v with PNone => true | _ => false end.

(** [d.get(key)]: the first binding of the key, [None] when there is none. *)
Fixpoint dict_get (d : list (string * pyval)) (key : string) : pyval :=
  match d with
  | [] => PNone
  | (k, v) :: rest => if String.eqb k key then v else dict_get rest key
  end.

(** [key in d] *)
Fixpoint dict_has (d : list (string * pyval)) (key : string) : bool :=
  match d with
  | [] => false
  | (k, _) :: rest => String.eqb k key || dict_has rest key
  end.

(** [d[key]] raises [KeyError] on a missing key. *)
Definition dict_getitem (d : list (string * pyval)) (key : string) : result pyval :=
  if dict_has d key then Ok (dict_get d key) else Raise KeyError.

(** [d.get(key, default)] *)
Definition dict_get_default (d : list (string * pyval)) (key : string) (default : pyval) : pyval :=
  if dict_has d key then dict_get d key else default.

(** [l[i]] for a non-negative index raises [IndexError] out of range. *)
Definition list_getitem (l : list pyval) (i : Z) : result pyval :=
  if (i <? 0)%Z then Raise IndexError
  else match nth_error l (Z.to_nat i) with
       | Some v => Ok v
       | None => Raise IndexError
       end.

(** [int(s)] on the strings [isdigit] lets through; anything else is a
    [ValueError]. *)
Definition int_of_str (s : string) : result Z :=
  if PyStr.isdigit s then Ok (PyStr.digits_value 0 s) else Raise ValueError.

(** [repr] of a string: single quotes, unless the string has a single
    quote and no double quote; backslash, the quote, and control
    characters are escaped. *)
Definition hex_digit (n : nat) : ascii :=
  if (n <? 10)%nat then ascii_of_nat (48 + n) else ascii_of_nat (87 + n).

Definition escape_char (quote : ascii) (c : ascii) : string :=
  let n := PyStr.code c in
  if Ascii.eqb c "\"%char then "\\"
  else if Ascii.eqb c quote then String "\"%char (String c EmptyString)
  else if (n =? 10)%nat then "\n"
  else if (n =? 13)%nat then "\r"
  else if (n =? 9)%nat then "\t"
  else if (n <? 32)%nat || (n =? 127)%nat then
    "\x" +:+ String (hex_digit (n / 16)) (String (hex_digit (n mod 16)) EmptyString)
  else String c EmptyString.

Fixpoint escape (quote : ascii) (s : string) : string :=
  match s with
  | EmptyString => EmptyString
  | String c r => escape_char quote c +:+ escape quote r
  end.

Definition squote : ascii := ascii_of_nat 39.
Definition dquote : ascii := ascii_of_nat 34.

Definition repr_str (s : string) : string :=
  let has c := negb (PyStr.is_empty (PyStr.filter_chars (Ascii.eqb c) s)) in
  let quote := if has squote && negb (has dquote) then dquote else squote in
  String quote (escape quote s) +:+ String quote EmptyString.

Fixpoint join (sep : string) (l : list string) : string :=
  match l with
  | [] => EmptyString
  | [x] => x
  | x :: rest => x +:+ sep +:+ join sep rest
  end.

(** [repr(v)] *)
Fixpoint repr (v : pyval) : string :=
  match v with
  | PNone => "None"
  | PBool true => "True"
  | PBool false => "False"
  | PInt z => PyStr.of_Z z
  | PFloat r => r
  | PStr s => repr_str s
  | PList l => "[" +:+ join ", " (List.map repr l) +:+ "]"
  | PDict d =>
      "{" +:+ join ", " (List.map (fun kv => repr_str (fst kv) +:+ ": " +:+ repr (snd kv)) d) +:+ "}"
  end.

(** [str(v)]: a string is itself, everything else prints as [repr]. *)
Definition str (v : pyval) : string :=
  match v with
  | PStr s => s
  | _ => repr v
  end.

(** Truthiness, as [if v], [not v] and [a or b] use it. *)
Definition truthy (v : pyval) : bool :=
  match v with
  | PNone => false
  | PBool b => b
  | PInt z => negb (z =? 0)%Z
  | PFloat r => negb (String.eqb r "0.0" || String.eqb r "-0.0")
  | PStr s => negb (PyStr.is_empty s)
  | PList l => match l with [] => false | _ => true end
  | PDict d => match d with [] => false | _ => true end
  end.

(** [a or b] *)
Definition por (a b : pyval) : pyval := if truthy a then a else b.

(** An [Optional[str]] attribute read as a Python value. *)
Definition of_opt (o : option string) : pyval :=
  match o with Some s => PStr s | None => PNone end.

(** [==] on document trees is structural; here only for scalars and
    strings against an optional string. *)
Definition eq_opt_str (v : pyval) (o : option string) : bool :=
  match v, o with
  | PNone, None => true
  | PStr s, Some t => String.eqb s t
  | _, _ => false
  end.

End Py.

Import Py.

#[global] Instance result_ret : MRet result := @Ok.
#[global] Instance result_bind : MBind result := fun A B k m => Py.bind m k.

(** [try: m except: h] *)
Definition catch {A} (m : result A) (h : exn -> result A) : result A :=
  match m with
  | Ok a => Ok a
  | Raise e => h e
  end.

(* ===================================================================== *)
(** ** Field extraction (modules/base.py) *)
(* ===================================================================== *)

Module Extractor.

(** What a loop body leaves behind: it ran [return r], or it fell through
    with the loop variable at [value]. *)
Inductive flow : Type :=
| Returned (r : option string)
| Fell (value : pyval).

(** [for part in field_path.split('.'): ...] *)
Fixpoint walk (value : pyval) (parts : list string) : result flow :=
  match parts with
  | [] => Ok (Fell value)
  | part :: rest =>
      match value with
      | PDict d =>
          let value := dict_get d part in
          if is_none value then Ok (Returned None) else walk value rest
      | PList l =>
          if PyStr.isdigit part then
            index ← int_of_str part;
            value ← (if (0 <=? index)%Z && (index <? Z.of_nat (List.length l))%Z
                      then list_getitem l index else Ok PNone);
            if is_none value then Ok (Returned None) else walk value rest
          else Ok (Returned None)
      | _ => Ok (Returned None)
      end
  end.

(** The conversion after the loop. *)
Definition to_text (value : pyval) : result (option string) :=
  if negb (is_none value) then
    match value with
    | PDict d =>
        if dict_has d "url" then
          u ← dict_getitem d "url"; Ok (Some (str u))
        else Ok (Some (str value))
    | PList l =>
        if truthy value then
          first ← list_getitem l 0; Ok (Some (str first))
        else Ok (Some (str value))
    | _ => Ok (Some (PyStr.strip (str value)))
    end
  else Ok None.

Definition caught (e : exn) : bool :=
  match e with
  | KeyError | IndexError | ValueError | TypeError => true
  | _ => false
  end.

Definition _extract_field_value (data : pyval) (field_path : string)
  : result (option string) :=
  catch (f ← walk data (PyStr.split "." field_path);
         match f with
         | Returned r => Ok r
         | Fell value => to_text value
         end)
        (fun e => if caught e then Ok None else Raise e).

(** *** The extractor as the specification words it *)

(** One step of the path: a key of a mapping, a numeric segment of a
    sequence; a missing key, an index out of range and any other shape
    give nothing. *)
Definition spec_child (v : pyval) (segment : string) : option pyval :=
  match v with
  | PDict d => if dict_has d segment then Some (dict_get d segment) else None
  | PList l =>
      if PyStr.isdigit segment
      then nth_error l (Z.to_nat (PyStr.digits_value 0 segment))
      else None
  | _ => None
  end.

Fixpoint spec_resolve (v : pyval) (segments : list string) : option pyval :=
  match segments with
  | [] => Some v
  | seg :: rest =>
      match spec_child v seg with
      | Some PNone | None => None
      | Some child => spec_resolve child rest
      end
  end.

(** Terminal coercion. *)
Definition spec_coerce (v : pyval) : string :=
  match v with
  | PDict d => if dict_has d "url" then str (dict_get d "url") else str v
  | PList (first :: _) => str first
  | PList [] => str v
  | _ => PyStr.strip (str v)
  end.

Definition spec_extract (data : pyval) (field_path : string) : option string :=
  match spec_resolve data (PyStr.split "." field_path) with
  | Some PNone | None => None
  | Some v => Some (spec_coerce v)
  end.

(** A step that cannot be taken: a key the mapping lacks, a segment that
    is no index into the sequence or lies beyond its end, or a node that
    is neither a mapping nor a sequence. *)
Definition no_step (v : pyval) (segment : string) : Prop :=
  match v with
  | PDict d => dict_has d segment = false
  | PList l =>
      PyStr.isdigit segment = false \/
      (Z.of_nat (List.length l) <= PyStr.digits_value 0 segment)%Z
  | _ => True
  end.

End Extractor.

(* ===================================================================== *)
(** ** Content models (models/content.py, models/config.py) *)
(* ===================================================================== *)

Module Content.

(** A [datetime]: its position on the time line, in microseconds, and its
    calendar date. *)
Record datetime : Type := {
  micros : Z;
  year : nat;
  month : nat;
  day : nat
}.

(** [dt.strftime('%Y-%m-%d')] *)
Definition strftime_ymd (dt : datetime) : string :=
  PyStr.zero_pad 4 (PyStr.of_Z (Z.of_nat (year dt))) +:+ "-" +:+
  PyStr.two_digits (month dt) +:+ "-" +:+ PyStr.two_digits (day dt).

(** pydantic's [HttpUrl]: an absolute URL whose scheme is [http] or
    [https], followed by a host.  A string without a scheme, such as a
    site-relative path, is not one. *)
Definition has_host (rest : string) : bool :=
  match rest with
  | EmptyString => false
  | String c _ => negb (PyStr.one_of "/?#" c)
  end.

Definition is_http_url (s : string) : bool :=
  let l := PyStr.lower s in
  (PyStr.startswith "http://" l && has_host (substring 7 (String.length l) l)) ||
  (PyStr.startswith "https://" l && has_host (substring 8 (String.length l) l)).

Definition placeholder : string := "/placeholder-deal.svg".

Inductive ScraperType : Type := RSS | WORDPRESS | CUSTOM.

Record ContentMapping : Type := {
  map_title : string;
  map_url : string;
  map_image : string;
  map_excerpt : string;
  map_category : option string;
  map_date : option string
}.

Record SiteConfig : Type := {
  site_name : string;
  scraper_type : ScraperType;
  feeds : list string;
  content_mapping : ContentMapping;
  update_interval : Z;
  ai_enhancement_enabled : bool;
  affiliate_tag : option string
}.

Record RawContent : Type := {
  raw_title : string;
  raw_url : string;
  raw_image : option string;
  raw_excerpt : option string;
  raw_category : option string;
  raw_date : option string;
  source_data : pyval;
  scraped_at : datetime;
  raw_scraper_type : string;
  source_url : string
}.

Definition len_between (lo hi : nat) (s : string) : bool :=
  (lo <=? String.length s)%nat && (String.length s <=? hi)%nat.

Definition opt_all {A} (p : A -> bool) (o : option A) : bool :=
  match o with Some a => p a | None => true end.

(** What the field declarations and validators of [RawContent] leave in
    an instance: stripped, non-empty, bounded strings and real URLs. *)
Definition RawContent_wf (r : RawContent) : bool :=
  String.eqb (PyStr.strip (raw_title r)) (raw_title r) && len_between 1 500 (raw_title r) &&
  is_http_url (raw_url r) &&
  opt_all is_http_url (raw_image r) &&
  opt_all (fun s => String.eqb (PyStr.strip s) s && len_between 1 1000 s) (raw_excerpt r) &&
  opt_all (fun s => String.eqb (PyStr.strip s) s && len_between 1 100 s) (raw_category r) &&
  is_http_url (source_url r).

Record EnhancedContent : Type := {
  title : string;
  url : string;
  image : string;
  excerpt : string;
  category : string;
  date : string;
  quality_score : float;
  ai_generated_fields : list string;
  enhancement_notes : option string;
  enhanced_at : datetime;
  original_content : option RawContent
}.

(** [content.quality_score = q] *)
Definition set_quality_score (c : EnhancedContent) (q : float) : EnhancedContent :=
  {| title := title c; url := url c; image := image c; excerpt := excerpt c;
     category := category c; date := date c; quality_score := q;
     ai_generated_fields := ai_generated_fields c;
     enhancement_notes := enhancement_notes c;
     enhanced_at := enhanced_at c; original_content := original_content c |}.

(** *** Field validation of [EnhancedContent] *)

(** A [str] field under [str_strip_whitespace]: only a string is
    accepted, it is stripped, then the length bounds are checked. *)
Definition str_field (lo hi : option nat) (v : pyval) : result string :=
  match v with
  | PStr s =>
      let s := PyStr.strip s in
      if opt_all (fun n => (n <=? String.length s)%nat) lo &&
         opt_all (fun n => (String.length s <=? n)%nat) hi
      then Ok s else Raise ValidationError
  | _ => Raise ValidationError
  end.

Definition url_field (v : pyval) : result string :=
  match v with
  | PStr s => if is_http_url s then Ok s else Raise ValidationError
  | _ => Raise ValidationError
  end.

Definition blank (v : string) : bool :=
  PyStr.is_empty v || PyStr.is_empty (PyStr.strip v).

Definition validate_title (v : string) : result string :=
  if blank v then Raise ValidationError
  else Ok (PyStr.rstrip_chars "!?." (PyStr.strip v)).

Definition validate_excerpt (v : string) : result string :=
  if blank v then Raise ValidationError
  else
    let v := PyStr.strip v in
    if (String.length v <? 500)%nat && PyStr.endswith "..." v
    then Ok (PyStr.strip (PyStr.drop_last 3 v))
    else Ok v.

Definition validate_category (v : string) : result string :=
  if blank v then Raise ValidationError
  else Ok (PyStr.title (PyStr.strip v)).

Definition valid_fields : list string := ["title"; "excerpt"; "category"; "image"; "date"].

Definition validate_ai_fields (v : list string) : result (list string) :=
  if forallb (fun field => existsb (String.eqb field) valid_fields) v
  then Ok v else Raise ValidationError.

Definition score_field (q : float) : result float :=
  if PrimFloat.leb 0 q && PrimFloat.leb q 1 then Ok q else Raise ValidationError.

Definition notes_field (v : option string) : result (option string) :=
  match v with
  | None => Ok None
  | Some s => s' ← str_field None (Some 500%nat) (PStr s); Ok (Some s')
  end.

(** [EnhancedContent(title=..., ...)]: every field is validated; the
    instance exists only when all of them pass. *)
Definition EnhancedContent_new
    (now : datetime)
    (title_ url_ image_ excerpt_ category_ date_ : pyval)
    (quality_score_ : float) (ai_generated_fields_ : list string)
    (enhancement_notes_ : option string) (original_content_ : option RawContent)
  : result EnhancedContent :=
  let title_r := t ← str_field (Some 1%nat) (Some 500%nat) title_; validate_title t in
  let url_r := url_field url_ in
  let image_r := url_field image_ in
  let excerpt_r := e ← str_field (Some 10%nat) (Some 500%nat) excerpt_; validate_excerpt e in
  let category_r := c ← str_field (Some 1%nat) (Some 100%nat) category_; validate_category c in
  let date_r := str_field None None date_ in
  let score_r := score_field quality_score_ in
  let fields_r := validate_ai_fields ai_generated_fields_ in
  let notes_r := notes_field enhancement_notes_ in
  match title_r, url_r, image_r, excerpt_r, category_r, date_r, score_r, fields_r, notes_r with
  | Ok t, Ok u, Ok i, Ok e, Ok c, Ok d, Ok q, Ok f, Ok n =>
      Ok {| title := t; url := u; image := i; excerpt := e; category := c; date := d;
            quality_score := q; ai_generated_fields := f; enhancement_notes := n;
            enhanced_at := now; original_content := original_content_ |}
  | _, _, _, _, _, _, _, _, _ => Raise ValidationError
  end.

End Content.

(* ===================================================================== *)
(** ** HTTP fetch layer (modules/base.py, modules/rss_scraper.py) *)
(* ===================================================================== *)

Module Fetch.
Import Content.

(** The dict kept in [self._cache[url]]: each of the keys ['etag'] and
    ['last_modified'] is there or not. *)
Record cache_data : Type := {
  etag : option string;
  last_modified : option string
}.

(** [if cache_data:] -- a dict is true when it has a key. *)
Definition cache_data_truthy (d : cache_data) : bool :=
  match etag d, last_modified d with
  | None, None => false
  | _, _ => true
  end.

(** [requests.Response], by what the code reads of it.  The header names
    compare without regard to case. *)
Record Response : Type := {
  status_code : Z;
  headers : list (string * string);
  content : string
}.

Fixpoint header_get (hs : list (string * string)) (name : string) : option string :=
  match hs with
  | [] => None
  | (k, v) :: rest =>
      if String.eqb (PyStr.lower k) (PyStr.lower name) then Some v
      else header_get rest name
  end.

(** What [session.get] does: it hands back a response, or raises. *)
Inductive outcome : Type :=
| Replied (response : Response)
| Failed (e : exn).

(** The session: from the URL and the request headers to the outcome. *)
Definition session : Type := string -> list (string * string) -> outcome.

(** The headers of the conditional request. *)
Definition request_headers (cache : gmap string cache_data) (url : string) (use_cache : bool)
  : list (string * string) :=
  if use_cache then
    match cache !! url with
    | Some cache_data =>
        (match etag cache_data with
         | Some e => [("If-None-Match", e)]
         | None => []
         end) ++
        (match last_modified cache_data with
         | Some m => [("If-Modified-Since", m)]
         | None => []
         end)
    | None => []
    end
  else [].

(** [response.raise_for_status()] raises [HTTPError], a
    [RequestException], on a 4xx or 5xx status. *)
Definition raise_for_status (response : Response) : result unit :=
  if (400 <=? status_code response)%Z && (status_code response <? 600)%Z
  then Raise RequestException else Ok tt.

(** [_make_request]: the cache after the call, and the response or [None]. *)
Definition _make_request (get : session) (cache : gmap string cache_data)
    (url : string) (use_cache : bool)
  : gmap string cache_data * result (option Response) :=
  let headers_ := request_headers cache url use_cache in
  match get url headers_ with
  | Failed e =>
      match e with
      | RequestException => (cache, Ok None)
      | _ => (cache, Raise e)
      end
  | Replied response =>
      if (status_code response =? 304)%Z then (cache, Ok None)
      else
        let cache' :=
          if use_cache then
            let cache_data :=
              {| etag := header_get (headers response) "ETag";
                 last_modified := header_get (headers response) "Last-Modified" |} in
            if cache_data_truthy cache_data then <[url := cache_data]> cache else cache
          else cache in
        match raise_for_status response with
        | Ok _ => (cache', Ok (Some response))
        | Raise RequestException => (cache', Ok None)
        | Raise e => (cache', Raise e)
        end
  end.

Definition is_2xx (status : Z) : bool := (200 <=? status)%Z && (status <? 300)%Z.

(** The ETag/Last-Modified pair a response carries. *)
Definition validators_of (response : Response) : cache_data :=
  {| etag := header_get (headers response) "ETag";
     last_modified := header_get (headers response) "Last-Modified" |}.

(** The update rule in its documented form, for one cached fetch of
    [url]: the entry holds the pair of the response after a 2xx, and is
    what it was after anything else. *)
Definition updated_exactly_on_2xx (get : session) (cache : gmap string cache_data)
    (url : string) : Prop :=
  let cache' := fst (_make_request get cache url true) in
  match get url (request_headers cache url true) with
  | Replied response =>
      if is_2xx (status_code response)
      then cache' !! url = Some (validators_of response)
      else cache' !! url = cache !! url
  | Failed _ => cache' !! url = cache !! url
  end.

Section Feed.
(** Parsing the body with feedparser and turning at most fifty entries
    into items: the part of [scrape_feed] after the fetch. *)
Variable extract_entries : Response -> string -> result (list RawContent).

(** [RSSScraperModule.scrape_feed]: every exception leaves as a
    [ScraperError]. *)
Definition scrape_feed (get : session) (cache : gmap string cache_data) (feed_url : string)
  : gmap string cache_data * result (list RawContent) :=
  let '(cache', r) := _make_request get cache feed_url true in
  (cache',
   catch (response ← r;
          match response with
          | None => Ok []
          | Some response => extract_entries response feed_url
          end)
         (fun _ => Raise ScraperError)).

(** [scrape_all_feeds]: a feed that raises contributes nothing. *)
Fixpoint scrape_all_feeds (get : session) (cache : gmap string cache_data)
    (feeds : list string) (all_content : list RawContent)
  : gmap string cache_data * list RawContent :=
  match feeds with
  | [] => (cache, all_content)
  | feed_url :: rest =>
      let '(cache', r) := scrape_feed get cache feed_url in
      match r with
      | Ok content => scrape_all_feeds get cache' rest (all_content ++ content)
      | Raise _ => scrape_all_feeds get cache' rest all_content
      end
  end.
End Feed.

End Fetch.

(* ===================================================================== *)
(** ** Output models and the projector (models/output.py) *)
(* ===================================================================== *)

Module Output.

Record DealOutput : Type := {
  id : string;
  title : string;
  imageUrl : string;
  price : float;
  originalPrice : float;
  discountPercent : Z;
  category : string;
  description : string;
  affiliateUrl : string;
  featured : bool;
  dateAdded : string
}.

(** [int(x)] on a float: truncation toward zero; [ValueError] on a NaN,
    [OverflowError] on an infinity. *)
Definition int_of_float (x : float) : result Z :=
  match Prim2SF x with
  | S754_zero _ => Ok 0%Z
  | S754_finite s m e =>
      let magnitude :=
        if (0 <=? e)%Z then (Z.pos m * 2 ^ e)%Z else (Z.pos m / 2 ^ (- e))%Z in
      Ok (if s then (- magnitude)%Z else magnitude)
  | S754_infinity _ => Raise OverflowError
  | S754_nan => Raise ValueError
  end.

(** [float(n)] for an integer below 2^63 in magnitude. *)
Definition float_of_Z (n : Z) : float :=
  if (n <? 0)%Z then PrimFloat.opp (PrimFloat.of_uint63 (Uint63.of_Z (- n)))
  else PrimFloat.of_uint63 (Uint63.of_Z n).

Definition fgt (a b : float) : bool := PrimFloat.ltb b a.
Definition flt (a b : float) : bool := PrimFloat.ltb a b.
Definition fge (a b : float) : bool := PrimFloat.leb b a.

(** *** Field validators of [DealOutput] *)

Definition validate_deal_id (v : string) : result string :=
  if Content.blank v then Raise ValidationError
  else
    let v := PyStr.lower (PyStr.replace_char " " "-" (PyStr.strip v)) in
    Ok (PyStr.take 50
          (PyStr.filter_chars (fun c => PyStr.is_alnum c || PyStr.one_of "-_" c) v)).

Definition validate_deal_title (v : string) : result string :=
  if Content.blank v then Raise ValidationError else Ok (PyStr.strip v).

Definition validate_image_url (v : string) : result string :=
  if Content.blank v then Ok Content.placeholder else Ok (PyStr.strip v).

Definition validate_description (v : string) : result string :=
  if Content.blank v then Raise ValidationError else Ok (PyStr.strip v).

Definition validate_affiliate_url (v : string) : result string :=
  if Content.blank v then Raise ValidationError else Ok (PyStr.strip v).

Definition validate_category (v : string) : result string :=
  if Content.blank v then Ok "General" else Ok (PyStr.title (PyStr.strip v)).

(** [Field(0.0, ge=0.0)] *)
Definition price_field (v : float) : result float :=
  if fge v 0 then Ok v else Raise ValidationError.

(** [data.get(name, 0.0)]: [info.data] holds the fields validated so far. *)
Definition data_get (validated : result float) : float :=
  match validated with
  | Ok x => x
  | Raise _ => 0%float
  end.

Definition validate_original_price (v : float) (data_price : result float) : result float :=
  let current_price := data_get data_price in
  if flt v current_price then Ok current_price else Ok v.

Definition validate_discount_percent (v : Z) (data_price data_originalPrice : result float)
  : result Z :=
  let current_price := data_get data_price in
  let original_price := data_get data_originalPrice in
  if fgt original_price 0 && fgt current_price 0 && fgt original_price current_price then
    calculated_discount ←
      int_of_float (((original_price - current_price) / original_price) * 100)%float;
    Ok (Z.min calculated_discount 100)
  else if (v >? 0)%Z then Ok (Z.min v 100)
  else Ok 0%Z.

(** [Field(0, ge=0, le=100)] *)
Definition percent_field (v : Z) : result Z :=
  if (0 <=? v)%Z && (v <=? 100)%Z then Ok v else Raise ValidationError.

(** [s.replace('Z', '+00:00')] *)
Fixpoint replace_Z (s : string) : string :=
  match s with
  | EmptyString => EmptyString
  | String c r =>
      if Ascii.eqb c "Z" then "+00:00" +:+ replace_Z r else String c (replace_Z r)
  end.

Section Projector.
(** The standard library behind the models: [datetime.fromisoformat]
    and [datetime.strptime(_, '%Y-%m-%d')] ([None] for a [ValueError]),
    the current time, and the hexadecimal MD5 digest. *)
Variable fromisoformat : string -> option Content.datetime.
Variable strptime_ymd : string -> option Content.datetime.
Variable now : Content.datetime.
Variable md5_hexdigest : string -> string.

Definition validate_date_added (v : string) : result string :=
  if Content.blank v then Ok (Content.strftime_ymd now)
  else
    let parsed :=
      if PyStr.contains "T" v then fromisoformat (replace_Z v)
      else strptime_ymd v in
    match parsed with
    | Some dt => Ok (Content.strftime_ymd dt)
    | None => Ok (Content.strftime_ymd now)
    end.

(** A field declared with a default ([Field(0.0, ...)]): an argument that
    is passed goes through the constraint and the validator of the field;
    one that is left out takes the default as it is, for pydantic
    validates no default unless [validate_default] is set, and
    [model_config] does not set it. *)
Definition defaulted {A} (argument : option A) (default_ : A) (validate : A -> result A)
  : result A :=
  match argument with
  | Some v => validate v
  | None => Ok default_
  end.

(** [DealOutput(id=..., ...)]: the fields are validated in the order
    of their declaration, each validator seeing the ones before it
    ([info.data] holds a default that was taken, too).  [price],
    [originalPrice] and [discountPercent] may be left out; so may
    [featured], whose default [False] has no validator to miss. *)
Definition DealOutput_new
    (id_ title_ imageUrl_ : string) (price_ originalPrice_ : option float)
    (discountPercent_ : option Z) (category_ description_ affiliateUrl_ : string)
    (featured_ : bool) (dateAdded_ : string)
  : result DealOutput :=
  let id_r := validate_deal_id (PyStr.strip id_) in
  let title_r := validate_deal_title (PyStr.strip title_) in
  let image_r := validate_image_url (PyStr.strip imageUrl_) in
  let price_r := defaulted price_ 0%float price_field in
  let original_r :=
    defaulted originalPrice_ 0%float
      (fun v => v ← price_field v; validate_original_price v price_r) in
  let discount_r :=
    defaulted discountPercent_ 0%Z
      (fun v => v ← percent_field v; validate_discount_percent v price_r original_r) in
  let category_r := validate_category (PyStr.strip category_) in
  let description_r := validate_description (PyStr.strip description_) in
  let affiliate_r := validate_affiliate_url (PyStr.strip affiliateUrl_) in
  let date_r := validate_date_added (PyStr.strip dateAdded_) in
  match id_r, title_r, image_r, price_r, original_r, discount_r,
        category_r, description_r, affiliate_r, date_r with
  | Ok i, Ok t, Ok im, Ok p, Ok o, Ok d, Ok c, Ok de, Ok a, Ok da =>
      Ok {| id := i; title := t; imageUrl := im; price := p; originalPrice := o;
            discountPercent := d; category := c; description := de;
            affiliateUrl := a; featured := featured_; dateAdded := da |}
  | _, _, _, _, _, Raise OverflowError, _, _, _, _ => Raise OverflowError
  | _, _, _, _, _, _, _, _, _, _ => Raise ValidationError
  end.

(** [if config.affiliate_tag]: neither [None] nor the empty string. *)
Definition tag_set (tag : option string) : bool :=
  match tag with
  | Some t => negb (PyStr.is_empty t)
  | None => false
  end.

Definition affiliate_url_of (content_url : string) (tag : option string) : string :=
  let affiliate_url := content_url in
  if tag_set tag && PyStr.contains "amazon" (PyStr.lower affiliate_url) then
    let separator := if PyStr.contains "?" affiliate_url then "&" else "?" in
    affiliate_url +:+ separator +:+ "tag=" +:+ default "" tag
  else affiliate_url.

(** [content.quality_score > 0.8 if content.quality_score else False] *)
Definition featured_of (quality_score : float) : bool :=
  if negb (PrimFloat.eqb quality_score 0) then fgt quality_score 0.8 else false.

Definition convert_to_deal_output
    (content : Content.EnhancedContent) (config : Content.SiteConfig)
  : result DealOutput :=
  let content_hash :=
    PyStr.take 12 (md5_hexdigest (Content.title content +:+ Content.url content)) in
  let affiliate_url := affiliate_url_of (Content.url content) (Content.affiliate_tag config) in
  DealOutput_new
    content_hash
    (Content.title content)
    (Content.image content)
    (Some 0%float) (Some 0%float) (Some 0%Z)
    (Content.category content)
    (Content.excerpt content)
    affiliate_url
    (featured_of (Content.quality_score content))
    (Content.date content).
End Projector.

(** Both prices positive and the original one the larger: the guard of the
    first branch of [validate_discount_percent]. *)
Definition priced (p o : float) : bool := fgt o 0 && fgt p 0 && fgt o p.

(** *** The affiliate rule as the specification words it *)

(** The host of an absolute URL: what stands between "://" and the next
    "/", "?" or "#", without user information and port. *)
Definition url_host (u : string) : string :=
  PyStr.take_until (Ascii.eqb ":")
    (PyStr.after_last "@"
       (PyStr.take_until (PyStr.one_of "/?#") (PyStr.after_first "://" u))).

(** The tag is appended when it is set and the host contains "amazon". *)
Definition spec_affiliate_url (content_url : string) (tag : option string) : string :=
  if tag_set tag && PyStr.contains "amazon" (PyStr.lower (url_host content_url)) then
    content_url +:+ (if PyStr.contains "?" content_url then "&" else "?") +:+
    "tag=" +:+ default "" tag
  else content_url.

(** *** The run summary *)

Record OutputSummary : Type := {
  total_items : Z;
  successful_items : Z;
  failed_items : Z;
  output_file : string;
  generation_time : float;
  generated_at : Content.datetime;
  average_quality_score : option float;
  ai_enhanced_count : Z;
  categories : list string
}.

Definition OutputSummary_new (now : Content.datetime)
    (total_items_ successful_items_ failed_items_ : Z) (output_file_ : string)
    (generation_time_ : float) (average_quality_score_ : option float)
    (ai_enhanced_count_ : Z) (categories_ : list string)
  : result OutputSummary :=
  if (0 <=? total_items_)%Z && (0 <=? successful_items_)%Z && (0 <=? failed_items_)%Z &&
     fge generation_time_ 0 &&
     Content.opt_all (fun q => fge q 0 && PrimFloat.leb q 1) average_quality_score_ &&
     (0 <=? ai_enhanced_count_)%Z
  then Ok {| total_items := total_items_; successful_items := successful_items_;
             failed_items := failed_items_; output_file := output_file_;
             generation_time := generation_time_; generated_at := now;
             average_quality_score := average_quality_score_;
             ai_enhanced_count := ai_enhanced_count_; categories := categories_ |}
  else Raise ValidationError.

(** The [success_rate] property. *)
Definition success_rate (s : OutputSummary) : float :=
  if (total_items s =? 0)%Z then 0%float
  else ((float_of_Z (successful_items s) / float_of_Z (total_items s)) * 100)%float.

End Output.

(* ===================================================================== *)
(** ** Quality filtering (agents/quality_validator.py) *)
(* ===================================================================== *)

Module Quality.
Import Content.

Inductive ContentStatus : Type := RAW | ENHANCED | VALIDATED | REJECTED | PUBLISHED.

#[global] Instance ContentStatus_eq_dec : EqDecision ContentStatus.
Proof. solve_decision. Defined.

Inductive QualityIssue : Type :=
| LOW_CONTENT_QUALITY | INSUFFICIENT_INFORMATION | DUPLICATE_CONTENT
| IRRELEVANT_CONTENT | BROKEN_LINKS | MISSING_CRITICAL_FIELDS
| POOR_LANGUAGE_QUALITY | SPAM_OR_PROMOTIONAL | OUTDATED_CONTENT.

Record QualityMetrics : Type := {
  completeness_score : float;
  relevance_score : float;
  engagement_score : float;
  uniqueness_score : float;
  language_quality_score : float
}.

Record QualityResult : Type := {
  overall_quality_score : float;
  recommendation : ContentStatus;
  quality_metrics : QualityMetrics;
  issues_found : list QualityIssue;
  strengths : list string;
  improvement_suggestions : list string;
  reasoning : string
}.

(** [for content, quality in zip(content_list, quality_results): ...] *)
Fixpoint filter_loop (pairs : list (EnhancedContent * QualityResult))
    (high_quality_content : list EnhancedContent) : list EnhancedContent :=
  match pairs with
  | [] => high_quality_content
  | (content, quality) :: rest =>
      if decide (recommendation quality ∈ [VALIDATED; ENHANCED]) then
        let content := set_quality_score content (overall_quality_score quality) in
        filter_loop rest (high_quality_content ++ [content])
      else filter_loop rest high_quality_content
  end.

Definition filter_high_quality_content
    (content_list : list EnhancedContent) (quality_results : list QualityResult)
  : list EnhancedContent :=
  filter_loop (zip content_list quality_results) [].

(** What the loop does to one pair. *)
Definition kept (pair : EnhancedContent * QualityResult) : option EnhancedContent :=
  if decide (recommendation (snd pair) ∈ [VALIDATED; ENHANCED])
  then Some (set_quality_score (fst pair) (overall_quality_score (snd pair)))
  else None.

(** The assessment [batch_validate] falls back on when the agent raises. *)
Definition conservative : QualityResult :=
  {| overall_quality_score := 0.5;
     recommendation := ENHANCED;
     quality_metrics :=
       {| completeness_score := 0.5; relevance_score := 0.5; engagement_score := 0.5;
          uniqueness_score := 0.5; language_quality_score := 0.5 |};
     issues_found := [INSUFFICIENT_INFORMATION];
     strengths := [];
     improvement_suggestions := ["Batch validation failed - manual review needed"];
     reasoning := "Batch validation error" |}.

(** [batch_validate]: the agent's answer ([None] when it raises). *)
Definition batch_validate
    (agent : list EnhancedContent -> option (list QualityResult))
    (content_list : list EnhancedContent) : list QualityResult :=
  match agent content_list with
  | Some data => data
  | None => List.map (fun _ => conservative) content_list
  end.

End Quality.

(* ===================================================================== *)
(** ** Content enhancement (agents/content_enhancer.py) *)
(* ===================================================================== *)

Module Enhancer.
Import Content.

(** One call of [content_enhancer_agent.run]: it returns a result whose
    [data] is a Python value, or it raises. *)
Inductive reply : Type :=
| Data (data : pyval)
| Fails.

(** The LLM client, by its reply to the k-th call made to it. *)
Definition agent : Type := nat -> reply.

(** Computations that count the calls made so far and may raise. *)
Definition M (A : Type) : Type := nat -> nat * result A.

#[global] Instance M_ret : MRet M := fun A a calls => (calls, Ok a).
#[global] Instance M_bind : MBind M := fun A B k m calls =>
  let '(calls', r) := m calls in
  match r with
  | Ok a => k a calls'
  | Raise e => (calls', Raise e)
  end.

Definition lift {A} (r : result A) : M A := fun calls => (calls, r).

Definition run (llm : agent) : M pyval := fun calls =>
  (S calls, match llm calls with Data v => Ok v | Fails => Raise LLMError end).

Definition engagement_words : list string := ["how"; "why"; "what"; "best"; "top"].

(** [len(title) < 30 or not any(word in title.lower() for word in [...])] *)
Definition title_needs_work (title : string) : bool :=
  (String.length title <? 30)%nat ||
  negb (existsb (fun word => PyStr.contains word (PyStr.lower title)) engagement_words).

(** Truthiness of an [Optional[HttpUrl]] attribute: a URL object is true. *)
Definition is_present (o : option string) : bool :=
  match o with
  | Some _ => true
  | None => false
  end.

(** Truthiness of an [Optional[str]] attribute. *)
Definition opt_truthy (o : option string) : bool :=
  match o with
  | Some s => negb (PyStr.is_empty s)
  | None => false
  end.

(** [generated_content.get(key, default)]: only a dict has [get]. *)
Definition generated_get (generated_content : pyval) (key : string) (default : pyval)
  : result pyval :=
  match generated_content with
  | PDict d => Ok (dict_get_default d key default)
  | _ => Raise AttributeError
  end.

Definition eq_str (v : pyval) (s : string) : bool :=
  match v with
  | PStr t => String.eqb t s
  | _ => false
  end.

Definition notes_of (ai_generated_fields : list string) : string :=
  "Enhanced by ContentEnhancerAgent with " +:+
  PyStr.of_Z (Z.of_nat (List.length ai_generated_fields)) +:+ " field(s) improved".

(** [x or y] where [x] is an optional attribute and [y] may raise. *)
Definition or_else (o : option string) (truthy_ : bool) (rest : result pyval) : result pyval :=
  match o with
  | Some s => if truthy_ then Ok (PStr s) else rest
  | None => rest
  end.

Definition enhance_content (llm : agent) (now : datetime) (raw_content : RawContent)
  : M EnhancedContent :=
  enhanced_excerpt ← run llm;
  let ai_generated_fields :=
    if negb (eq_opt_str enhanced_excerpt (raw_excerpt raw_content)) then ["excerpt"] else [] in
  '(enhanced_title, ai_generated_fields) ←
    (if title_needs_work (raw_title raw_content) then
       improved ← run llm;
       mret (improved,
             if negb (eq_str improved (raw_title raw_content))
             then ai_generated_fields ++ ["title"] else ai_generated_fields)
     else mret (PStr (raw_title raw_content), ai_generated_fields));
  let missing_fields :=
    (if is_present (raw_image raw_content) then [] else ["image"]) ++
    (if opt_truthy (raw_category raw_content) then [] else ["category"]) in
  '(generated_content, ai_generated_fields) ←
    (match missing_fields with
     | [] => mret (PDict [], ai_generated_fields)
     | _ =>
         generated ← run llm;
         mret (generated, ai_generated_fields ++ missing_fields)
     end);
  image_ ← lift (or_else (raw_image raw_content) true
                   (generated_get generated_content "image" (PStr placeholder)));
  category_ ← lift (or_else (raw_category raw_content) (opt_truthy (raw_category raw_content))
                      (generated_get generated_content "category" (PStr "General")));
  lift (EnhancedContent_new now
          enhanced_title
          (PStr (raw_url raw_content))
          image_
          enhanced_excerpt
          category_
          (PStr (if opt_truthy (raw_date raw_content)
                 then default "" (raw_date raw_content)
                 else strftime_ymd (scraped_at raw_content)))
          0.8
          ai_generated_fields
          (Some (notes_of ai_generated_fields))
          (Some raw_content)).

End Enhancer.

(* ===================================================================== *)
(** ** The pipeline (main.py) *)
(* ===================================================================== *)

Module Pipeline.
Import Content.

(** [self.stats] *)
Record Stats : Type := {
  total_scraped : Z;
  total_enhanced : Z;
  total_validated : Z;
  total_output : Z;
  errors : Z;
  start_time : option datetime;
  end_time : option datetime
}.

(** What a run reads and changes: its statistics, the number of calls
    made to the LLM client, and the JSON files on disk, each by the
    records of its array. *)
Record state : Type := {
  stats : Stats;
  llm_calls : nat;
  files : gmap string (list Output.DealOutput)
}.

Definition initial_stats : Stats :=
  {| total_scraped := 0; total_enhanced := 0; total_validated := 0; total_output := 0;
     errors := 0; start_time := None; end_time := None |}.

Definition with_stats (f : Stats -> Stats) (st : state) : state :=
  {| stats := f (stats st); llm_calls := llm_calls st; files := files st |}.

Definition set_total_scraped (n : Z) (s : Stats) : Stats :=
  {| total_scraped := n; total_enhanced := total_enhanced s;
     total_validated := total_validated s; total_output := total_output s;
     errors := errors s; start_time := start_time s; end_time := end_time s |}.
Definition set_total_enhanced (n : Z) (s : Stats) : Stats :=
  {| total_scraped := total_scraped s; total_enhanced := n;
     total_validated := total_validated s; total_output := total_output s;
     errors := errors s; start_time := start_time s; end_time := end_time s |}.
Definition set_total_validated (n : Z) (s : Stats) : Stats :=
  {| total_scraped := total_scraped s; total_enhanced := total_enhanced s;
     total_validated := n; total_output := total_output s;
     errors := errors s; start_time := start_time s; end_time := end_time s |}.
Definition set_total_output (n : Z) (s : Stats) : Stats :=
  {| total_scraped := total_scraped s; total_enhanced := total_enhanced s;
     total_validated := total_validated s; total_output := n;
     errors := errors s; start_time := start_time s; end_time := end_time s |}.
Definition add_error (s : Stats) : Stats :=
  {| total_scraped := total_scraped s; total_enhanced := total_enhanced s;
     total_validated := total_validated s; total_output := total_output s;
     errors := errors s + 1; start_time := start_time s; end_time := end_time s |}.
Definition set_start_time (t : datetime) (s : Stats) : Stats :=
  {| total_scraped := total_scraped s; total_enhanced := total_enhanced s;
     total_validated := total_validated s; total_output := total_output s;
     errors := errors s; start_time := Some t; end_time := end_time s |}.
Definition set_end_time (t : datetime) (s : Stats) : Stats :=
  {| total_scraped := total_scraped s; total_enhanced := total_enhanced s;
     total_validated := total_validated s; total_output := total_output s;
     errors := errors s; start_time := start_time s; end_time := Some t |}.

Definition set_llm_calls (n : nat) (st : state) : state :=
  {| stats := stats st; llm_calls := n; files := files st |}.

Definition len {A} (l : list A) : Z := Z.of_nat (List.length l).

(** [raw_content[i:i + batch_size] for i in range(0, len(raw_content), batch_size)] *)
Fixpoint batches_from {A} (fuel batch_size : nat) (l : list A) : list (list A) :=
  match fuel with
  | O => []
  | S fuel' =>
      match l with
      | [] => []
      | _ => firstn batch_size l :: batches_from fuel' batch_size (skipn batch_size l)
      end
  end.
Definition batches {A} (batch_size : nat) (l : list A) : list (list A) :=
  batches_from (List.length l) batch_size l.

Section Run.
(** The configuration, and the world around one run: whether the agents
    could be built, what the scraper module returns, the LLM client
    behind the enhancer, the answer of the validation agent, which
    paths can be written, and the clock. *)
Variable config : SiteConfig.
Variable agents_initialized : bool.
Variable scrape_all_feeds : result (list RawContent).
Variable llm : Enhancer.agent.
Variable validator : list EnhancedContent -> option (list Quality.QualityResult).
Variable can_write : string -> bool.
Variable t_start t_end now : datetime.
Variable fromisoformat : string -> option datetime.
Variable strptime_ymd : string -> option datetime.
Variable md5_hexdigest : string -> string.

(** [self.ai_agents_enabled], as [__init__] leaves it. *)
Definition ai_agents_enabled : bool :=
  ai_enhancement_enabled config && agents_initialized.

Definition _scrape_content (st : state) : state * list RawContent :=
  match scrape_all_feeds with
  | Ok raw_content => (st, raw_content)
  | Raise _ => (with_stats add_error st, [])
  end.

Definition date_or_scraped (content : RawContent) : string :=
  if Enhancer.opt_truthy (raw_date content) then default "" (raw_date content)
  else strftime_ymd (scraped_at content).

Definition image_or_placeholder (content : RawContent) : string :=
  match raw_image content with
  | Some u => u
  | None => placeholder
  end.

Definition excerpt_or_default (content : RawContent) : string :=
  if Enhancer.opt_truthy (raw_excerpt content) then default "" (raw_excerpt content)
  else "Learn more about " +:+ raw_title content.

Definition category_or_general (content : RawContent) : string :=
  if Enhancer.opt_truthy (raw_category content) then default "" (raw_category content)
  else "General".

(** The [EnhancedContent(...)] both fallbacks build from a raw item. *)
Definition minimal_enhanced (quality_score_ : float) (notes : string) (content : RawContent)
  : result EnhancedContent :=
  EnhancedContent_new now
    (PStr (raw_title content))
    (PStr (raw_url content))
    (PStr (image_or_placeholder content))
    (PStr (excerpt_or_default content))
    (PStr (category_or_general content))
    (PStr (date_or_scraped content))
    quality_score_
    []
    (Some notes)
    (Some content).

(** The inner loop of [_enhance_content]: the constructor call in the
    [except] branch is not itself guarded. *)
Fixpoint enhance_batch (batch : list RawContent) (st : state)
    (enhanced_content : list EnhancedContent)
  : state * result (list EnhancedContent) :=
  match batch with
  | [] => (st, Ok enhanced_content)
  | content :: rest =>
      let '(calls, r) := Enhancer.enhance_content llm now content (llm_calls st) in
      let st := set_llm_calls calls st in
      match r with
      | Ok enhanced => enhance_batch rest st (enhanced_content ++ [enhanced])
      | Raise _ =>
          match minimal_enhanced 0.6 "Enhancement failed, using original content" content with
          | Ok enhanced =>
              enhance_batch rest (with_stats add_error st) (enhanced_content ++ [enhanced])
          | Raise e => (st, Raise e)
          end
      end
  end.

Fixpoint enhance_batches (bs : list (list RawContent)) (st : state)
    (enhanced_content : list EnhancedContent)
  : state * result (list EnhancedContent) :=
  match bs with
  | [] => (st, Ok enhanced_content)
  | batch :: rest =>
      let '(st, r) := enhance_batch batch st enhanced_content in
      match r with
      | Ok enhanced_content => enhance_batches rest st enhanced_content
      | Raise e => (st, Raise e)
      end
  end.

Definition _enhance_content (raw_content : list RawContent) (st : state)
  : state * list EnhancedContent :=
  let batch_size := 5%nat in
  let '(st, r) := enhance_batches (batches batch_size raw_content) st [] in
  match r with
  | Ok enhanced_content => (st, enhanced_content)
  | Raise _ => (with_stats add_error st, [])
  end.

Definition _validate_content (enhanced_content : list EnhancedContent) (st : state)
  : state * list EnhancedContent :=
  let quality_results := Quality.batch_validate validator enhanced_content in
  (st, Quality.filter_high_quality_content enhanced_content quality_results).

Fixpoint convert_loop (raw_content : list RawContent) (st : state)
    (enhanced_content : list EnhancedContent) : state * list EnhancedContent :=
  match raw_content with
  | [] => (st, enhanced_content)
  | content :: rest =>
      match minimal_enhanced 0.7 "No AI enhancement applied" content with
      | Ok enhanced => convert_loop rest st (enhanced_content ++ [enhanced])
      | Raise _ => convert_loop rest (with_stats add_error st) enhanced_content
      end
  end.

Definition _convert_raw_to_enhanced (raw_content : list RawContent) (st : state)
  : state * list EnhancedContent :=
  convert_loop raw_content st [].

Fixpoint output_loop (validated_content : list EnhancedContent) (st : state)
    (output_data : list Output.DealOutput) : state * list Output.DealOutput :=
  match validated_content with
  | [] => (st, output_data)
  | content :: rest =>
      match Output.convert_to_deal_output fromisoformat strptime_ymd now md5_hexdigest
              content config with
      | Ok deal_output => output_loop rest st (output_data ++ [deal_output])
      | Raise _ => output_loop rest (with_stats add_error st) output_data
      end
  end.

Definition _generate_output (validated_content : list EnhancedContent) (st : state)
  : state * list Output.DealOutput :=
  output_loop validated_content st [].

Definition _write_output_file (output_data : list Output.DealOutput) (output_path : string)
    (st : state) : state * result unit :=
  if can_write output_path then
    ({| stats := stats st; llm_calls := llm_calls st;
        files := <[output_path := output_data]> (files st) |}, Ok tt)
  else (with_stats add_error st, Raise OSError).

Definition count_true (l : list bool) : Z := len (List.filter (fun b => b) l).

Definition _create_output_summary (st : state) (output_path : string)
    (output_data : list Output.DealOutput) : result Output.OutputSummary :=
  let processing_time :=
    match start_time (stats st), end_time (stats st) with
    | Some s, Some e => (Output.float_of_Z (micros e - micros s) / 1000000)%float
    | _, _ => 0%float
    end in
  let quality_scores := List.map Output.featured output_data in
  let avg_quality :=
    match quality_scores with
    | [] => 0%float
    | _ => (Output.float_of_Z (count_true quality_scores) /
            Output.float_of_Z (len quality_scores))%float
    end in
  let categories := remove_dups (List.map Output.category output_data) in
  Output.OutputSummary_new now
    (total_scraped (stats st))
    (total_output (stats st))
    (errors (stats st))
    output_path
    processing_time
    (Some avg_quality)
    (if ai_agents_enabled then total_enhanced (stats st) else 0)
    categories.

(** The body of the [try] in [run_pipeline]. *)
Definition phases (output_path : string) (st : state)
  : state * result Output.OutputSummary :=
  let '(st, raw_content) := _scrape_content st in
  let st := with_stats (set_total_scraped (len raw_content)) st in
  match raw_content with
  | [] => (st, _create_output_summary st output_path [])
  | _ =>
      let '(st, validated_content) :=
        if ai_agents_enabled then
          let '(st, enhanced_content) := _enhance_content raw_content st in
          let st := with_stats (set_total_enhanced (len enhanced_content)) st in
          let '(st, validated_content) := _validate_content enhanced_content st in
          (with_stats (set_total_validated (len validated_content)) st, validated_content)
        else
          let '(st, validated_content) := _convert_raw_to_enhanced raw_content st in
          let st := with_stats (set_total_enhanced (len validated_content)) st in
          (with_stats (set_total_validated (len validated_content)) st, validated_content) in
      let '(st, output_data) := _generate_output validated_content st in
      let st := with_stats (set_total_output (len output_data)) st in
      let '(st, written) := _write_output_file output_data output_path st in
      match written with
      | Raise e => (st, Raise e)
      | Ok _ =>
          let st := with_stats (set_end_time t_end) st in
          (st, _create_output_summary st output_path output_data)
      end
  end.

Definition run_pipeline (output_path : string) (st : state)
  : state * result Output.OutputSummary :=
  let st := with_stats (set_start_time t_start) st in
  let '(st, r) := phases output_path st in
  match r with
  | Ok summary => (st, Ok summary)
  | Raise e => (with_stats (set_end_time t_end) (with_stats add_error st), Raise e)
  end.
End Run.

End Pipeline.

(* ===================================================================== *)
(** ** Sources that yield nothing *)
(* ===================================================================== *)

Module Barren.
Import Fetch.

(** An outcome after which a scraper has no document to parse: the session
    raised, the server answered 304, or it answered with a 4xx or 5xx. *)
Definition barren (o : outcome) : bool :=
  match o with
  | Failed _ => true
  | Replied response =>
      (status_code response =? 304)%Z ||
      ((400 <=? status_code response)%Z && (status_code response <? 600)%Z)
  end.

End Barren.

(* ===================================================================== *)
(** ** The validation tool (agents/quality_validator.py) *)
(* ===================================================================== *)

Module QualityTool.
Import Content Quality.

(** [result.recommendation = status] *)
Definition set_recommendation (r : QualityResult) (status : ContentStatus) : QualityResult :=
  {| overall_quality_score := overall_quality_score r;
     recommendation := status;
     quality_metrics := quality_metrics r;
     issues_found := issues_found r;
     strengths := strengths r;
     improvement_suggestions := improvement_suggestions r;
     reasoning := reasoning r |}.

Section Tool.
(** [str(e)] for the exception the LLM call raised. *)
Variable describe : exn -> string.

(** [validate_content_quality], by the answer of [ctx.run_llm]: the
    recommendation is set from the score; a failure gives the conservative
    assessment. *)
Definition validate_content_quality (quality_threshold : float)
    (run_llm : result QualityResult) : QualityResult :=
  match run_llm with
  | Ok result =>
      if Output.fge (overall_quality_score result) 0.8
      then set_recommendation result VALIDATED
      else if Output.fge (overall_quality_score result) quality_threshold
           then set_recommendation result ENHANCED
           else set_recommendation result REJECTED
  | Raise e =>
      {| overall_quality_score := 0.5;
         recommendation := ENHANCED;
         quality_metrics :=
           {| completeness_score := 0.5; relevance_score := 0.5; engagement_score := 0.5;
              uniqueness_score := 0.5; language_quality_score := 0.5 |};
         issues_found := [INSUFFICIENT_INFORMATION];
         strengths := [];
         improvement_suggestions := ["Quality validation failed - manual review needed"];
         reasoning := "Quality validation error: " +:+ describe e |}
  end.
End Tool.

End QualityTool.

(* ===================================================================== *)
(** ** What the enhancement phase makes of an item *)
(* ===================================================================== *)

Module Outcome.
Import Content.

Definition substitute_note : string := "Enhancement failed, using original content".

(** The item is the enhancer's, or the degraded substitute, of [raw]. *)
Definition enhanced_from (raw : RawContent) (e : EnhancedContent) : Prop :=
  original_content e = Some raw /\
  (quality_score e = 0.8%float \/
   (quality_score e = 0.6%float /\ ai_generated_fields e = [] /\
    enhancement_notes e = Some substitute_note)).

(** The substitute of the item passes the validation of [EnhancedContent]. *)
Definition substitutable (now : datetime) (raw : RawContent) : bool :=
  is_ok (Pipeline.minimal_enhanced now 0.6 substitute_note raw).

End Outcome.

(* ===================================================================== *)
(** ** What the phases before the write leave alone *)
(* ===================================================================== *)

Module Frame.
Import Pipeline.

(** Between two states of one run: same files, same scrape count and
    start time, and no fewer errors. *)
Definition unchanged (st st' : state) : Prop :=
  files st' = files st /\
  total_scraped (stats st') = total_scraped (stats st) /\
  start_time (stats st') = start_time (stats st) /\
  (errors (stats st) <= errors (stats st'))%Z.

End Frame.

(* ===================================================================== *)
(** ** The digest behind the record identifier *)
(* ===================================================================== *)

Module Digest.

Definition is_hex (c : ascii) : bool := PyStr.one_of "0123456789abcdef" c.

(** What [hashlib.md5(...).hexdigest()] returns: 32 lower-case
    hexadecimal digits. *)
Definition hex_digest (d : string) : bool :=
  (String.length d =? 32)%nat && PyStr.all_chars is_hex d.

End Digest.

(* ===================================================================== *)
(** ** The site configuration (models/config.py, config/validator.py) *)
(* ===================================================================== *)

Module ConfigFile.
Import Content.









(** The dict comprehension of [_filter_comments]: the key is tested
    first, the value filtered only when the key stays. *)
Definition filter_items (f : pyval -> pyval)
  : list (string * pyval) -> list (string * pyval) :=
  fix go (items : list (string * pyval)) : list (string * pyval) :=
    match items with
    | [] => []
    | kv :: rest =>
        if PyStr.startswith "//" (fst kv) then go rest
        else (fst kv, f (snd kv)) :: go rest
    end.

Fixpoint _filter_comments (data : pyval) : pyval :=
  match data with
  | PDict items => PDict (filter_items _filter_comments items)
  | PList items => PList (List.map _filter_comments items)
  | _ => data
  end.

(** No key that starts with "//", at any depth. *)
Fixpoint comment_free (data : pyval) : bool :=
  match data with
  | PDict items =>
      forallb (fun kv => negb (PyStr.startswith "//" (fst kv)) && comment_free (snd kv)) items
  | PList items => forallb comment_free items
  | _ => true
  end.

End ConfigFile.

(* ===================================================================== *)
(** ** What the fallback constructors accept *)
(* ===================================================================== *)

Module Keep.
Import Content.

(** A scraped item the fallback [EnhancedContent(...)] of [main.py]
    accepts: it has an image, and its excerpt has 10 to 500 characters
    or, when there is none, its title leaves room for the 17 characters
    of "Learn more about ". *)
Definition keepable (raw : RawContent) : bool :=
  Enhancer.is_present (raw_image raw) &&
  match raw_excerpt raw with
  | Some e => len_between 10 500 e
  | None => (String.length (raw_title raw) <=? 483)%nat
  end.

(** A scraped item that reaches the output file of a run without AI: it
    is kept by the fallback constructor, and something is left of its
    title once the trailing "!", "?" and "." are taken off. *)
Definition reaches_output (raw : RawContent) : bool :=
  keepable raw && negb (PyStr.is_empty (PyStr.rstrip_chars "!?." (raw_title raw))).

End Keep.

(* ===================================================================== *)
(** ** The tools of the enhancement agent (agents/content_enhancer.py) *)
(* ===================================================================== *)

Module EnhancerTools.





End EnhancerTools.

(* ===================================================================== *)
(** ** Concrete inputs used in the statements below *)
(* ===================================================================== *)

Module Samples.
Import Content Fetch.

(** A session that answers every request the same way. *)
Definition always (response : Response) : session := fun _ _ => Replied response.

Definition feed_url : string := "https://example.com/rss.xml".

Definition primed : gmap string cache_data :=
  {[ feed_url := {| etag := Some "abc123"; last_modified := None |} ]}.

(** A server that honours [If-None-Match: abc123] with a 304. *)
Definition conditional : session := fun _ request =>
  match header_get request "If-None-Match" with
  | Some "abc123" => Replied {| status_code := 304; headers := [("ETag", "abc123")]; content := "" |}
  | _ => Replied {| status_code := 200; headers := [("ETag", "abc123")]; content := "<rss/>" |}
  end.

Definition not_found : Response :=
  {| status_code := 404; headers := [("ETag", "gone-1")]; content := "" |}.

Definition bare_ok : Response :=
  {| status_code := 200; headers := [("Content-Type", "text/xml")]; content := "<rss/>" |}.

Definition fresh_ok : Response :=
  {| status_code := 200;
     headers := [("etag", "v2"); ("Last-Modified", "Tue, 03 Nov 2026 10:00:00 GMT")];
     content := "<rss/>" |}.

(** A clock reading, a date parser that knows no date, and a digest. *)
Definition noon : datetime := {| micros := 1793707200000000; year := 2026; month := 11; day := 3 |}.
Definition no_date : string -> option datetime := fun _ => None.
Definition digest : string -> string := fun _ => "9e107d9d372bb6826bd81d3542a419d6".

Definition site (tag : option string) (ai : bool) : SiteConfig :=
  {| site_name := "Couponing Canada";
     scraper_type := RSS;
     feeds := [feed_url];
     content_mapping :=
       {| map_title := "title"; map_url := "link"; map_image := "media_thumbnail.0.url";
          map_excerpt := "summary"; map_category := None; map_date := Some "published" |};
     update_interval := 3600;
     ai_enhancement_enabled := ai;
     affiliate_tag := tag |}.

(** An article of another site whose path, not its host, names Amazon. *)
Definition roundup : EnhancedContent :=
  {| title := "Ten Kitchen Gadgets Worth Buying";
     url := "https://example.com/amazon-deals";
     image := "https://example.com/gadgets.jpg";
     excerpt := "A short list of kitchen gadgets that earn their place.";
     category := "Home";
     date := "2026-11-03";
     quality_score := 0.9;
     ai_generated_fields := [];
     enhancement_notes := None;
     enhanced_at := noon;
     original_content := None |}.

Definition amazon_item : EnhancedContent :=
  {| title := "Stand Mixer";
     url := "https://www.amazon.ca/dp/B00005UP2P?th=1";
     image := "https://example.com/mixer.jpg";
     excerpt := "A stand mixer at its lowest price of the year.";
     category := "Home";
     date := "2026-11-03";
     quality_score := 0.7;
     ai_generated_fields := [];
     enhancement_notes := None;
     enhanced_at := noon;
     original_content := None |}.

(** Three deals, as [DealOutput] validates them. *)
Definition mixer_deal : Output.DealOutput :=
  {| Output.id := "deal-1"; Output.title := "Stand Mixer";
     Output.imageUrl := "/placeholder-deal.svg";
     Output.price := 49.99; Output.originalPrice := 99.99; Output.discountPercent := 50;
     Output.category := "Home"; Output.description := "A stand mixer.";
     Output.affiliateUrl := "https://example.com/mixer"; Output.featured := false;
     Output.dateAdded := "2026-11-03" |}.

Definition blender_deal : Output.DealOutput :=
  {| Output.id := "deal-2"; Output.title := "Blender";
     Output.imageUrl := "/placeholder-deal.svg";
     Output.price := 0; Output.originalPrice := 0; Output.discountPercent := 30;
     Output.category := "Home"; Output.description := "A blender.";
     Output.affiliateUrl := "https://example.com/blender"; Output.featured := false;
     Output.dateAdded := "2026-11-03" |}.

Definition kettle_deal : Output.DealOutput :=
  {| Output.id := "deal-3"; Output.title := "Kettle";
     Output.imageUrl := "/placeholder-deal.svg";
     Output.price := 0; Output.originalPrice := 0; Output.discountPercent := 0;
     Output.category := "Home"; Output.description := "A kettle.";
     Output.affiliateUrl := "https://example.com/kettle"; Output.featured := false;
     Output.dateAdded := "2026-11-03" |}.

(** Two scraped items with every field present; the excerpt of the second
    is seven characters long. *)
Definition flyer : RawContent :=
  {| raw_title := "Weekly Grocery Flyer Roundup";
     raw_url := "https://example.com/flyers/week-45";
     raw_image := Some "https://example.com/flyers/week-45.jpg";
     raw_excerpt := Some "This week's grocery flyers, compared store by store.";
     raw_category := Some "Groceries";
     raw_date := Some "2026-11-02";
     source_data := PDict [];
     scraped_at := noon;
     raw_scraper_type := "rss";
     source_url := feed_url |}.

Definition terse : RawContent :=
  {| raw_title := "Diapers on sale at the pharmacy";
     raw_url := "https://example.com/deals/diapers";
     raw_image := Some "https://example.com/deals/diapers.jpg";
     raw_excerpt := Some "50% off";
     raw_category := Some "Baby";
     raw_date := Some "2026-11-03";
     source_data := PDict [];
     scraped_at := noon;
     raw_scraper_type := "rss";
     source_url := feed_url |}.

(** A scraped item without an image. *)
Definition imageless : RawContent :=
  {| raw_title := "The best coupon apps in Canada, compared";
     raw_url := "https://example.com/guides/coupon-apps";
     raw_image := None;
     raw_excerpt := Some "Which coupon apps pay off, and which ones waste your time.";
     raw_category := Some "Guides";
     raw_date := Some "2026-11-01";
     source_data := PDict [];
     scraped_at := noon;
     raw_scraper_type := "rss";
     source_url := feed_url |}.

(** An LLM client that serves the first item (excerpt, then title) and
    raises from the third call on. *)
Definition falters : Enhancer.agent := fun k =>
  match k with
  | 0%nat => Enhancer.Data (PStr "This week's grocery flyers compared store by store, with the best buys.")
  | 1%nat => Enhancer.Data (PStr "Best Weekly Grocery Flyer Roundup for Canadian Shoppers")
  | _ => Enhancer.Fails
  end.

(** An LLM client that rewrites the excerpt and then answers the request
    for missing fields with the given document. *)
Definition answers (generated : pyval) : Enhancer.agent := fun k =>
  match k with
  | 0%nat => Enhancer.Data (PStr "Which coupon apps pay off and which ones waste your time: a comparison.")
  | _ => Enhancer.Data generated
  end.

Definition fresh (files : gmap string (list Output.DealOutput)) : Pipeline.state :=
  {| Pipeline.stats := Pipeline.initial_stats; Pipeline.llm_calls := 0; Pipeline.files := files |}.

(** Three assessments: publish as is, reject, publish after enhancement. *)
Definition assessment (score : float) (status : Quality.ContentStatus) : Quality.QualityResult :=
  {| Quality.overall_quality_score := score;
     Quality.recommendation := status;
     Quality.quality_metrics :=
       {| Quality.completeness_score := score; Quality.relevance_score := score;
          Quality.engagement_score := score; Quality.uniqueness_score := score;
          Quality.language_quality_score := score |};
     Quality.issues_found := [];
     Quality.strengths := [];
     Quality.improvement_suggestions := [];
     Quality.reasoning := "sample" |}.

(** A second feed, never fetched before. *)
Definition other_feed : string := "https://example.org/atom.xml".

(** A scraped item with every field present and of the expected size. *)
Definition imageful : RawContent :=
  {| raw_title := "Winter tires: rebates by brand";
     raw_url := "https://example.com/deals/winter-tires";
     raw_image := Some "https://example.com/deals/winter-tires.jpg";
     raw_excerpt := Some "Mail-in rebates on winter tires, brand by brand.";
     raw_category := Some "Automotive";
     raw_date := Some "2026-11-03";
     source_data := PDict [];
     scraped_at := noon;
     raw_scraper_type := "rss";
     source_url := feed_url |}.

(** A configuration document with comments at two depths. *)
Definition commented : pyval :=
  PDict [("// note", PStr "copy this file to config.json");
         ("site_name", PStr "Couponing Canada");
         ("content_mapping",
          PDict [("title", PStr "title"); ("// image", PStr "optional"); ("url", PStr "link")]);
         ("feeds", PList [PDict [("//", PNone); ("href", PStr "https://example.com/feed")]])].

(** A well-formed item whose title is punctuation only. *)
Definition shouting : RawContent :=
  {| raw_title := "?!";
     raw_url := "https://example.com/deals/mystery";
     raw_image := Some "https://example.com/deals/mystery.jpg";
     raw_excerpt := Some "A mystery deal, revealed at noon.";
     raw_category := Some "Deals";
     raw_date := Some "2026-11-03";
     source_data := PDict [];
     scraped_at := noon;
     raw_scraper_type := "rss";
     source_url := feed_url |}.

End Samples.

(* ===================================================================== *)
(** * Properties *)
(* ===================================================================== *)

Module ExtractorFacts.
Import Extractor.

Lemma digits_value_nonneg (s : string) :
  forall acc, (0 <= acc)%Z -> (0 <= PyStr.digits_value acc s)%Z.
Proof.
  induction s as [|c r IH]; intros acc Hacc; simpl; [assumption|].
  apply IH. lia.
Qed.

Lemma dict_get_missing (d : list (string * pyval)) (key : string) :
  dict_has d key = false -> dict_get d key = PNone.
Proof.
  induction d as [|[k v] rest IH]; simpl; [reflexivity|].
  destruct (String.eqb k key); simpl; [discriminate|exact IH].
Qed.

Lemma list_getitem_in_range (l : list pyval) (i : Z) :
  (0 <= i)%Z -> (i < Z.of_nat (List.length l))%Z ->
  exists v, nth_error l (Z.to_nat i) = Some v /\ list_getitem l i = Ok v.
Proof.
  intros H0 Hlt. unfold list_getitem.
  destruct (Z.ltb_spec i 0) as [Hneg|_]; [lia|].
  destruct (nth_error l (Z.to_nat i)) as [v|] eqn:E.
  - exists v. split; reflexivity.
  - apply nth_error_None in E. lia.
Qed.

(** The loop computes the path semantics: it falls through with the node
    the path leads to, and returns [None] when the path leads nowhere. *)
Lemma walk_resolves (parts : list string) :
  forall value,
    walk value parts =
    Ok (match spec_resolve value parts with
        | Some v => Fell v
        | None => Returned None
        end).
Proof.
  induction parts as [|part rest IH]; intros value; [reflexivity|].
  destruct value as [| b | z | r | s | l | d]; try reflexivity.
  - (* a sequence *)
    simpl. destruct (PyStr.isdigit part) eqn:Hd; [|reflexivity].
    unfold int_of_str. rewrite Hd. simpl.
    pose proof (digits_value_nonneg part 0 ltac:(lia)) as Hnn.
    set (index := PyStr.digits_value 0 part) in *.
    destruct (Z.leb_spec 0 index) as [_|Hneg]; [|lia]. simpl.
    destruct (Z.ltb_spec index (Z.of_nat (List.length l))) as [Hin|Hout].
    + destruct (list_getitem_in_range l index Hnn Hin) as (v & Hnth & Hget).
      rewrite Hget, Hnth. simpl.
      destruct v; simpl; try apply IH; reflexivity.
    + assert (nth_error l (Z.to_nat index) = None) as ->
        by (apply nth_error_None; lia).
      reflexivity.
  - (* a mapping *)
    simpl. destruct (dict_has d part) eqn:Hh.
    + destruct (dict_get d part); simpl; try apply IH; reflexivity.
    + rewrite (dict_get_missing _ _ Hh). reflexivity.
Qed.

Lemma to_text_coerces (value : pyval) :
  to_text value = Ok (if is_none value then None else Some (spec_coerce value)).
Proof.
  destruct value as [| b | z | r | s | l | d]; try reflexivity.
  - destruct l as [|first rest]; reflexivity.
  - unfold to_text, spec_coerce. simpl.
    destruct (dict_has d "url") eqn:Hu; [|reflexivity].
    unfold dict_getitem. rewrite Hu. reflexivity.
Qed.

Lemma extract_is_spec (data : pyval) (field_path : string) :
  _extract_field_value data field_path = Ok (spec_extract data field_path).
Proof.
  unfold _extract_field_value, spec_extract.
  rewrite walk_resolves.
  destruct (spec_resolve data (PyStr.split "." field_path)) as [v|]; simpl; [|reflexivity].
  rewrite to_text_coerces. destruct v; reflexivity.
Qed.

Lemma spec_resolve_app (pre post : list string) :
  forall data v,
    spec_resolve data pre = Some v ->
    spec_resolve data (pre ++ post) = spec_resolve v post.
Proof.
  induction pre as [|seg pre IH]; intros data v H; simpl in *.
  - congruence.
  - destruct (spec_child data seg) as [child|]; [|discriminate].
    destruct child; try discriminate; apply IH; assumption.
Qed.

Lemma no_step_child (v : pyval) (segment : string) :
  no_step v segment -> spec_child v segment = None.
Proof.
  destruct v as [| b | z | r | s | l | d]; simpl; try reflexivity.
  - intros [Hd|Hout].
    + rewrite Hd. reflexivity.
    + destruct (PyStr.isdigit segment); [|reflexivity].
      apply nth_error_None. lia.
  - intros ->. reflexivity.
Qed.

(** C5: field extraction never raises; a missing key, an index out of
    range or a type mismatch anywhere on the path gives [None]; a path
    that ends on a mapping with a "url" key gives that key's value; and
    the path "a.b.0" in {"a": {"b": [{"url": "X"}]}} gives "X". *)
Theorem extract_field_value_soft_and_coercing (data : pyval) (field_path : string) :
  _extract_field_value data field_path = Ok (spec_extract data field_path) /\
  (forall pre segment post v,
      PyStr.split "." field_path = pre ++ segment :: post ->
      spec_resolve data pre = Some v ->
      no_step v segment ->
      _extract_field_value data field_path = Ok None) /\
  (forall d,
      spec_resolve data (PyStr.split "." field_path) = Some (PDict d) ->
      dict_has d "url" = true ->
      _extract_field_value data field_path = Ok (Some (str (dict_get d "url")))) /\
  _extract_field_value
    (PDict [("a", PDict [("b", PList [PDict [("url", PStr "X")]])])]) "a.b.0"
  = Ok (Some "X").
Proof.
  split; [apply extract_is_spec|]. split; [|split].
  - intros pre segment post v Hsplit Hpre Hno.
    rewrite extract_is_spec. unfold spec_extract.
    rewrite Hsplit, (spec_resolve_app pre (segment :: post) data v Hpre).
    simpl. rewrite (no_step_child v segment Hno). reflexivity.
  - intros d Hres Hurl.
    rewrite extract_is_spec. unfold spec_extract. rewrite Hres.
    simpl. rewrite Hurl. reflexivity.
  - reflexivity.
Qed.

(** The theorem at the document {"a": {"b": [1], "c": {"url": "U"}}}:
    the path "a.b.3" runs beyond the end of the sequence, the path "a.c"
    ends on a mapping with a "url" key. *)
Lemma extract_field_value_witness :
  let doc := PDict [("a", PDict [("b", PList [PInt 1]); ("c", PDict [("url", PStr "U")])])] in
  _extract_field_value doc "a.b.3" = Ok None /\
  _extract_field_value doc "a.c" = Ok (Some "U").
Proof.
  intros doc. split.
  - apply (proj1 (proj2 (extract_field_value_soft_and_coercing doc "a.b.3"))
             ["a"; "b"] "3" [] (PList [PInt 1])).
    + reflexivity.
    + reflexivity.
    + right. simpl. lia.
  - apply (proj1 (proj2 (proj2 (extract_field_value_soft_and_coercing doc "a.c")))
             [("url", PStr "U")]).
    + reflexivity.
    + reflexivity.
Defined.

End ExtractorFacts.

Module FetchFacts.
Import Content Fetch Samples.

(** C3, as stated, fails: a 404 that carries an ETag replaces the entry
    although it is no 2xx, and a 200 that carries no validator leaves
    the old entry in place. *)
Lemma cache_update_not_exactly_on_2xx :
  ~ updated_exactly_on_2xx (always not_found) primed feed_url /\
  ~ updated_exactly_on_2xx (always bare_ok) primed feed_url /\
  fst (_make_request (always not_found) primed feed_url true) !! feed_url
    = Some {| etag := Some "gone-1"; last_modified := None |} /\
  fst (_make_request (always bare_ok) primed feed_url true) !! feed_url
    = Some {| etag := Some "abc123"; last_modified := None |}.
Proof.
  assert (E404 : fst (_make_request (always not_found) primed feed_url true) !! feed_url
                 = Some {| etag := Some "gone-1"; last_modified := None |}).
  { unfold _make_request, always, not_found, primed. simpl.
    rewrite lookup_insert_eq. reflexivity. }
  assert (E200 : fst (_make_request (always bare_ok) primed feed_url true) !! feed_url
                 = Some {| etag := Some "abc123"; last_modified := None |}).
  { unfold _make_request, always, bare_ok, primed. simpl.
    rewrite lookup_singleton_eq. reflexivity. }
  repeat split; try assumption.
  - unfold updated_exactly_on_2xx. cbv zeta. rewrite E404.
    unfold always, not_found, primed. simpl. rewrite lookup_singleton_eq.
    intros H. discriminate H.
  - unfold updated_exactly_on_2xx. cbv zeta. rewrite E200.
    unfold always, bare_ok. simpl. intros H. discriminate H.
Qed.

(** C3, amended: a 304 gives no items and leaves the cache as it was; a
    2xx response that carries an ETag or a Last-Modified header replaces
    the entry of the URL by exactly the pair it carries, and touches no
    other entry; a 2xx response that carries neither leaves the cache as
    it was. *)
Theorem conditional_fetch_cache
    (extract_entries : Response -> string -> result (list RawContent))
    (get : session) (cache : gmap string cache_data) (url : string) (response : Response) :
  get url (request_headers cache url true) = Replied response ->
  (status_code response = 304%Z ->
     _make_request get cache url true = (cache, Ok None) /\
     scrape_feed extract_entries get cache url = (cache, Ok [])) /\
  (is_2xx (status_code response) = true ->
   cache_data_truthy (validators_of response) = true ->
     _make_request get cache url true
       = (<[url := validators_of response]> cache, Ok (Some response)) /\
     fst (_make_request get cache url true) !! url = Some (validators_of response) /\
     forall other, other <> url ->
       fst (_make_request get cache url true) !! other = cache !! other) /\
  (is_2xx (status_code response) = true ->
   cache_data_truthy (validators_of response) = false ->
     _make_request get cache url true = (cache, Ok (Some response))).
Proof.
  intros Hget. unfold is_2xx.
  assert (H2xx : forall (A : Type) (a b : A),
             (200 <=? status_code response)%Z && (status_code response <? 300)%Z = true ->
             (if (status_code response =? 304)%Z then a else b) = b /\
             raise_for_status response = Ok tt).
  { intros A a b H. apply andb_prop in H as [Hlo Hhi].
    apply Z.leb_le in Hlo. apply Z.ltb_lt in Hhi. split.
    - destruct (Z.eqb_spec (status_code response) 304); [lia|reflexivity].
    - unfold raise_for_status.
      destruct (Z.ltb_spec (status_code response) 600) as [_|?]; [|lia].
      destruct (Z.leb_spec 400 (status_code response)) as [?|_]; [lia|reflexivity]. }
  split; [|split].
  - intros H304.
    assert (E : _make_request get cache url true = (cache, Ok None)).
    { unfold _make_request. rewrite Hget, H304. reflexivity. }
    split; [exact E|]. unfold scrape_feed. rewrite E. reflexivity.
  - intros Hs Hv.
    assert (E : _make_request get cache url true
                = (<[url := validators_of response]> cache, Ok (Some response))).
    { unfold _make_request. rewrite Hget.
      destruct (H2xx _ (cache, Ok None : result (option Response))
                  (<[url := validators_of response]> cache, Ok (Some response)) Hs)
        as [_ Hrfs].
      destruct (H2xx _ true false Hs) as [Hne _].
      destruct (status_code response =? 304)%Z; [discriminate Hne|].
      fold (validators_of response). rewrite Hv, Hrfs. reflexivity. }
    split; [exact E|]. rewrite E. simpl. split.
    + apply lookup_insert_eq.
    + intros other Hne. apply lookup_insert_ne. congruence.
  - intros Hs Hv.
    unfold _make_request. rewrite Hget.
    destruct (H2xx _ true false Hs) as [Hne Hrfs].
    destruct (status_code response =? 304)%Z; [discriminate Hne|].
    fold (validators_of response). rewrite Hv, Hrfs. reflexivity.
Qed.

(** The theorem at the three kinds of answer: the stored ETag "abc123"
    met by a 304, a 200 with fresh validators, a 200 with none. *)
Lemma conditional_fetch_cache_witness :
  (_make_request conditional primed feed_url true = (primed, Ok None) /\
   scrape_feed (fun _ _ => Ok []) conditional primed feed_url = (primed, Ok [])) /\
  fst (_make_request (always fresh_ok) primed feed_url true) !! feed_url
    = Some {| etag := Some "v2";
              last_modified := Some "Tue, 03 Nov 2026 10:00:00 GMT" |} /\
  _make_request (always bare_ok) primed feed_url true = (primed, Ok (Some bare_ok)).
Proof.
  split; [|split].
  - apply (proj1 (conditional_fetch_cache (fun _ _ => Ok []) conditional primed feed_url
                    {| status_code := 304; headers := [("ETag", "abc123")]; content := "" |}
                    eq_refl)).
    reflexivity.
  - apply (proj1 (proj2 (conditional_fetch_cache (fun _ _ => Ok []) (always fresh_ok)
                           primed feed_url fresh_ok eq_refl))); reflexivity.
  - apply (proj2 (proj2 (conditional_fetch_cache (fun _ _ => Ok []) (always bare_ok)
                           primed feed_url bare_ok eq_refl))); reflexivity.
Defined.

End FetchFacts.

Module StringFacts.

Lemma lstrip_head (p : ascii -> bool) (c : ascii) (r : string) :
  p c = false -> PyStr.lstrip_by p (String c r) = String c r.
Proof. intros H. simpl. rewrite H. reflexivity. Qed.

Lemma rstrip_none (p : ascii -> bool) (s : string) :
  PyStr.all_chars (fun c => negb (p c)) s = true -> PyStr.rstrip_by p s = s.
Proof.
  induction s as [|c r IH]; simpl; [reflexivity|].
  intros H. apply andb_prop in H as [Hc Hr].
  rewrite (IH Hr). apply negb_true_iff in Hc. rewrite Hc.
  destruct r; reflexivity.
Qed.

Lemma strip_no_space (s : string) : PyStr.no_space s = true -> PyStr.strip s = s.
Proof.
  unfold PyStr.no_space, PyStr.strip. intros H.
  destruct s as [|c r]; [reflexivity|].
  pose proof H as H'. simpl in H'. apply andb_prop in H' as [Hc _].
  apply negb_true_iff in Hc. rewrite (lstrip_head _ _ _ Hc).
  apply rstrip_none. exact H.
Qed.

Lemma no_space_app (a b : string) :
  PyStr.no_space (a +:+ b) = PyStr.no_space a && PyStr.no_space b.
Proof.
  unfold PyStr.no_space. induction a as [|c r IH]; simpl; [reflexivity|].
  rewrite IH. apply andb_assoc.
Qed.

Lemma blank_no_space (s : string) :
  PyStr.no_space s = true -> Content.blank s = PyStr.is_empty s.
Proof.
  intros H. unfold Content.blank. rewrite (strip_no_space s H).
  apply orb_diag.
Qed.

End StringFacts.

Module OutputFacts.
Import Content Output Samples StringFacts.

Section Constructor.
Variable fromisoformat : string -> option datetime.
Variable strptime_ymd : string -> option datetime.
Variable now : datetime.
Variable md5_hexdigest : string -> string.

(** What an instance tells about the arguments it was built from. *)
Lemma DealOutput_new_inv
    (id_ title_ imageUrl_ : string) (price_ originalPrice_ : option float)
    (discountPercent_ : option Z) (category_ description_ affiliateUrl_ : string)
    (featured_ : bool) (dateAdded_ : string) (d : DealOutput) :
  DealOutput_new fromisoformat strptime_ymd now id_ title_ imageUrl_ price_ originalPrice_
    discountPercent_ category_ description_ affiliateUrl_ featured_ dateAdded_ = Ok d ->
  validate_deal_title (PyStr.strip title_) = Ok (title d) /\
  defaulted price_ 0%float price_field = Ok (price d) /\
  defaulted originalPrice_ 0%float
    (fun v => v ← price_field v;
              validate_original_price v (defaulted price_ 0%float price_field))
    = Ok (originalPrice d) /\
  defaulted discountPercent_ 0%Z
    (fun v => v ← percent_field v;
              validate_discount_percent v (defaulted price_ 0%float price_field)
                (defaulted originalPrice_ 0%float
                   (fun v => v ← price_field v;
                             validate_original_price v
                               (defaulted price_ 0%float price_field))))
    = Ok (discountPercent d) /\
  validate_affiliate_url (PyStr.strip affiliateUrl_) = Ok (affiliateUrl d) /\
  featured d = featured_.
Proof.
  unfold DealOutput_new. intros H.
  repeat match type of H with
         | context [match ?x with Ok _ => _ | Raise _ => _ end] =>
             destruct x eqn:?; try discriminate H
         | context [match ?e with KeyError => _ | _ => _ end] =>
             destruct e; try discriminate H
         end.
  injection H as <-. simpl. repeat split; reflexivity.
Qed.

(** C7, amended: in every record built with a discount, the discount is
    computed from the price pair of the record when both prices are
    positive and the original one is the larger, capped at 100; failing
    that it is the value provided when that is positive (the field
    constraint keeps it within 0..100, so capping it at 100 changes
    nothing); and 0 otherwise.  49.99 against 99.99 gives 50 whatever
    discount was passed; a pair of zero prices keeps a provided 30. *)
Theorem discount_percent_rule
    (id_ title_ imageUrl_ : string) (price_ originalPrice_ : option float)
    (provided : Z) (category_ description_ affiliateUrl_ : string)
    (featured_ : bool) (dateAdded_ : string) (d : DealOutput) :
  DealOutput_new fromisoformat strptime_ymd now id_ title_ imageUrl_ price_ originalPrice_
    (Some provided) category_ description_ affiliateUrl_ featured_ dateAdded_ = Ok d ->
  (0 <= provided <= 100)%Z /\
  (priced (price d) (originalPrice d) = true ->
     exists calculated,
       int_of_float (((originalPrice d - price d) / originalPrice d) * 100)%float
         = Ok calculated /\
       discountPercent d = Z.min calculated 100) /\
  (priced (price d) (originalPrice d) = false -> (provided > 0)%Z ->
     discountPercent d = Z.min provided 100 /\ discountPercent d = provided) /\
  (priced (price d) (originalPrice d) = false -> (provided <= 0)%Z ->
     discountPercent d = 0%Z) /\
  (price_ = Some 49.99%float -> originalPrice_ = Some 99.99%float ->
     price d = 49.99%float /\ originalPrice d = 99.99%float /\ discountPercent d = 50%Z) /\
  (price_ = Some 0%float -> originalPrice_ = Some 0%float -> provided = 30%Z ->
     discountPercent d = 30%Z).
Proof.
  intros H. apply DealOutput_new_inv in H as (_ & Hp & Ho & Hd & _ & _).
  rewrite Hp in Hd, Ho. rewrite Ho in Hd. unfold defaulted in Hd at 1.
  destruct (percent_field provided) as [v|e] eqn:Hv; [|discriminate Hd].
  assert (Hrange : (0 <= provided <= 100)%Z /\ v = provided).
  { unfold percent_field in Hv.
    destruct (Z.leb_spec 0 provided); destruct (Z.leb_spec provided 100);
      simpl in Hv; try discriminate Hv. split; [lia|congruence]. }
  destruct Hrange as [Hrange ->].
  simpl in Hd. unfold validate_discount_percent in Hd. simpl in Hd.
  fold (priced (price d) (originalPrice d)) in Hd.
  split; [exact Hrange|]. split; [|split; [|split; [|split]]].
  - intros Hpr. rewrite Hpr in Hd.
    destruct (int_of_float _) as [calculated|e] eqn:Hc; [|discriminate Hd].
    exists calculated. split; [reflexivity|]. simpl in Hd. congruence.
  - intros Hpr Hpos. rewrite Hpr in Hd.
    destruct (Z.gtb_spec provided 0) as [_|Hle]; [|lia].
    injection Hd as <-. split; [reflexivity|lia].
  - intros Hpr Hnp. rewrite Hpr in Hd.
    destruct (Z.gtb_spec provided 0) as [Hgt|_]; [lia|congruence].
  - intros -> ->.
    assert (E1 : defaulted (Some 49.99%float) 0%float price_field = Ok 49.99%float)
      by reflexivity.
    rewrite E1 in Hp. injection Hp as Hp. rewrite <- Hp in Ho, Hd.
    assert (E2 : defaulted (Some 99.99%float) 0%float
                   (fun v => v ← price_field v; validate_original_price v (Ok 49.99%float))
                 = Ok 99.99%float) by reflexivity.
    rewrite E2 in Ho. injection Ho as Ho. rewrite <- Ho in Hd.
    assert (Hpr : priced 49.99 99.99 = true) by reflexivity.
    assert (E3 : int_of_float (((99.99 - 49.99) / 99.99) * 100)%float = Ok 50%Z)
      by reflexivity.
    rewrite Hpr, E3 in Hd. simpl in Hd. injection Hd as Hd.
    repeat split; symmetry; assumption.
  - intros -> -> ->.
    assert (E1 : defaulted (Some 0%float) 0%float price_field = Ok 0%float) by reflexivity.
    rewrite E1 in Hp. injection Hp as Hp. rewrite <- Hp in Ho, Hd.
    assert (E2 : defaulted (Some 0%float) 0%float
                   (fun v => v ← price_field v; validate_original_price v (Ok 0%float))
                 = Ok 0%float) by reflexivity.
    rewrite E2 in Ho. injection Ho as Ho. rewrite <- Ho in Hd.
    assert (Hpr : priced 0 0 = false) by reflexivity.
    rewrite Hpr in Hd. simpl in Hd. injection Hd as Hd. symmetry. exact Hd.
Qed.

(** C9: the record the projector builds has price 0.0, original price 0.0
    and discount 0. *)
Theorem projector_zero_prices (content : EnhancedContent) (config : SiteConfig)
    (d : DealOutput) :
  convert_to_deal_output fromisoformat strptime_ymd now md5_hexdigest content config = Ok d ->
  price d = 0%float /\ originalPrice d = 0%float /\ discountPercent d = 0%Z.
Proof.
  unfold convert_to_deal_output. intros H.
  apply DealOutput_new_inv in H as (_ & Hp & Ho & Hd & _ & _).
  unfold defaulted in Hp, Ho, Hd.
  assert (E1 : price_field 0 = Ok 0%float) by reflexivity.
  assert (E2 : validate_original_price 0 (Ok 0%float) = Ok 0%float) by reflexivity.
  assert (E3 : validate_discount_percent 0 (Ok 0%float) (Ok 0%float) = Ok 0%Z) by reflexivity.
  simpl in Hp, Ho, Hd. rewrite E1 in Hp, Ho, Hd. rewrite E2 in Ho, Hd. rewrite E3 in Hd.
  repeat split; congruence.
Qed.

(** What the projector computes as affiliate URL. *)
Lemma convert_affiliate_url (content : EnhancedContent) (config : SiteConfig)
    (d : DealOutput) :
  PyStr.no_space (url content) = true ->
  opt_all PyStr.no_space (affiliate_tag config) = true ->
  convert_to_deal_output fromisoformat strptime_ymd now md5_hexdigest content config = Ok d ->
  affiliateUrl d = affiliate_url_of (url content) (affiliate_tag config).
Proof.
  intros Hu Ht H. unfold convert_to_deal_output in H.
  apply DealOutput_new_inv in H as (_ & _ & _ & _ & Ha & _).
  assert (Hclean : PyStr.no_space (affiliate_url_of (url content) (affiliate_tag config)) = true).
  { unfold affiliate_url_of.
    destruct (tag_set _ && _); [|exact Hu].
    rewrite !no_space_app, Hu.
    destruct (affiliate_tag config) as [t|]; simpl in *;
      [rewrite Ht|]; destruct (PyStr.contains "?" (url content)); reflexivity. }
  rewrite (strip_no_space _ Hclean) in Ha.
  unfold validate_affiliate_url in Ha.
  rewrite (strip_no_space _ Hclean) in Ha.
  destruct (blank _); congruence.
Qed.

End Constructor.

(** The discount rule at the two price pairs of the documentation, each
    built with a discount, and at a pair of zero prices with a discount
    of 0. *)
Lemma discount_percent_rule_witness :
  DealOutput_new no_date no_date noon "deal-1" "Stand Mixer" "" (Some 49.99%float)
    (Some 99.99%float) (Some 10%Z) "home" "A stand mixer." "https://example.com/mixer"
    false "2026-11-03" = Ok mixer_deal /\
  discountPercent mixer_deal = 50%Z /\
  discountPercent blender_deal = 30%Z /\
  discountPercent kettle_deal = 0%Z.
Proof.
  split; [reflexivity|]. split; [|split].
  - apply (discount_percent_rule no_date no_date noon
             "deal-1" "Stand Mixer" "" (Some 49.99%float) (Some 99.99%float) 10
             "home" "A stand mixer." "https://example.com/mixer" false "2026-11-03"
             mixer_deal eq_refl); reflexivity.
  - apply (proj2 (proj2 (proj2 (proj2 (proj2
             (discount_percent_rule no_date no_date noon
                "deal-2" "Blender" "" (Some 0%float) (Some 0%float) 30
                "home" "A blender." "https://example.com/blender" false "2026-11-03"
                blender_deal eq_refl)))))); reflexivity.
  - apply (proj1 (proj2 (proj2 (proj2
             (discount_percent_rule no_date no_date noon
                "deal-3" "Kettle" "" (Some 0%float) (Some 0%float) 0
                "home" "A kettle." "https://example.com/kettle" false "2026-11-03"
                kettle_deal eq_refl))))); [reflexivity|lia].
Defined.

(** C7, as stated, fails: a record built with the prices 49.99 and 99.99
    and no discount keeps the default 0, which no validator sees, where
    the claim recomputes 50. *)
Lemma discount_left_out_is_not_recomputed :
  exists d,
    DealOutput_new no_date no_date noon "deal-1" "Stand Mixer" "" (Some 49.99%float)
      (Some 99.99%float) None "home" "A stand mixer." "https://example.com/mixer"
      false "2026-11-03" = Ok d /\
    price d = 49.99%float /\ originalPrice d = 99.99%float /\
    priced (price d) (originalPrice d) = true /\
    int_of_float (((originalPrice d - price d) / originalPrice d) * 100)%float = Ok 50%Z /\
    discountPercent d = 0%Z /\ discountPercent d <> 50%Z.
Proof.
  eexists. split; [reflexivity|]. repeat split; try reflexivity.
  intros H. discriminate H.
Qed.

(** The projection of an article: zero prices and no discount. *)
Lemma projector_zero_prices_witness :
  exists d,
    convert_to_deal_output no_date no_date noon digest amazon_item (site (Some "mytag-20") true)
      = Ok d /\
    price d = 0%float /\ originalPrice d = 0%float /\ discountPercent d = 0%Z.
Proof.
  eexists. split; [reflexivity|].
  apply (projector_zero_prices no_date no_date noon digest amazon_item
           (site (Some "mytag-20") true)).
  reflexivity.
Defined.

(** C6: the projector tags a URL that is not Amazon's.  The host of the
    article is example.com, so that the rule of the claim, and the
    comment of the code ("Add affiliate tag to Amazon URLs"), leave its
    URL as it is; the code looks for "amazon" in the whole URL, finds it
    in the path, and appends the tag. *)
Lemma affiliate_tag_not_by_host :
  url_host (url roundup) = "example.com" /\
  PyStr.contains "amazon" (PyStr.lower (url_host (url roundup))) = false /\
  spec_affiliate_url (url roundup) (Some "mytag-20") = "https://example.com/amazon-deals" /\
  exists d,
    convert_to_deal_output no_date no_date noon digest roundup (site (Some "mytag-20") true)
      = Ok d /\
    affiliateUrl d = "https://example.com/amazon-deals?tag=mytag-20" /\
    affiliateUrl d <> spec_affiliate_url (url roundup) (Some "mytag-20").
Proof.
  split; [reflexivity|]. split; [reflexivity|]. split; [reflexivity|].
  eexists. split; [reflexivity|]. split; [reflexivity|].
  intros H. discriminate H.
Qed.

End OutputFacts.

Module QualityFacts.
Import Content Quality Samples.

Lemma filter_loop_omap (pairs : list (EnhancedContent * QualityResult)) :
  forall acc, filter_loop pairs acc = acc ++ omap kept pairs.
Proof.
  induction pairs as [|[content quality] rest IH]; intros acc; simpl.
  - symmetry. apply app_nil_r.
  - unfold kept at 1. simpl.
    destruct (decide (recommendation quality ∈ [VALIDATED; ENHANCED])); rewrite IH.
    + rewrite <- app_assoc. reflexivity.
    + reflexivity.
Qed.

Lemma publishable_iff (status : ContentStatus) :
  status ∈ [VALIDATED; ENHANCED] <-> status = VALIDATED \/ status = ENHANCED.
Proof.
  rewrite !elem_of_cons. split.
  - intros [H|[H|H]]; [left; exact H|right; exact H|inversion H].
  - intros [H|H]; [left; exact H|right; left; exact H].
Qed.

(** C8: an item is in the filtered list exactly when it stands, in the
    input, against a result that recommends publishing as is (validated)
    or after enhancement (enhanced); what is kept of it is the item with
    its quality score replaced by the overall score of that result. *)
Theorem filter_keeps_publishable
    (content_list : list EnhancedContent) (quality_results : list QualityResult)
    (survivor : EnhancedContent) :
  survivor ∈ filter_high_quality_content content_list quality_results <->
  exists (i : nat) (content : EnhancedContent) (quality : QualityResult),
    content_list !! i = Some content /\
    quality_results !! i = Some quality /\
    (recommendation quality = VALIDATED \/ recommendation quality = ENHANCED) /\
    survivor = set_quality_score content (overall_quality_score quality) /\
    quality_score survivor = overall_quality_score quality.
Proof.
  unfold filter_high_quality_content. rewrite filter_loop_omap. simpl.
  rewrite list_elem_of_omap. split.
  - intros ([content quality] & Hin & Hk).
    apply list_elem_of_lookup in Hin as [i Hi].
    apply lookup_zip_with_Some in Hi as (c & q & Heq & Hc & Hq).
    injection Heq as <- <-.
    unfold kept in Hk. simpl in Hk.
    destruct (decide (recommendation quality ∈ [VALIDATED; ENHANCED])) as [Hp|]; [|discriminate].
    injection Hk as <-.
    exists i, content, quality. repeat split; try assumption.
    apply publishable_iff. exact Hp.
  - intros (i & content & quality & Hc & Hq & Hp & -> & _).
    exists (content, quality). split.
    + apply list_elem_of_lookup. exists i.
      apply lookup_zip_with_Some. exists content, quality. repeat split; assumption.
    + unfold kept. simpl.
      destruct (decide (recommendation quality ∈ [VALIDATED; ENHANCED])) as [|Hn];
        [reflexivity|].
      exfalso. apply Hn, publishable_iff, Hp.
Qed.

(** Of three items assessed validated, rejected and enhanced, the third
    survives with the score 0.65 of its assessment. *)
Lemma filter_keeps_publishable_witness :
  set_quality_score roundup 0.65 ∈
    filter_high_quality_content [amazon_item; amazon_item; roundup]
      [assessment 0.9 VALIDATED; assessment 0.3 REJECTED; assessment 0.65 ENHANCED].
Proof.
  apply (proj2 (filter_keeps_publishable [amazon_item; amazon_item; roundup]
                  [assessment 0.9 VALIDATED; assessment 0.3 REJECTED; assessment 0.65 ENHANCED]
                  (set_quality_score roundup 0.65))).
  exists 2%nat, roundup, (assessment 0.65 ENHANCED).
  repeat split; try reflexivity. right. reflexivity.
Defined.

End QualityFacts.

Module ContentFacts.
Import Content.

Lemma score_field_id (q q' : float) : score_field q = Ok q' -> q' = q.
Proof. unfold score_field. destruct (_ && _); congruence. Qed.

Lemma validate_ai_fields_id (f f' : list string) : validate_ai_fields f = Ok f' -> f' = f.
Proof. unfold validate_ai_fields. destruct (forallb _ _); congruence. Qed.

Lemma url_field_http (v : pyval) (s : string) :
  url_field v = Ok s -> v = PStr s /\ is_http_url s = true.
Proof.
  destruct v; simpl; try discriminate.
  destruct (is_http_url s0) eqn:E; [|discriminate].
  intros H. injection H as <-. split; [reflexivity|exact E].
Qed.

(** What an instance tells about the arguments it was built from. *)
Lemma EnhancedContent_new_inv
    (now : datetime) (title_ url_ image_ excerpt_ category_ date_ : pyval)
    (quality_score_ : float) (ai_generated_fields_ : list string)
    (enhancement_notes_ : option string) (original_content_ : option RawContent)
    (x : EnhancedContent) :
  EnhancedContent_new now title_ url_ image_ excerpt_ category_ date_ quality_score_
    ai_generated_fields_ enhancement_notes_ original_content_ = Ok x ->
  image_ = PStr (image x) /\ is_http_url (image x) = true /\
  quality_score x = quality_score_ /\
  ai_generated_fields x = ai_generated_fields_ /\
  notes_field enhancement_notes_ = Ok (enhancement_notes x).
Proof.
  unfold EnhancedContent_new. intros H.
  destruct (url_field image_) as [i|] eqn:Hi.
  2:{ repeat match type of H with
             | context [match ?r with Ok _ => _ | Raise _ => _ end] =>
                 destruct r; try discriminate H
             end. }
  destruct (score_field quality_score_) as [q|] eqn:Hq.
  2:{ repeat match type of H with
             | context [match ?r with Ok _ => _ | Raise _ => _ end] =>
                 destruct r; try discriminate H
             end. }
  destruct (validate_ai_fields ai_generated_fields_) as [f|] eqn:Hf.
  2:{ repeat match type of H with
             | context [match ?r with Ok _ => _ | Raise _ => _ end] =>
                 destruct r; try discriminate H
             end. }
  destruct (notes_field enhancement_notes_) as [n|] eqn:Hn.
  2:{ repeat match type of H with
             | context [match ?r with Ok _ => _ | Raise _ => _ end] =>
                 destruct r; try discriminate H
             end. }
  repeat match type of H with
         | context [match ?r with Ok _ => _ | Raise _ => _ end] =>
             destruct r; try discriminate H
         end.
  injection H as <-. simpl.
  apply url_field_http in Hi as [-> Hi].
  apply score_field_id in Hq as ->. apply validate_ai_fields_id in Hf as ->.
  repeat split; try reflexivity; assumption.
Qed.

(** The placeholder path can never be the image of an instance. *)
Lemma placeholder_rejected
    (now : datetime) (title_ url_ excerpt_ category_ date_ : pyval)
    (quality_score_ : float) (ai_generated_fields_ : list string)
    (enhancement_notes_ : option string) (original_content_ : option RawContent) :
  EnhancedContent_new now title_ url_ (PStr placeholder) excerpt_ category_ date_
    quality_score_ ai_generated_fields_ enhancement_notes_ original_content_
  = Raise ValidationError.
Proof.
  destruct (EnhancedContent_new now title_ url_ (PStr placeholder) excerpt_ category_ date_
              quality_score_ ai_generated_fields_ enhancement_notes_ original_content_)
    as [x|e] eqn:H.
  - apply EnhancedContent_new_inv in H as (Hi & Hu & _).
    injection Hi as Hi. rewrite <- Hi in Hu. vm_compute in Hu. discriminate Hu.
  - unfold EnhancedContent_new in H.
    repeat match type of H with
           | context [match ?r with Ok _ => _ | Raise _ => _ end] =>
               destruct r; try discriminate H
           end; congruence.
Qed.

End ContentFacts.

Module EnhancerFacts.
Import Content Enhancer Pipeline Samples ContentFacts.

(** C2, at an item without an image for which the LLM generates none: the
    placeholder path is no [HttpUrl], so the constructor raises in
    [enhance_content], raises again in the fallback of the orchestrator,
    and the enhancement phase ends with no item at all.  No instance of
    [EnhancedContent] can have the placeholder as its image. *)
Theorem placeholder_image_is_rejected :
  RawContent_wf imageless = true /\
  raw_image imageless = None /\
  is_http_url placeholder = false /\
  enhance_content (answers (PDict [])) noon imageless 0 = (2%nat, Raise ValidationError) /\
  enhance_content (answers (PDict [("category", PStr "General")])) noon imageless 0
    = (2%nat, Raise ValidationError) /\
  minimal_enhanced noon 0.6 "Enhancement failed, using original content" imageless
    = Raise ValidationError /\
  snd (_enhance_content (answers (PDict [])) noon [imageless] (fresh ∅)) = [] /\
  (forall (now : datetime) (title_ url_ excerpt_ category_ date_ : pyval)
          (quality_score_ : float) (ai_generated_fields_ : list string)
          (enhancement_notes_ : option string) (original_content_ : option RawContent),
      EnhancedContent_new now title_ url_ (PStr placeholder) excerpt_ category_ date_
        quality_score_ ai_generated_fields_ enhancement_notes_ original_content_
      = Raise ValidationError).
Proof.
  repeat split; try (vm_compute; reflexivity).
  intros. apply placeholder_rejected.
Qed.

(** C4, at a batch of two well-formed items: the first is enhanced, the
    LLM raises on the second, whose excerpt of seven characters is too
    short for the substitute; the constructor call in the [except] branch
    raises, and the phase returns the empty list, the first item lost
    with the second. *)
Theorem unguarded_substitute_aborts_batch :
  RawContent_wf flyer = true /\
  RawContent_wf terse = true /\
  is_ok (snd (enhance_content falters noon flyer 0)) = true /\
  enhance_content falters noon terse 2 = (3%nat, Raise LLMError) /\
  minimal_enhanced noon 0.6 "Enhancement failed, using original content" terse
    = Raise ValidationError /\
  is_ok (minimal_enhanced noon 0.7 "No AI enhancement applied" flyer) = true /\
  snd (_enhance_content falters noon [flyer; terse] (fresh ∅)) = [] /\
  List.length (snd (_enhance_content falters noon [flyer] (fresh ∅))) = 1%nat.
Proof.
  repeat split; vm_compute; reflexivity.
Qed.

End EnhancerFacts.

Module PipelineFacts.
Import Content Output Pipeline Samples ContentFacts.

Section World.
Variable config : SiteConfig.
Variable agents_initialized : bool.
Variable llm : Enhancer.agent.
Variable validator : list EnhancedContent -> option (list Quality.QualityResult).
Variable can_write : string -> bool.
Variable t_start t_end now : datetime.
Variable fromisoformat : string -> option datetime.
Variable strptime_ymd : string -> option datetime.
Variable md5_hexdigest : string -> string.

Local Abbreviation run scraped :=
  (run_pipeline config agents_initialized scraped llm validator can_write
     t_start t_end now fromisoformat strptime_ymd md5_hexdigest).
Local Abbreviation passed raw :=
  (minimal_enhanced now 0.7 "No AI enhancement applied" raw).
Local Abbreviation project e :=
  (convert_to_deal_output fromisoformat strptime_ymd now md5_hexdigest e config).

(** The summary drawn up before any item was scraped or written. *)
Lemma empty_summary (st : state) (output_path : string) :
  total_scraped (stats st) = 0%Z ->
  total_enhanced (stats st) = 0%Z ->
  total_output (stats st) = 0%Z ->
  (0 <= errors (stats st))%Z ->
  end_time (stats st) = None ->
  exists summary,
    _create_output_summary config agents_initialized now st output_path [] = Ok summary /\
    total_items summary = 0%Z /\ successful_items summary = 0%Z /\
    success_rate summary = 0%float.
Proof.
  intros Hs Hen Ho He Hend. unfold _create_output_summary, OutputSummary_new.
  rewrite Hs, Hen, Ho, Hend.
  assert ((if ai_agents_enabled config agents_initialized then 0 else 0)%Z = 0%Z) as ->
    by (destruct (ai_agents_enabled _ _); reflexivity).
  destruct (start_time (stats st)); simpl;
    destruct (Z.leb_spec 0 (errors (stats st))) as [_|?]; try lia; simpl;
    (eexists; split; [reflexivity|]; repeat split).
Qed.

(** C1, on the code: a first run in which the sources return nothing, or
    the scraper raises, completes with the summary the claim describes;
    but it returns before the writing phase, and the files are what they
    were: no empty array is written. *)
Theorem empty_run_writes_no_file (output_path : string) (calls : nat)
    (files0 : gmap string (list DealOutput)) :
  (exists summary st',
      run (Ok []) output_path {| stats := initial_stats; llm_calls := calls; files := files0 |}
        = (st', Ok summary) /\
      total_items summary = 0%Z /\ successful_items summary = 0%Z /\
      success_rate summary = 0%float /\
      files st' = files0 /\ files st' !! output_path = files0 !! output_path) /\
  (forall e, exists summary st',
      run (Raise e) output_path {| stats := initial_stats; llm_calls := calls; files := files0 |}
        = (st', Ok summary) /\
      total_items summary = 0%Z /\ successful_items summary = 0%Z /\
      success_rate summary = 0%float /\
      files st' = files0 /\ files st' !! output_path = files0 !! output_path).
Proof.
  split; [|intros e];
    unfold run_pipeline, phases, _scrape_content; lazy beta iota zeta;
    match goal with
    | |- context [_create_output_summary _ _ _ ?st _ _] =>
        destruct (empty_summary st output_path) as (summary & Hs & Ht & Hok & Hr);
        [reflexivity | reflexivity | reflexivity | simpl; lia | reflexivity |]
    end;
    rewrite Hs; exists summary; eexists;
    (split; [reflexivity|]); repeat split; assumption.
Qed.

Lemma minimal_enhanced_score (q : float) (notes : string) (content : RawContent)
    (e : EnhancedContent) :
  minimal_enhanced now q notes content = Ok e ->
  quality_score e = q /\ ai_generated_fields e = [].
Proof.
  unfold minimal_enhanced. intros H.
  apply EnhancedContent_new_inv in H as (_ & _ & Hq & Hf & _). split; assumption.
Qed.

(** The pass-through conversion touches no file and gives every item it
    keeps the score 0.7. *)
Lemma convert_loop_inv (raw_content : list RawContent) :
  forall (st : state) (acc : list EnhancedContent),
    Forall (fun e => quality_score e = 0.7%float) acc ->
    Forall (fun e => quality_score e = 0.7%float) (snd (convert_loop now raw_content st acc)) /\
    files (fst (convert_loop now raw_content st acc)) = files st.
Proof.
  induction raw_content as [|content rest IH]; intros st acc Hacc; simpl.
  - split; [exact Hacc|reflexivity].
  - destruct (minimal_enhanced now 0.7 "No AI enhancement applied" content) as [e|x] eqn:E.
    + apply IH. apply Forall_app. split; [exact Hacc|].
      constructor; [|constructor]. apply (minimal_enhanced_score _ _ _ _ E).
    + destruct (IH (with_stats add_error st) acc Hacc) as [H1 H2].
      split; [exact H1|]. rewrite H2. reflexivity.
Qed.

Lemma convert_featured (content : EnhancedContent) (d : DealOutput) :
  convert_to_deal_output fromisoformat strptime_ymd now md5_hexdigest content config = Ok d ->
  featured d = featured_of (quality_score content).
Proof.
  unfold convert_to_deal_output. intros H.
  apply OutputFacts.DealOutput_new_inv in H as (_ & _ & _ & _ & _ & Hf). exact Hf.
Qed.

(** Projection touches no file, and a score of 0.7 is never featured. *)
Lemma output_loop_inv (validated_content : list EnhancedContent) :
  forall (st : state) (acc : list DealOutput),
    Forall (fun e => quality_score e = 0.7%float) validated_content ->
    Forall (fun d => featured d = false) acc ->
    Forall (fun d => featured d = false)
      (snd (output_loop config now fromisoformat strptime_ymd md5_hexdigest
              validated_content st acc)) /\
    files (fst (output_loop config now fromisoformat strptime_ymd md5_hexdigest
                  validated_content st acc)) = files st.
Proof.
  induction validated_content as [|content rest IH]; intros st acc Hall Hacc; simpl.
  - split; [exact Hacc|reflexivity].
  - apply Forall_cons in Hall as [Hq Hrest].
    destruct (convert_to_deal_output fromisoformat strptime_ymd now md5_hexdigest
                content config) as [d|x] eqn:E.
    + apply IH; [exact Hrest|]. apply Forall_app. split; [exact Hacc|].
      constructor; [|constructor].
      rewrite (convert_featured content d E), Hq. reflexivity.
    + destruct (IH (with_stats add_error st) acc Hrest Hacc) as [H1 H2].
      split; [exact H1|]. rewrite H2. reflexivity.
Qed.

Lemma convert_loop_returns (raw_content : list RawContent) :
  forall (st : state) (acc : list EnhancedContent),
    snd (convert_loop now raw_content st acc)
    = acc ++ omap (fun raw => returned (passed raw)) raw_content.
Proof.
  induction raw_content as [|raw rest IH]; intros st acc; simpl convert_loop.
  - simpl. symmetry. apply app_nil_r.
  - change (omap (fun raw => returned (passed raw)) (raw :: rest))
      with (match returned (passed raw) with
            | Some e => e :: omap (fun raw => returned (passed raw)) rest
            | None => omap (fun raw => returned (passed raw)) rest
            end).
    destruct (passed raw) as [e|x]; simpl returned; cbv iota.
    + rewrite IH, <- app_assoc. reflexivity.
    + apply IH.
Qed.

Lemma output_loop_returns (validated_content : list EnhancedContent) :
  forall (st : state) (acc : list DealOutput),
    snd (output_loop config now fromisoformat strptime_ymd md5_hexdigest
           validated_content st acc)
    = acc ++ omap (fun e => returned (project e)) validated_content.
Proof.
  induction validated_content as [|e rest IH]; intros st acc; simpl output_loop.
  - simpl. symmetry. apply app_nil_r.
  - change (omap (fun e => returned (project e)) (e :: rest))
      with (match returned (project e) with
            | Some d => d :: omap (fun e => returned (project e)) rest
            | None => omap (fun e => returned (project e)) rest
            end).
    destruct (project e) as [d|x]; simpl returned; cbv iota.
    + rewrite IH, <- app_assoc. reflexivity.
    + apply IH.
Qed.

(** C10: the pass-through conversion returns, in order, one item for
    each raw item its constructor accepts, and each of them has the score
    0.7, which is not featured.  A run without AI over a scraped list
    that is not empty, with a path that can be written, leaves in the
    file the projections of exactly these items, in order, none of them
    featured; and whatever any run without AI leaves in a file it has
    written is a list of records none of which is featured. *)
Theorem passthrough_never_featured
    (scraped : result (list RawContent)) (output_path : string) (st : state) :
  ai_agents_enabled config agents_initialized = false ->
  (forall (raw_content : list RawContent) (st0 : state),
      snd (_convert_raw_to_enhanced now raw_content st0)
      = omap (fun raw => returned (passed raw)) raw_content /\
      Forall (fun e => quality_score e = 0.7%float /\ featured_of (quality_score e) = false)
        (snd (_convert_raw_to_enhanced now raw_content st0))) /\
  (forall (raw : RawContent) (e : EnhancedContent),
      passed raw = Ok e -> quality_score e = 0.7%float) /\
  (forall (raw0 : RawContent) (rest : list RawContent),
      scraped = Ok (raw0 :: rest) -> can_write output_path = true ->
      files (fst (run scraped output_path st))
      = <[output_path :=
            omap (fun e => returned (project e))
              (omap (fun raw => returned (passed raw)) (raw0 :: rest))]> (files st) /\
      Forall (fun d => featured d = false)
        (omap (fun e => returned (project e))
           (omap (fun raw => returned (passed raw)) (raw0 :: rest)))) /\
  (forall (path : string) (output_data : list DealOutput),
      files (fst (run scraped output_path st)) !! path = Some output_data ->
      files st !! path = Some output_data \/
      (path = output_path /\ Forall (fun d => featured d = false) output_data)).
Proof.
  intros Hai.
  assert (Hconv : forall (raw_content : list RawContent) (st0 : state),
             snd (_convert_raw_to_enhanced now raw_content st0)
             = omap (fun raw => returned (passed raw)) raw_content /\
             Forall (fun e => quality_score e = 0.7%float) 
               (snd (_convert_raw_to_enhanced now raw_content st0))).
  { intros raw_content st0. unfold _convert_raw_to_enhanced. split.
    - apply (convert_loop_returns raw_content st0 []).
    - apply (convert_loop_inv raw_content st0 [] (Forall_nil_2 _)). }
  assert (Hrun : files (fst (run scraped output_path st))
                 = files (fst (phases config agents_initialized scraped llm validator
                                 can_write t_end now fromisoformat strptime_ymd
                                 md5_hexdigest output_path
                                 (with_stats (set_start_time t_start) st)))).
  { unfold run_pipeline.
    destruct (phases _ _ _ _ _ _ _ _ _ _ _ _ _) as [st1 [summary|x]]; reflexivity. }
  split; [|split; [|split]].
  - intros raw_content st0. destruct (Hconv raw_content st0) as [Heq Hall].
    split; [exact Heq|].
    apply Forall_forall. intros e He. rewrite Forall_forall in Hall.
    rewrite (Hall e He). split; reflexivity.
  - intros raw e He. apply (minimal_enhanced_score _ _ _ _ He).
  - intros raw0 rest -> Hw. rewrite Hrun. clear Hrun.
    unfold phases, _scrape_content. cbv beta iota zeta. rewrite Hai.
    set (raw := raw0 :: rest).
    set (st1 := with_stats (set_total_scraped (len raw))
                  (with_stats (set_start_time t_start) st)).
    destruct (Hconv raw st1) as [Hitems Hall].
    unfold _convert_raw_to_enhanced, _generate_output in *.
    destruct (convert_loop_inv raw st1 [] (Forall_nil_2 _)) as [_ Hf2].
    destruct (convert_loop now raw st1 []) as [st2 validated_content].
    cbn [fst snd] in Hitems, Hall, Hf2. rewrite <- Hitems.
    set (st3 := with_stats (set_total_validated (len validated_content))
                  (with_stats (set_total_enhanced (len validated_content)) st2)).
    pose proof (output_loop_returns validated_content st3 []) as Hrecords.
    destruct (output_loop_inv validated_content st3 [] Hall (Forall_nil_2 _))
      as [Hfeat Hf4].
    destruct (output_loop config now fromisoformat strptime_ymd md5_hexdigest
                validated_content st3 []) as [st4 records].
    cbn [fst snd] in Hrecords, Hfeat, Hf4. rewrite app_nil_l in Hrecords.
    rewrite <- Hrecords.
    assert (Hfiles : files st4 = files st).
    { rewrite Hf4. unfold st3. simpl. rewrite Hf2. reflexivity. }
    unfold _write_output_file. rewrite Hw. cbv beta iota zeta.
    split; [|exact Hfeat].
    match goal with
    | |- context [_create_output_summary ?a ?b ?c ?s ?p ?r] =>
        destruct (_create_output_summary a b c s p r)
    end; simpl; rewrite Hfiles; reflexivity.
  - intros path output_data.
    rewrite Hrun. clear Hrun.
    unfold phases, _scrape_content.
    set (st0 := with_stats (set_start_time t_start) st).
    assert (Hraw : exists st1 raw_content,
               (match scraped with
                | Ok raw_content => (st0, raw_content)
                | Raise _ => (with_stats add_error st0, [])
                end) = (st1, raw_content) /\ files st1 = files st).
    { destruct scraped; eexists; eexists; split; reflexivity. }
    destruct Hraw as (st1 & raw_content & -> & Hf1).
    destruct raw_content as [|content rest].
    + simpl. rewrite Hf1. intros H. left. exact H.
    + rewrite Hai.
      set (st2 := with_stats (set_total_scraped (len (content :: rest))) st1).
      unfold _convert_raw_to_enhanced, _generate_output.
      destruct (convert_loop_inv (content :: rest) st2 [] (Forall_nil_2 _)) as [Hall Hf2].
      destruct (convert_loop now (content :: rest) st2 []) as [st3 validated_content].
      simpl in Hall, Hf2.
      set (st4 := with_stats (set_total_validated (len validated_content))
                    (with_stats (set_total_enhanced (len validated_content)) st3)).
      destruct (output_loop_inv validated_content st4 [] Hall (Forall_nil_2 _)) as [Hfeat Hf4].
      destruct (output_loop config now fromisoformat strptime_ymd md5_hexdigest
                  validated_content st4 []) as [st5 records].
      simpl in Hfeat, Hf4.
      assert (Hfiles : files st5 = files st).
      { rewrite Hf4. unfold st4. simpl. rewrite Hf2. unfold st2. simpl. exact Hf1. }
      unfold _write_output_file. simpl.
      destruct (can_write output_path); simpl.
      * rewrite Hfiles. intros H.
        destruct (decide (output_path = path)) as [<-|Hne].
        -- rewrite lookup_insert_eq in H. injection H as <-.
           right. split; [reflexivity|exact Hfeat].
        -- rewrite lookup_insert_ne in H by exact Hne. left. exact H.
      * rewrite Hfiles. intros H. left. exact H.
Qed.

End World.

(** A run without AI over three scraped items, of which the constructor
    accepts the first only: the conversion returns that one item, with the
    score 0.7, and the file holds its projection, not featured. *)
Lemma passthrough_never_featured_witness :
  (exists e,
     snd (_convert_raw_to_enhanced noon [flyer; terse; imageless] (fresh ∅)) = [e] /\
     original_content e = Some flyer /\ quality_score e = 0.7%float) /\
  (exists d,
     files (fst (run_pipeline (site None false) true (Ok [flyer; terse; imageless])
                   falters (fun _ => None) (fun _ => true) noon noon noon
                   no_date no_date digest "public/data.json" (fresh ∅)))
     = {[ "public/data.json" := [d] ]} /\
     title d = "Weekly Grocery Flyer Roundup" /\ featured d = false).
Proof.
  pose proof (passthrough_never_featured (site None false) true falters
                (fun _ => None) (fun _ => true) noon noon noon no_date no_date digest
                (Ok [flyer; terse; imageless]) "public/data.json" (fresh ∅) eq_refl)
    as (Hconv & _ & Hfile & _).
  split.
  - destruct (Hconv [flyer; terse; imageless] (fresh ∅)) as [Heq _].
    eexists. split; [rewrite Heq; reflexivity|]. split; reflexivity.
  - destruct (Hfile flyer [terse; imageless] eq_refl eq_refl) as [Hf _].
    eexists. split; [rewrite Hf; reflexivity|]. split; reflexivity.
Defined.

End PipelineFacts.

Module FetchLayerFacts.
Import Content Fetch Barren Samples.

(** A fetch touches no entry of the cache but that of the URL it fetches,
    whatever the session does; without caching it sends no conditional
    header and leaves the whole cache as it was. *)
Theorem make_request_frame (get : session) (cache : gmap string cache_data)
    (url other : string) (use_cache : bool) :
  other <> url ->
  fst (_make_request get cache url use_cache) !! other = cache !! other /\
  request_headers cache url false = [] /\
  fst (_make_request get cache url false) = cache.
Proof.
  intros Hne. split; [|split].
  - unfold _make_request.
    destruct (get url (request_headers cache url use_cache)) as [response|e].
    + destruct (status_code response =? 304)%Z; [reflexivity|].
      assert (Hc : (if use_cache
                    then if cache_data_truthy (validators_of response)
                         then <[url := validators_of response]> cache else cache
                    else cache) !! other = cache !! other).
      { destruct use_cache; [|reflexivity].
        destruct (cache_data_truthy _); [|reflexivity].
        apply lookup_insert_ne. congruence. }
      unfold validators_of in Hc.
      destruct (raise_for_status response) as [|[]]; exact Hc.
    + destruct e; reflexivity.
  - reflexivity.
  - unfold _make_request. simpl.
    destruct (get url []) as [response|e].
    + destruct (status_code response =? 304)%Z; [reflexivity|].
      destruct (raise_for_status response) as [|[]]; reflexivity.
    + destruct e; reflexivity.
Qed.

Lemma make_request_frame_witness :
  fst (_make_request (always fresh_ok) primed other_feed true) !! feed_url
    = Some {| etag := Some "abc123"; last_modified := None |}.
Proof.
  rewrite (proj1 (make_request_frame (always fresh_ok) primed other_feed feed_url true
                    ltac:(discriminate))).
  reflexivity.
Defined.

(** The validators a response carries come back as the conditional headers
    of the next request for the same URL: the ETag as If-None-Match, the
    Last-Modified date as If-Modified-Since.  This holds for every answer
    but a 304, a 4xx or 5xx included. *)
Theorem validators_round_trip (get : session) (cache : gmap string cache_data)
    (url : string) (response : Response) :
  get url (request_headers cache url true) = Replied response ->
  status_code response <> 304%Z ->
  cache_data_truthy (validators_of response) = true ->
  let cache' := fst (_make_request get cache url true) in
  header_get (request_headers cache' url true) "If-None-Match"
    = header_get (headers response) "ETag" /\
  header_get (request_headers cache' url true) "If-Modified-Since"
    = header_get (headers response) "Last-Modified".
Proof.
  intros Hget Hs Hv cache'.
  assert (Hc : cache' !! url = Some (validators_of response)).
  { unfold cache', _make_request. rewrite Hget.
    destruct (Z.eqb_spec (status_code response) 304) as [?|_]; [contradiction|].
    fold (validators_of response). rewrite Hv.
    destruct (raise_for_status response) as [|[]]; apply lookup_insert_eq. }
  unfold request_headers. rewrite Hc. unfold validators_of. simpl.
  destruct (header_get (headers response) "ETag") as [e|];
    destruct (header_get (headers response) "Last-Modified") as [m|]; split; reflexivity.
Qed.

Lemma validators_round_trip_witness :
  header_get (request_headers (fst (_make_request (always fresh_ok) primed feed_url true))
                feed_url true) "If-None-Match" = Some "v2".
Proof.
  rewrite (proj1 (validators_round_trip (always fresh_ok) primed feed_url fresh_ok
                    eq_refl ltac:(discriminate) eq_refl)).
  reflexivity.
Defined.

(** A fetch hands back the response exactly when the server answered with
    something other than a 304, a 4xx or a 5xx; it raises exactly when the
    session raised something that is no [RequestException]; in every other
    case the caller gets [None]. *)
Theorem make_request_result (get : session) (cache : gmap string cache_data)
    (url : string) (use_cache : bool) :
  (forall r,
      snd (_make_request get cache url use_cache) = Ok (Some r) <->
      get url (request_headers cache url use_cache) = Replied r /\
      status_code r <> 304%Z /\
      ~ (400 <= status_code r < 600)%Z) /\
  (forall e,
      snd (_make_request get cache url use_cache) = Raise e <->
      get url (request_headers cache url use_cache) = Failed e /\ e <> RequestException).
Proof.
  unfold _make_request.
  destruct (get url (request_headers cache url use_cache)) as [response|x].
  - split.
    + intros r. split.
      * intros H.
        destruct (Z.eqb_spec (status_code response) 304) as [H304|H304];
          [discriminate H|].
        unfold raise_for_status in H.
        destruct (Z.leb_spec 400 (status_code response));
          destruct (Z.ltb_spec (status_code response) 600);
          simpl in H; try discriminate H; injection H as <-;
          (split; [reflexivity|split; [assumption|lia]]).
      * intros (H & H1 & H2). injection H as <-.
        destruct (Z.eqb_spec (status_code response) 304) as [?|_]; [contradiction|].
        unfold raise_for_status.
        destruct (Z.leb_spec 400 (status_code response));
          destruct (Z.ltb_spec (status_code response) 600);
          simpl; try reflexivity; exfalso; apply H2; lia.
    + intros e. split.
      * intros H. exfalso.
        destruct (status_code response =? 304)%Z; [discriminate H|].
        unfold raise_for_status in H.
        destruct ((400 <=? status_code response)%Z && (status_code response <? 600)%Z);
          discriminate H.
      * intros [H _]. discriminate H.
  - split.
    + intros r. split; [|intros [H _]; discriminate H].
      destruct x; intros H; discriminate H.
    + intros e. split.
      * destruct x; simpl; intros H; try discriminate H; injection H as <-;
          split; (reflexivity || discriminate).
      * intros [H Hne]. injection H as ->. destruct e; try reflexivity. contradiction.
Qed.

Section Feeds.
Variable extract_entries : Response -> string -> result (list RawContent).

Lemma barren_fetch (get : session) (cache : gmap string cache_data) (url : string) :
  barren (get url (request_headers cache url true)) = true ->
  snd (scrape_feed extract_entries get cache url) = Ok [] \/
  snd (scrape_feed extract_entries get cache url) = Raise ScraperError.
Proof.
  unfold scrape_feed, _make_request, barren.
  destruct (get url (request_headers cache url true)) as [response|e].
  - unfold raise_for_status.
    destruct (status_code response =? 304)%Z; simpl; [intros _; left; reflexivity|].
    intros ->. left. reflexivity.
  - intros _. destruct e; simpl; (left; reflexivity) || (right; reflexivity).
Qed.

(** Scraping all feeds never raises and only ever adds to what was
    collected; when no source answers with a document (each one fails,
    answers 304, or answers 4xx/5xx), nothing is added at all. *)
Theorem scrape_all_feeds_isolates (get : session) (feeds : list string) :
  forall (cache : gmap string cache_data) (all_content : list RawContent),
    (exists more,
        snd (scrape_all_feeds extract_entries get cache feeds all_content)
        = all_content ++ more) /\
    ((forall url request, barren (get url request) = true) ->
     snd (scrape_all_feeds extract_entries get cache feeds all_content) = all_content).
Proof.
  induction feeds as [|feed_url rest IH]; intros cache all_content; simpl.
  - split; [exists []; symmetry; apply app_nil_r|reflexivity].
  - destruct (scrape_feed extract_entries get cache feed_url) as [cache' r] eqn:E.
    split.
    + destruct r as [content|e].
      * destruct (proj1 (IH cache' (all_content ++ content))) as [more Hm].
        exists (content ++ more). rewrite Hm. symmetry. apply app_assoc.
      * apply IH.
    + intros Hb.
      pose proof (barren_fetch get cache feed_url (Hb _ _)) as Hf.
      rewrite E in Hf. simpl in Hf.
      destruct Hf as [-> | ->].
      * rewrite app_nil_r. apply IH. exact Hb.
      * apply IH. exact Hb.
Qed.

End Feeds.

Lemma scrape_all_feeds_isolates_witness :
  snd (scrape_all_feeds (fun _ _ => Ok []) (always not_found) primed
         [feed_url; other_feed] []) = [].
Proof.
  apply (proj2 (scrape_all_feeds_isolates (fun _ _ => Ok []) (always not_found)
                  [feed_url; other_feed] primed [])).
  intros url request. reflexivity.
Defined.

End FetchLayerFacts.

Module QualityFilterFacts.
Import Content Quality QualityTool Samples QualityFacts.

Lemma omap_kept_length (pairs : list (EnhancedContent * QualityResult)) :
  (List.length (omap kept pairs) <= List.length pairs)%nat.
Proof.
  induction pairs as [|pair rest IH]; simpl; [lia|].
  change (omap kept rest) with (list_omap _ _ kept rest) in IH.
  destruct (kept pair); simpl; lia.
Qed.

Lemma zip_take_results (content_list : list EnhancedContent) :
  forall quality_results : list QualityResult,
    zip (take (List.length quality_results) content_list) quality_results
    = zip content_list quality_results.
Proof.
  induction content_list as [|c cs IH]; intros [|q qs]; simpl; try reflexivity.
  rewrite IH. reflexivity.
Qed.

(** The filter never returns more items than it was given results for:
    items beyond the end of the result list are dropped without notice,
    whatever their quality. *)
Theorem filter_truncates_to_results
    (content_list : list EnhancedContent) (quality_results : list QualityResult) :
  (List.length (filter_high_quality_content content_list quality_results)
   <= Nat.min (List.length content_list) (List.length quality_results))%nat /\
  filter_high_quality_content content_list quality_results
  = filter_high_quality_content (take (List.length quality_results) content_list)
      quality_results.
Proof.
  unfold filter_high_quality_content. rewrite !filter_loop_omap. simpl. split.
  - etransitivity; [apply omap_kept_length|].
    rewrite length_zip_with. reflexivity.
  - rewrite zip_take_results. reflexivity.
Qed.

(** When the validation agent raises, every item survives the filter, in
    order, with its quality score set to the conservative 0.5. *)
Theorem validation_outage_keeps_all
    (agent : list EnhancedContent -> option (list QualityResult))
    (content_list : list EnhancedContent) :
  agent content_list = None ->
  filter_high_quality_content content_list (batch_validate agent content_list)
  = List.map (fun content => set_quality_score content 0.5) content_list.
Proof.
  intros Hfail. unfold batch_validate. rewrite Hfail.
  unfold filter_high_quality_content. rewrite filter_loop_omap. simpl. clear Hfail.
  induction content_list as [|c cs IH]; [reflexivity|].
  simpl. unfold kept at 1. simpl.
  destruct (decide (ENHANCED ∈ [VALIDATED; ENHANCED])) as [_|Hn].
  - f_equal. apply IH.
  - exfalso. apply Hn. apply publishable_iff. right. reflexivity.
Qed.

Lemma validation_outage_keeps_all_witness :
  filter_high_quality_content [roundup; amazon_item]
    (batch_validate (fun _ => None) [roundup; amazon_item])
  = [set_quality_score roundup 0.5; set_quality_score amazon_item 0.5].
Proof.
  apply (validation_outage_keeps_all (fun _ => None) [roundup; amazon_item]). reflexivity.
Defined.

(** The recommendation of the validation tool is a function of the score
    alone: what the model recommended is overwritten by VALIDATED when the
    score reaches 0.8, by ENHANCED when it reaches the threshold but not
    0.8, and by REJECTED otherwise, so that the outcome is never RAW or
    PUBLISHED and passes the filter exactly when the score reaches 0.8 or
    the threshold; a failed call yields the conservative assessment, 0.5
    and ENHANCED, which passes. *)
Theorem tool_recommendation_from_score (describe : exn -> string)
    (quality_threshold : float) (answer : QualityResult) (proposed : ContentStatus)
    (e : exn) :
  let verdict := validate_content_quality describe quality_threshold (Ok answer) in
  validate_content_quality describe quality_threshold (Ok (set_recommendation answer proposed))
    = verdict /\
  overall_quality_score verdict = overall_quality_score answer /\
  (recommendation verdict = VALIDATED <->
   Output.fge (overall_quality_score answer) 0.8 = true) /\
  (recommendation verdict = ENHANCED <->
   Output.fge (overall_quality_score answer) 0.8 = false /\
   Output.fge (overall_quality_score answer) quality_threshold = true) /\
  (recommendation verdict = REJECTED <->
   Output.fge (overall_quality_score answer) 0.8 = false /\
   Output.fge (overall_quality_score answer) quality_threshold = false) /\
  (recommendation verdict ∈ [VALIDATED; ENHANCED] <->
   Output.fge (overall_quality_score answer) 0.8
   || Output.fge (overall_quality_score answer) quality_threshold = true) /\
  recommendation verdict <> RAW /\ recommendation verdict <> PUBLISHED /\
  recommendation (validate_content_quality describe quality_threshold (Raise e)) = ENHANCED /\
  overall_quality_score (validate_content_quality describe quality_threshold (Raise e))
    = 0.5%float.
Proof.
  cbv zeta. unfold validate_content_quality. simpl.
  destruct (Output.fge (overall_quality_score answer) 0.8) eqn:H8;
    [|destruct (Output.fge (overall_quality_score answer) quality_threshold) eqn:Ht];
    simpl; rewrite publishable_iff;
    repeat split; try reflexivity; try discriminate;
    try (intros [H|H]; discriminate H); try (intros [H1 H2]; discriminate);
    try (intros _; auto).
Qed.

End QualityFilterFacts.

Module StripFacts.

Lemma lstrip_by_idem (p : ascii -> bool) (s : string) :
  PyStr.lstrip_by p (PyStr.lstrip_by p s) = PyStr.lstrip_by p s.
Proof.
  induction s as [|c r IH]; simpl; [reflexivity|].
  destruct (p c) eqn:E; [exact IH|]. simpl. rewrite E. reflexivity.
Qed.

Lemma rstrip_by_idem (p : ascii -> bool) (s : string) :
  PyStr.rstrip_by p (PyStr.rstrip_by p s) = PyStr.rstrip_by p s.
Proof.
  induction s as [|c r IH]; simpl; [reflexivity|].
  destruct (PyStr.rstrip_by p r) as [|c' r'] eqn:E.
  - destruct (p c) eqn:Ec; simpl; [reflexivity|]. rewrite Ec. reflexivity.
  - change (PyStr.rstrip_by p (String c (String c' r')))
      with (match PyStr.rstrip_by p (String c' r') with
            | EmptyString => if p c then EmptyString else String c EmptyString
            | r'' => String c r''
            end).
    rewrite IH. reflexivity.
Qed.

(** The head of a string survives [rstrip] when it is not itself stripped. *)
Lemma rstrip_by_head (p : ascii -> bool) (c : ascii) (r : string) :
  p c = false -> exists r', PyStr.rstrip_by p (String c r) = String c r'.
Proof.
  intros E. simpl. destruct (PyStr.rstrip_by p r) as [|c' r''].
  - rewrite E. exists EmptyString. reflexivity.
  - exists (String c' r''). reflexivity.
Qed.

Lemma lstrip_by_head (p : ascii -> bool) (s : string) :
  PyStr.lstrip_by p s = EmptyString \/
  exists c r, PyStr.lstrip_by p s = String c r /\ p c = false.
Proof.
  induction s as [|c r IH]; simpl; [left; reflexivity|].
  destruct (p c) eqn:E; [exact IH|]. right. exists c, r. split; [reflexivity|exact E].
Qed.

Lemma strip_head (s : string) :
  PyStr.strip s = EmptyString \/
  exists c r, PyStr.strip s = String c r /\ PyStr.is_space c = false.
Proof.
  unfold PyStr.strip.
  destruct (lstrip_by_head PyStr.is_space s) as [-> | (c & r & -> & E)].
  - left. reflexivity.
  - right. destruct (rstrip_by_head PyStr.is_space c r E) as [r' ->].
    exists c, r'. split; [reflexivity|exact E].
Qed.

(** [strip] is idempotent. *)
Lemma strip_idem (s : string) : PyStr.strip (PyStr.strip s) = PyStr.strip s.
Proof.
  destruct (strip_head s) as [-> | (c & r & E & Hc)]; [reflexivity|].
  rewrite E. unfold PyStr.strip at 1. simpl PyStr.lstrip_by. rewrite Hc.
  rewrite <- E. unfold PyStr.strip. apply rstrip_by_idem.
Qed.

Lemma lstrip_by_length (p : ascii -> bool) (s : string) :
  (String.length (PyStr.lstrip_by p s) <= String.length s)%nat.
Proof.
  induction s as [|c r IH]; simpl; [lia|]. destruct (p c); simpl; lia.
Qed.

Lemma rstrip_by_length (p : ascii -> bool) (s : string) :
  (String.length (PyStr.rstrip_by p s) <= String.length s)%nat.
Proof.
  induction s as [|c r IH]; simpl; [lia|].
  destruct (PyStr.rstrip_by p r); [destruct (p c)|]; simpl in *; lia.
Qed.

Lemma strip_length (s : string) :
  (String.length (PyStr.strip s) <= String.length s)%nat.
Proof.
  unfold PyStr.strip.
  pose proof (rstrip_by_length PyStr.is_space (PyStr.lstrip_by PyStr.is_space s)).
  pose proof (lstrip_by_length PyStr.is_space s). lia.
Qed.

Lemma title_from_length (s : string) :
  forall b, String.length (PyStr.title_from b s) = String.length s.
Proof. induction s as [|c r IH]; intros b; simpl; [reflexivity|]. rewrite IH. reflexivity. Qed.

Lemma substring_0_length (s : string) :
  forall n, (String.length (substring 0 n s) <= n)%nat /\
            (String.length (substring 0 n s) <= String.length s)%nat.
Proof.
  induction s as [|c r IH]; intros [|n]; simpl; try lia.
  destruct (IH n). lia.
Qed.

Lemma blank_false (s : string) :
  Content.blank s = false -> PyStr.is_empty (PyStr.strip s) = false.
Proof. unfold Content.blank. intros H. apply orb_false_iff in H as [_ H]. exact H. Qed.

Lemma is_empty_length (s : string) :
  PyStr.is_empty s = false <-> (1 <= String.length s)%nat.
Proof. destruct s; simpl; split; intros; (lia || discriminate || reflexivity). Qed.

End StripFacts.

Module ContentInvariants.
Import Content Samples StripFacts.

Ltac split_results H :=
  repeat match type of H with
         | context [match ?r with Ok _ => _ | Raise _ => _ end] =>
             destruct r eqn:?; try discriminate H
         end.

(** Every field of an instance is the validated form of its argument. *)
Lemma EnhancedContent_new_fields
    (now : datetime) (title_ url_ image_ excerpt_ category_ date_ : pyval)
    (quality_score_ : float) (ai_generated_fields_ : list string)
    (enhancement_notes_ : option string) (original_content_ : option RawContent)
    (x : EnhancedContent) :
  EnhancedContent_new now title_ url_ image_ excerpt_ category_ date_ quality_score_
    ai_generated_fields_ enhancement_notes_ original_content_ = Ok x ->
  (t ← str_field (Some 1%nat) (Some 500%nat) title_; validate_title t) = Ok (title x) /\
  url_field url_ = Ok (url x) /\
  url_field image_ = Ok (image x) /\
  (e ← str_field (Some 10%nat) (Some 500%nat) excerpt_; validate_excerpt e) = Ok (excerpt x) /\
  (c ← str_field (Some 1%nat) (Some 100%nat) category_; validate_category c)
    = Ok (category x) /\
  str_field None None date_ = Ok (date x) /\
  score_field quality_score_ = Ok (quality_score x) /\
  validate_ai_fields ai_generated_fields_ = Ok (ai_generated_fields x) /\
  enhanced_at x = now /\
  original_content x = original_content_.
Proof.
  unfold EnhancedContent_new. intros Hnew. split_results Hnew.
  injection Hnew as Hx. rewrite <- Hx. simpl. repeat split; reflexivity.
Qed.

Lemma str_field_bounds (lo hi : nat) (v : pyval) (s : string) :
  str_field (Some lo) (Some hi) v = Ok s ->
  (lo <= String.length s <= hi)%nat /\ PyStr.strip s = s.
Proof.
  destruct v; simpl; try discriminate.
  destruct (Nat.leb_spec lo (String.length (PyStr.strip s0)));
    destruct (Nat.leb_spec (String.length (PyStr.strip s0)) hi); simpl; try discriminate.
  intros Hok. injection Hok as <-. split; [lia|apply strip_idem].
Qed.

Lemma validated_title (v : pyval) (t : string) :
  (s ← str_field (Some 1%nat) (Some 500%nat) v; validate_title s) = Ok t ->
  (String.length t <= 500)%nat /\ PyStr.rstrip_chars "!?." t = t.
Proof.
  destruct (str_field (Some 1%nat) (Some 500%nat) v) as [s|] eqn:E; [|discriminate].
  apply str_field_bounds in E as [Hlen Hs]. simpl.
  unfold validate_title. destruct (blank s); [discriminate|].
  intros H. injection H as <-. rewrite Hs. split.
  - pose proof (rstrip_by_length (PyStr.one_of "!?.") s).
    unfold PyStr.rstrip_chars. lia.
  - unfold PyStr.rstrip_chars. apply rstrip_by_idem.
Qed.

Lemma drop_last_head (c : ascii) (r : string) (n : nat) :
  (n <= String.length r)%nat ->
  exists r', PyStr.drop_last n (String c r) = String c r'.
Proof.
  intros H. unfold PyStr.drop_last. simpl String.length.
  replace (S (String.length r) - n)%nat with (S (String.length r - n)) by lia.
  simpl. eexists. reflexivity.
Qed.

Lemma validated_excerpt (v : pyval) (e : string) :
  (s ← str_field (Some 10%nat) (Some 500%nat) v; validate_excerpt s) = Ok e ->
  (1 <= String.length e <= 500)%nat.
Proof.
  destruct (str_field (Some 10%nat) (Some 500%nat) v) as [s|] eqn:E; [|discriminate].
  apply str_field_bounds in E as [Hlen Hs]. simpl.
  unfold validate_excerpt. destruct (blank s); [discriminate|]. rewrite Hs.
  destruct ((String.length s <? 500)%nat && PyStr.endswith "..." s);
    intros H; injection H as <-; [|lia].
  destruct (strip_head s) as [Hempty | (c & r & Hc & Hsp)].
  - rewrite Hs in Hempty. subst s. simpl in Hlen. lia.
  - rewrite Hs in Hc. subst s. simpl in Hlen.
    destruct (drop_last_head c r 3 ltac:(lia)) as [r' Hd]. rewrite Hd.
    pose proof (strip_length (String c r')) as Hle.
    pose proof (proj2 (substring_0_length (String c r) (String.length (String c r) - 3)))
      as Hsub.
    fold (PyStr.drop_last 3 (String c r)) in Hsub. rewrite Hd in Hsub.
    simpl in Hsub, Hle. split; [|lia].
    unfold PyStr.strip. simpl PyStr.lstrip_by. rewrite Hsp.
    destruct (rstrip_by_head PyStr.is_space c r' Hsp) as [r'' ->]. simpl. lia.
Qed.

Lemma validated_category (v : pyval) (c : string) :
  (s ← str_field (Some 1%nat) (Some 100%nat) v; validate_category s) = Ok c ->
  (1 <= String.length c <= 100)%nat.
Proof.
  destruct (str_field (Some 1%nat) (Some 100%nat) v) as [s|] eqn:E; [|discriminate].
  apply str_field_bounds in E as [Hlen Hs]. simpl.
  unfold validate_category. destruct (blank s); [discriminate|].
  intros H. injection H as <-. rewrite Hs. unfold PyStr.title.
  rewrite title_from_length. exact Hlen.
Qed.

(** Every [EnhancedContent] that exists has a quality score within [0, 1],
    AI field names from the five allowed ones, absolute http(s) URLs for
    page and image, a title of at most 500 characters that ends in none of
    "!", "?", ".", a category of 1 to 100 characters, and an excerpt of at
    most 500 characters that is not empty (it may be shorter than 10, once
    a trailing ellipsis is taken off). *)
Theorem enhanced_content_invariant
    (now : datetime) (title_ url_ image_ excerpt_ category_ date_ : pyval)
    (quality_score_ : float) (ai_generated_fields_ : list string)
    (enhancement_notes_ : option string) (original_content_ : option RawContent)
    (x : EnhancedContent) :
  EnhancedContent_new now title_ url_ image_ excerpt_ category_ date_ quality_score_
    ai_generated_fields_ enhancement_notes_ original_content_ = Ok x ->
  PrimFloat.leb 0 (quality_score x) = true /\ PrimFloat.leb (quality_score x) 1 = true /\
  Forall (fun field => field ∈ valid_fields) (ai_generated_fields x) /\
  is_http_url (url x) = true /\ is_http_url (image x) = true /\
  (String.length (title x) <= 500)%nat /\ PyStr.rstrip_chars "!?." (title x) = title x /\
  (1 <= String.length (excerpt x) <= 500)%nat /\
  (1 <= String.length (category x) <= 100)%nat.
Proof.
  intros H.
  apply EnhancedContent_new_fields in H
    as (Ht & Hu & Hi & He & Hc & _ & Hq & Hf & _ & _).
  apply ContentFacts.url_field_http in Hu as [_ Hu].
  apply ContentFacts.url_field_http in Hi as [_ Hi].
  apply validated_title in Ht as [Ht1 Ht2].
  apply validated_excerpt in He. apply validated_category in Hc.
  assert (Hs : PrimFloat.leb 0 (quality_score x) && PrimFloat.leb (quality_score x) 1 = true).
  { unfold score_field in Hq.
    destruct (PrimFloat.leb 0 quality_score_ && PrimFloat.leb quality_score_ 1) eqn:E;
      [|discriminate]. injection Hq as <-. exact E. }
  apply andb_prop in Hs as [Hs0 Hs1].
  assert (Hfields : Forall (fun field => field ∈ valid_fields) (ai_generated_fields x)).
  { unfold validate_ai_fields in Hf.
    destruct (forallb _ ai_generated_fields_) eqn:E; [|discriminate].
    injection Hf as <-. rewrite forallb_forall in E.
    apply Forall_forall. intros field Hin.
    apply list_elem_of_In in Hin. specialize (E field Hin).
    apply existsb_exists in E as (f & Hf & Heq). apply String.eqb_eq in Heq. subst f.
    apply list_elem_of_In. exact Hf. }
  repeat split; try assumption; lia.
Qed.

(** The invariant at an item whose ten-character excerpt ends in an
    ellipsis: what is kept of it is the single letter before the blanks. *)
Lemma enhanced_content_invariant_witness :
  exists x,
    EnhancedContent_new noon (PStr "Sale!!!") (PStr "https://example.com/sale")
      (PStr "https://example.com/sale.jpg") (PStr "a      ...") (PStr "weekly deals")
      (PStr "2026-11-03") 0.8 ["title"] None None = Ok x /\
    title x = "Sale" /\ excerpt x = "a" /\ category x = "Weekly Deals" /\
    (1 <= String.length (excerpt x) <= 500)%nat.
Proof.
  eexists. split; [reflexivity|]. repeat split; try reflexivity;
    apply (enhanced_content_invariant noon (PStr "Sale!!!") (PStr "https://example.com/sale")
             (PStr "https://example.com/sale.jpg") (PStr "a      ...") (PStr "weekly deals")
             (PStr "2026-11-03") 0.8 ["title"] None None _ eq_refl).
Defined.

End ContentInvariants.

Module EnhancerRunFacts.
Import Content Enhancer Samples ContentInvariants.

Local Opaque EnhancedContent_new.

Ltac not_member :=
  let Hin := fresh "Hin" in
  intros Hin;
  repeat (apply elem_of_cons in Hin as [Hin|Hin]; [discriminate Hin|]);
  inversion Hin.

Ltac member := repeat (first [apply list_elem_of_here | apply list_elem_of_further]).

Lemma enhance_content_inv (llm : agent) (now : datetime) (raw_content : RawContent)
    (calls calls' : nat) (e : EnhancedContent) :
  enhance_content llm now raw_content calls = (calls', Ok e) ->
  exists title_ image_ excerpt_ category_ date_ fields,
    EnhancedContent_new now title_ (PStr (raw_url raw_content)) image_ excerpt_ category_
      date_ 0.8 fields (Some (notes_of fields)) (Some raw_content) = Ok e /\
    (calls < calls' <= calls + 3)%nat /\
    (title_needs_work (raw_title raw_content) = false ->
       title_ = PStr (raw_title raw_content) /\ ~ "title" ∈ fields) /\
    (forall u, raw_image raw_content = Some u -> image_ = PStr u /\ ~ "image" ∈ fields) /\
    (raw_image raw_content = None -> "image" ∈ fields).
Proof.
  unfold enhance_content, mbind, M_bind, mret, M_ret, run, lift. intros H.
  destruct (raw_image raw_content) as [u|] eqn:Hi;
    destruct (raw_category raw_content) as [[|c0 c]|] eqn:Hc; simpl in H;
    repeat (match type of H with
            | context [match llm ?k with Data _ => _ | Fails => _ end] =>
                destruct (llm k) eqn:?
            | context [if ?b then _ else _] => destruct b eqn:?
            | context [match generated_get ?g ?k ?d with Ok _ => _ | Raise _ => _ end] =>
                destruct (generated_get g k d) eqn:?
            end; simpl in H; try discriminate H);
    injection H as <- HE;
    (do 6 eexists); (split; [exact HE|]); (split; [lia|]);
    (split; [intros Hw; first [discriminate Hw | split; [reflexivity|not_member]]|]);
    (split; [intros u' Hu';
             first [discriminate Hu'
                   | injection Hu' as <-; split; [reflexivity|not_member]]
            |intros Hn; first [discriminate Hn | member]]).
Qed.

(** What a successful enhancement returns: the score is the fixed 0.8 (so
    the item is not featured unless validation raises its score), the URL
    and the back-reference are those of the raw item, between one and three
    LLM calls were made, "image" is marked AI-generated exactly when the
    raw item had no image (an image that is there is kept), and a title of
    30 characters or more that has an engagement word is kept, up to the
    stripping the model applies, and not marked. *)
Theorem enhance_content_success (llm : agent) (now : datetime) (raw_content : RawContent)
    (calls calls' : nat) (e : EnhancedContent) :
  enhance_content llm now raw_content calls = (calls', Ok e) ->
  quality_score e = 0.8%float /\
  Output.featured_of (quality_score e) = false /\
  original_content e = Some raw_content /\
  url e = raw_url raw_content /\
  (calls < calls' <= calls + 3)%nat /\
  ("image" ∈ ai_generated_fields e <-> raw_image raw_content = None) /\
  (forall u, raw_image raw_content = Some u -> image e = u) /\
  (title_needs_work (raw_title raw_content) = false ->
     title e = PyStr.rstrip_chars "!?." (PyStr.strip (raw_title raw_content)) /\
     ~ "title" ∈ ai_generated_fields e).
Proof.
  intros H.
  apply enhance_content_inv in H
    as (title_ & image_ & excerpt_ & category_ & date_ & fields & Hnew & Hcalls
        & Htitle & Himg & Hnoimg).
  apply EnhancedContent_new_fields in Hnew
    as (Ht & Hu & Hi & _ & _ & _ & Hq & Hf & _ & Ho).
  apply ContentFacts.score_field_id in Hq.
  apply ContentFacts.validate_ai_fields_id in Hf.
  apply ContentFacts.url_field_http in Hu as [Hu _]. injection Hu as Hu.
  rewrite Hq, Hf. repeat split; try assumption; try (symmetry; assumption); try lia.
  - intros Hin. destruct (raw_image raw_content) as [u|] eqn:E; [|reflexivity].
    exfalso. apply (proj2 (Himg u eq_refl)). exact Hin.
  - intros u Hsome. destruct (Himg u Hsome) as [-> _].
    apply ContentFacts.url_field_http in Hi as [Hi _]. injection Hi as Hi.
    symmetry. exact Hi.
  - destruct (Htitle H) as [-> _]. simpl in Ht.
    destruct (_ && _) in Ht; [|discriminate Ht]. simpl in Ht. unfold validate_title in Ht.
    destruct (blank _) in Ht; [discriminate Ht|]. injection Ht as <-.
    rewrite StripFacts.strip_idem. reflexivity.
  - destruct (Htitle H) as [_ Hn]. exact Hn.
Qed.

Local Transparent EnhancedContent_new.

(** The theorem at the first sample item, served by two LLM calls. *)
Lemma enhance_content_success_witness :
  match enhance_content falters noon flyer 0 with
  | (calls', Ok e) =>
      quality_score e = 0.8%float /\ original_content e = Some flyer /\
      (0 < calls' <= 3)%nat
  | (_, Raise _) => False
  end.
Proof.
  destruct (enhance_content falters noon flyer 0) as [calls' [e|x]] eqn:E.
  - pose proof (enhance_content_success falters noon flyer 0 calls' e E)
      as (Hq & _ & Ho & _ & Hc & _).
    repeat split; try assumption; lia.
  - vm_compute in E. discriminate E.
Defined.

End EnhancerRunFacts.

Module BatchFacts.
Import Content Enhancer Pipeline Outcome Samples.

Lemma batches_from_concat {A} (fuel n : nat) :
  forall l : list A,
    (0 < n)%nat -> (List.length l <= fuel)%nat ->
    concat (batches_from fuel n l) = l /\
    Forall (fun b => b <> [] /\ (List.length b <= n)%nat) (batches_from fuel n l).
Proof.
  induction fuel as [|fuel IH]; intros l Hn Hlen.
  - destruct l; [split; [reflexivity|constructor]|simpl in Hlen; lia].
  - destruct l as [|a l]; [split; [reflexivity|constructor]|].
    change (batches_from (S fuel) n (a :: l))
      with (firstn n (a :: l) :: batches_from fuel n (skipn n (a :: l))).
    assert (Hskip : (List.length (skipn n (a :: l)) <= fuel)%nat).
    { rewrite length_skipn. simpl in *. lia. }
    destruct (IH (skipn n (a :: l)) Hn Hskip) as [Hc Hall]. split.
    + simpl concat. rewrite Hc. apply firstn_skipn.
    + constructor; [|exact Hall]. split.
      * destruct n; [lia|]. discriminate.
      * rewrite length_firstn. lia.
Qed.

(** Batching loses nothing and reorders nothing: the batches, put end to
    end, are the input; none is empty and none has more than [batch_size]
    items. *)
Theorem batches_partition {A} (batch_size : nat) (l : list A) :
  (0 < batch_size)%nat ->
  concat (batches batch_size l) = l /\
  Forall (fun b => b <> [] /\ (List.length b <= batch_size)%nat) (batches batch_size l).
Proof. intros Hn. apply batches_from_concat; [exact Hn|reflexivity]. Qed.

Lemma batches_partition_witness :
  concat (batches 5 [1; 2; 3; 4; 5; 6; 7]%nat) = [1; 2; 3; 4; 5; 6; 7]%nat /\
  batches 5 [1; 2; 3; 4; 5; 6; 7]%nat = [[1; 2; 3; 4; 5]; [6; 7]]%nat.
Proof.
  split; [apply (batches_partition 5 [1; 2; 3; 4; 5; 6; 7]%nat); lia|reflexivity].
Defined.

Section Phase.
Variable llm : agent.
Variable now : datetime.

Lemma substitute_enhanced_from (raw : RawContent) (e : EnhancedContent) :
  minimal_enhanced now 0.6 substitute_note raw = Ok e -> enhanced_from raw e.
Proof.
  unfold minimal_enhanced. intros H.
  pose proof (ContentInvariants.EnhancedContent_new_fields _ _ _ _ _ _ _ _ _ _ _ _ H)
    as (_ & _ & _ & _ & _ & _ & _ & _ & _ & Ho).
  apply ContentFacts.EnhancedContent_new_inv in H as (_ & _ & Hq & Hf & Hn).
  split; [exact Ho|]. right. repeat split; try assumption.
  vm_compute in Hn. injection Hn as Hn. symmetry. exact Hn.
Qed.

Lemma enhancer_enhanced_from (raw : RawContent) (calls calls' : nat) (e : EnhancedContent) :
  enhance_content llm now raw calls = (calls', Ok e) -> enhanced_from raw e.
Proof.
  intros H.
  apply EnhancerRunFacts.enhance_content_inv in H
    as (title_ & image_ & excerpt_ & category_ & date_ & fields & H & _).
  pose proof (ContentInvariants.EnhancedContent_new_fields _ _ _ _ _ _ _ _ _ _ _ _ H)
    as (_ & _ & _ & _ & _ & _ & _ & _ & _ & Ho).
  apply ContentFacts.EnhancedContent_new_inv in H as (_ & _ & Hq & _).
  split; [exact Ho|]. left. exact Hq.
Qed.

(** One batch: either every item of it is accounted for, in order, or the
    substitute of one of them was rejected. *)
Lemma enhance_batch_outcome (batch : list RawContent) :
  forall (st : state) (acc : list EnhancedContent),
    files (fst (enhance_batch llm now batch st acc)) = files st /\
    match snd (enhance_batch llm now batch st acc) with
    | Ok out => exists items, out = acc ++ items /\ Forall2 enhanced_from batch items
    | Raise _ => Exists (fun raw => substitutable now raw = false) batch
    end.
Proof.
  induction batch as [|content rest IH]; intros st acc; simpl.
  - split; [reflexivity|]. exists []. split; [symmetry; apply app_nil_r|constructor].
  - destruct (enhance_content llm now content (llm_calls st)) as [calls [e|x]] eqn:E.
    + destruct (IH (set_llm_calls calls st) (acc ++ [e])) as [Hf Hr].
      split; [exact Hf|].
      destruct (snd (enhance_batch llm now rest (set_llm_calls calls st) (acc ++ [e])))
        as [out|x]; [|apply Exists_cons_tl; exact Hr].
      destruct Hr as (items & -> & Hall). exists (e :: items). split.
      * rewrite <- app_assoc. reflexivity.
      * constructor; [apply (enhancer_enhanced_from _ _ _ _ E)|exact Hall].
    + fold substitute_note.
      destruct (minimal_enhanced now 0.6 substitute_note content) as [e|y] eqn:M.
      * destruct (IH (with_stats add_error (set_llm_calls calls st)) (acc ++ [e]))
          as [Hf Hr].
        split; [exact Hf|].
        destruct (snd (enhance_batch llm now rest
                         (with_stats add_error (set_llm_calls calls st)) (acc ++ [e])))
          as [out|x']; [|apply Exists_cons_tl; exact Hr].
        destruct Hr as (items & -> & Hall). exists (e :: items). split.
        -- rewrite <- app_assoc. reflexivity.
        -- constructor; [apply (substitute_enhanced_from _ _ M)|exact Hall].
      * simpl. split; [reflexivity|]. apply Exists_cons_hd.
        unfold substitutable. rewrite M. reflexivity.
Qed.

Lemma enhance_batches_outcome (bs : list (list RawContent)) :
  forall (st : state) (acc : list EnhancedContent),
    files (fst (enhance_batches llm now bs st acc)) = files st /\
    match snd (enhance_batches llm now bs st acc) with
    | Ok out => exists items, out = acc ++ items /\ Forall2 enhanced_from (concat bs) items
    | Raise _ => Exists (fun raw => substitutable now raw = false) (concat bs)
    end.
Proof.
  induction bs as [|batch rest IH]; intros st acc; simpl.
  - split; [reflexivity|]. exists []. split; [symmetry; apply app_nil_r|constructor].
  - destruct (enhance_batch_outcome batch st acc) as [Hf Hr].
    destruct (enhance_batch llm now batch st acc) as [st1 [out|x]]; simpl in Hf, Hr.
    + destruct Hr as (items & -> & Hall).
      destruct (IH st1 (acc ++ items)) as [Hf' Hr'].
      split; [rewrite Hf'; exact Hf|].
      destruct (snd (enhance_batches llm now rest st1 (acc ++ items))) as [out'|x].
      * destruct Hr' as (items' & -> & Hall'). exists (items ++ items'). split.
        -- rewrite <- app_assoc. reflexivity.
        -- apply Forall2_app; assumption.
      * apply Exists_app. right. exact Hr'.
    + simpl. split; [exact Hf|]. apply Exists_app. left. exact Hr.
Qed.

(** The enhancement phase is all or nothing: it returns one item for each
    raw item, in order, each the enhancer's own (score 0.8) or the degraded
    substitute (score 0.6, no AI fields, the explanatory note); or, when
    the substitute of some item is rejected by the model, nothing at all.
    In particular a batch in which every substitute validates is never
    aborted by a failing item. *)
Theorem enhancement_all_or_nothing (raw_content : list RawContent) (st : state) :
  (Forall2 enhanced_from raw_content (snd (_enhance_content llm now raw_content st)) \/
   (snd (_enhance_content llm now raw_content st) = [] /\
    Exists (fun raw => substitutable now raw = false) raw_content)) /\
  (Forall (fun raw => substitutable now raw = true) raw_content ->
   Forall2 enhanced_from raw_content (snd (_enhance_content llm now raw_content st))) /\
  files (fst (_enhance_content llm now raw_content st)) = files st.
Proof.
  unfold _enhance_content.
  destruct (enhance_batches_outcome (batches 5 raw_content) st []) as [Hf Hr].
  assert (Hcat : concat (batches 5 raw_content) = raw_content)
    by (apply batches_from_concat; [lia|reflexivity]).
  rewrite Hcat in Hr.
  destruct (enhance_batches llm now (batches 5 raw_content) st []) as [st1 [out|x]];
    simpl in Hf, Hr; simpl.
  - destruct Hr as (items & -> & Hall). simpl.
    split; [left; exact Hall|]. split; [intros _; exact Hall|exact Hf].
  - split; [right; split; [reflexivity|exact Hr]|]. split; [|exact Hf].
    intros Hall. exfalso.
    apply Exists_exists in Hr as (raw & Hin & Hbad).
    rewrite Forall_forall in Hall. rewrite (Hall raw Hin) in Hbad. discriminate Hbad.
Qed.

End Phase.

(** Two items, the LLM failing on the second, whose substitute validates:
    two items come back, the second with the score 0.6. *)
Lemma enhancement_all_or_nothing_witness :
  Forall2 enhanced_from [flyer; imageful]
    (snd (_enhance_content falters noon [flyer; imageful] (fresh ∅))).
Proof.
  apply (proj1 (proj2 (enhancement_all_or_nothing falters noon [flyer; imageful] (fresh ∅)))).
  repeat constructor.
Defined.

End BatchFacts.

Module RunFacts.
Import Content Output Pipeline Outcome Frame Samples.

Ltac frame := unfold unchanged; simpl; repeat split; try reflexivity; try lia.

Lemma unchanged_trans (st1 st2 st3 : state) :
  unchanged st1 st2 -> unchanged st2 st3 -> unchanged st1 st3.
Proof.
  intros (Hf & Hs & Ht & He) (Hf' & Hs' & Ht' & He').
  unfold unchanged. rewrite Hf', Hs', Ht'. repeat split; try assumption; lia.
Qed.

Lemma filter_length (content_list : list EnhancedContent)
    (quality_results : list Quality.QualityResult) :
  (List.length (Quality.filter_high_quality_content content_list quality_results)
   <= List.length content_list)%nat.
Proof.
  unfold Quality.filter_high_quality_content. rewrite QualityFacts.filter_loop_omap. simpl.
  etransitivity; [apply QualityFilterFacts.omap_kept_length|].
  rewrite length_zip_with. lia.
Qed.

Section World.
Variable config : SiteConfig.
Variable agents_initialized : bool.
Variable llm : Enhancer.agent.
Variable validator : list EnhancedContent -> option (list Quality.QualityResult).
Variable can_write : string -> bool.
Variable t_start t_end now : datetime.
Variable fromisoformat : string -> option datetime.
Variable strptime_ymd : string -> option datetime.
Variable md5_hexdigest : string -> string.

Local Abbreviation run scraped :=
  (run_pipeline config agents_initialized scraped llm validator can_write
     t_start t_end now fromisoformat strptime_ymd md5_hexdigest).

Lemma convert_loop_size (raw_content : list RawContent) :
  forall (st : state) (acc : list EnhancedContent),
    (List.length (snd (convert_loop now raw_content st acc))
     <= List.length acc + List.length raw_content)%nat /\
    unchanged st (fst (convert_loop now raw_content st acc)).
Proof.
  induction raw_content as [|content rest IH]; intros st acc; simpl; [split; [lia|frame]|].
  destruct (minimal_enhanced now 0.7 "No AI enhancement applied" content) as [e|x].
  - destruct (IH st (acc ++ [e])) as [Hl Hf]. rewrite length_app in Hl. simpl in Hl.
    split; [lia|exact Hf].
  - destruct (IH (with_stats add_error st) acc) as [Hl Hf]. split; [lia|].
    apply (unchanged_trans _ (with_stats add_error st)); [frame|exact Hf].
Qed.

Lemma output_loop_size (validated_content : list EnhancedContent) :
  forall (st : state) (acc : list DealOutput),
    (List.length (snd (output_loop config now fromisoformat strptime_ymd md5_hexdigest
                         validated_content st acc))
     <= List.length acc + List.length validated_content)%nat /\
    unchanged st (fst (output_loop config now fromisoformat strptime_ymd md5_hexdigest
                         validated_content st acc)) /\
    total_enhanced (stats (fst (output_loop config now fromisoformat strptime_ymd
                                  md5_hexdigest validated_content st acc)))
    = total_enhanced (stats st).
Proof.
  induction validated_content as [|content rest IH]; intros st acc; simpl;
    [split; [lia|split; [frame|reflexivity]]|].
  destruct (convert_to_deal_output fromisoformat strptime_ymd now md5_hexdigest content config)
    as [d|x].
  - destruct (IH st (acc ++ [d])) as (Hl & Hf & Hen). rewrite length_app in Hl. simpl in Hl.
    split; [lia|]. split; assumption.
  - destruct (IH (with_stats add_error st) acc) as (Hl & Hf & Hen). split; [lia|].
    split; [|exact Hen].
    apply (unchanged_trans _ (with_stats add_error st)); [frame|exact Hf].
Qed.

Lemma enhance_batch_unchanged (batch : list RawContent) :
  forall (st : state) (acc : list EnhancedContent),
    unchanged st (fst (enhance_batch llm now batch st acc)).
Proof.
  induction batch as [|content rest IH]; intros st acc; simpl; [frame|].
  destruct (Enhancer.enhance_content llm now content (llm_calls st)) as [calls [e|x]].
  - apply (unchanged_trans _ (set_llm_calls calls st)); [frame|apply IH].
  - destruct (minimal_enhanced now 0.6 "Enhancement failed, using original content" content)
      as [e|y]; [|frame].
    apply (unchanged_trans _ (with_stats add_error (set_llm_calls calls st))); [frame|apply IH].
Qed.

Lemma enhance_batches_unchanged (bs : list (list RawContent)) :
  forall (st : state) (acc : list EnhancedContent),
    unchanged st (fst (enhance_batches llm now bs st acc)).
Proof.
  induction bs as [|batch rest IH]; intros st acc; simpl; [frame|].
  pose proof (enhance_batch_unchanged batch st acc) as Hb.
  destruct (enhance_batch llm now batch st acc) as [st1 [out|x]]; simpl in Hb; [|exact Hb].
  apply (unchanged_trans _ st1); [exact Hb|apply IH].
Qed.

Lemma enhance_content_size (raw_content : list RawContent) (st : state) :
  (List.length (snd (_enhance_content llm now raw_content st)) <= List.length raw_content)%nat /\
  unchanged st (fst (_enhance_content llm now raw_content st)).
Proof.
  unfold _enhance_content.
  pose proof (enhance_batches_unchanged (batches 5 raw_content) st []) as Hu.
  pose proof (proj2 (BatchFacts.enhance_batches_outcome llm now (batches 5 raw_content) st []))
    as Hr.
  assert (Hcat : concat (batches 5 raw_content) = raw_content)
    by (apply BatchFacts.batches_from_concat; [lia|reflexivity]).
  rewrite Hcat in Hr.
  destruct (enhance_batches llm now (batches 5 raw_content) st []) as [st1 [out|x]];
    simpl in Hu, Hr; simpl.
  - destruct Hr as (items & -> & Hall). simpl. apply Forall2_length in Hall.
    split; [lia|exact Hu].
  - split; [lia|]. apply (unchanged_trans _ st1); [exact Hu|frame].
Qed.

(** The phases before the writing one, on a non-empty scrape: they leave
    the files alone and hand over no more records than items scraped. *)
Lemma phases_nonempty (raw0 : RawContent) (rest : list RawContent)
    (output_path : string) (st : state) :
  exists (st4 : state) (records : list DealOutput),
    (List.length records <= List.length (raw0 :: rest))%nat /\
    files st4 = files st /\
    start_time (stats st4) = start_time (stats st) /\
    (errors (stats st) <= errors (stats st4))%Z /\
    total_scraped (stats st4) = len (raw0 :: rest) /\
    total_output (stats st4) = len records /\
    (0 <= total_enhanced (stats st4))%Z /\
    phases config agents_initialized (Ok (raw0 :: rest)) llm validator can_write t_end now
      fromisoformat strptime_ymd md5_hexdigest output_path st
    = (let '(st5, written) := _write_output_file can_write records output_path st4 in
       match written with
       | Raise e => (st5, Raise e)
       | Ok _ =>
           let st6 := with_stats (set_end_time t_end) st5 in
           (st6, _create_output_summary config agents_initialized now st6 output_path records)
       end).
Proof.
  unfold phases, _scrape_content. cbv beta iota zeta.
  set (raw := raw0 :: rest).
  set (st1 := with_stats (set_total_scraped (len raw)) st).
  destruct (ai_agents_enabled config agents_initialized).
  - destruct (enhance_content_size raw st1) as [Hl (Hf & Hs & Ht & He)].
    destruct (_enhance_content llm now raw st1) as [st2 enhanced_content].
    simpl in Hl, Hf, Hs, Ht, He. unfold _validate_content, _generate_output.
    cbv beta iota zeta.
    set (validated_content :=
           Quality.filter_high_quality_content enhanced_content
             (Quality.batch_validate validator enhanced_content)).
    pose proof (filter_length enhanced_content
                  (Quality.batch_validate validator enhanced_content)) as Hv.
    fold validated_content in Hv.
    set (st3 := with_stats (set_total_validated (len validated_content))
                  (with_stats (set_total_enhanced (len enhanced_content)) st2)).
    destruct (output_loop_size validated_content st3 []) as (Hl' & (Hf' & Hs' & Ht' & He') & Hen).
    destruct (output_loop config now fromisoformat strptime_ymd md5_hexdigest
                validated_content st3 []) as [st4 records].
    simpl in Hl', Hf', Hs', Ht', He', Hen.
    exists (with_stats (set_total_output (len records)) st4), records. simpl.
    rewrite Hf', Hs', Ht', Hf, Hs, Ht, Hen. unfold len.
    repeat split; try reflexivity; try lia.
  - unfold _convert_raw_to_enhanced, _generate_output.
    destruct (convert_loop_size raw st1 []) as [Hl (Hf & Hs & Ht & He)].
    destruct (convert_loop now raw st1 []) as [st2 validated_content].
    simpl in Hl, Hf, Hs, Ht, He.
    set (st3 := with_stats (set_total_validated (len validated_content))
                  (with_stats (set_total_enhanced (len validated_content)) st2)).
    destruct (output_loop_size validated_content st3 []) as (Hl' & (Hf' & Hs' & Ht' & He') & Hen).
    destruct (output_loop config now fromisoformat strptime_ymd md5_hexdigest
                validated_content st3 []) as [st4 records].
    simpl in Hl', Hf', Hs', Ht', He', Hen.
    exists (with_stats (set_total_output (len records)) st4), records. simpl.
    rewrite Hf', Hs', Ht', Hf, Hs, Ht, Hen. unfold len.
    repeat split; try reflexivity; try lia.
Qed.

Lemma OutputSummary_new_inv (total successful failed : Z) (path : string)
    (time_ : float) (avg : option float) (ai_count : Z) (cats : list string)
    (r : result OutputSummary) :
  OutputSummary_new now total successful failed path time_ avg ai_count cats = r ->
  match r with
  | Ok summary =>
      total_items summary = total /\ successful_items summary = successful /\
      failed_items summary = failed /\ output_file summary = path /\
      (0 <= failed)%Z
  | Raise e => e = ValidationError
  end.
Proof.
  unfold OutputSummary_new. intros <-.
  destruct (_ && _) eqn:E; [|reflexivity].
  repeat (apply andb_true_iff in E as [E ?]).
  simpl. repeat split. lia.
Qed.


(** When the path can be written, a run over a non-empty scrape always
    writes the file, holding no more records than items were scraped, and
    touches no other file. If the run returns, its summary counts the
    scraped items as total and the records of the file as successful, so
    successful never exceeds total. The one way left to fail is the
    validation of the summary itself, and then the file has been written
    all the same. *)
Theorem completed_run_accounts_for_the_file (raw0 : RawContent)
    (rest : list RawContent) (output_path : string) (st : state) :
  can_write output_path = true ->
  exists records : list DealOutput,
    files (fst (run (Ok (raw0 :: rest)) output_path st))
      = <[output_path := records]> (files st) /\
    (List.length records <= List.length (raw0 :: rest))%nat /\
    total_scraped (stats (fst (run (Ok (raw0 :: rest)) output_path st))) = len (raw0 :: rest) /\
    total_output (stats (fst (run (Ok (raw0 :: rest)) output_path st))) = len records /\
    (forall summary,
        snd (run (Ok (raw0 :: rest)) output_path st) = Ok summary ->
        total_items summary = len (raw0 :: rest) /\
        successful_items summary = len records /\
        (successful_items summary <= total_items summary)%Z /\
        (errors (stats st) <= failed_items summary)%Z /\
        output_file summary = output_path) /\
    (forall e,
        snd (run (Ok (raw0 :: rest)) output_path st) = Raise e -> e = ValidationError).
Proof.
  intros Hw. unfold run_pipeline. cbv zeta.
  destruct (phases_nonempty raw0 rest output_path (with_stats (set_start_time t_start) st))
    as (st4 & records & Hl & Hf & Ht & He & Hs & Ho & _ & ->).
  unfold _write_output_file. rewrite Hw. cbv beta iota zeta.
  exists records.
  match goal with
  | |- context [_create_output_summary _ _ _ ?s _ _] => set (st6 := s)
  end.
  pose proof (OutputSummary_new_inv _ _ _ _ _ _ _ _ _
                (eq_refl (_create_output_summary config agents_initialized now st6
                            output_path records))) as Hsum.
  destruct (_create_output_summary config agents_initialized now st6 output_path records)
    as [summary|x]; subst st6; simpl in *;
    (split; [rewrite Hf; reflexivity|]); (split; [exact Hl|]);
    (split; [exact Hs|]); (split; [exact Ho|]); split.
  - intros s Hsome. injection Hsome as <-.
    destruct Hsum as (Hti & Hsi & Hfi & Hof & _).
    rewrite Hti, Hsi, Hfi, Hof, Hs, Ho. unfold len. simpl List.length.
    repeat split; lia.
  - intros e Hr. discriminate Hr.
  - intros s Hsome. discriminate Hsome.
  - intros e Hr. injection Hr as <-. exact Hsum.
Qed.

End World.


(** The same three items and a path that can be written. *)
Lemma completed_run_accounts_for_the_file_witness :
  exists records,
    files (fst (run_pipeline (site None false) true (Ok [flyer; terse; imageless])
                  falters (fun _ => None) (fun _ => true) noon noon noon
                  no_date no_date digest "public/data.json" (fresh ∅)))
      = {[ "public/data.json" := records ]} /\
    (List.length records <= 3)%nat.
Proof.
  destruct (completed_run_accounts_for_the_file (site None false) true falters
              (fun _ => None) (fun _ => true) noon noon noon no_date no_date digest
              flyer [terse; imageless] "public/data.json" (fresh ∅) eq_refl)
    as (records & Hf & Hl & _).
  exists records. split; [exact Hf|exact Hl].
Defined.

End RunFacts.

Module FloatFacts.

Lemma SFcompare_antisym (x y : spec_float) :
  SFcompare y x = option_map CompOpp (SFcompare x y).
Proof.
  destruct x as [sx|sx| |sx mx ex], y as [sy|sy| |sy my ey]; simpl; try reflexivity;
    try (destruct sx; reflexivity); try (destruct sy; reflexivity);
    try (destruct sx, sy; reflexivity).
  destruct sx, sy; simpl; try reflexivity;
    rewrite (Z.compare_antisym ex ey); destruct (ex ?= ey)%Z; simpl; try reflexivity;
    pose proof (Pos.compare_cont_antisym mx my Eq) as A; simpl in A; rewrite <- A;
    destruct (Pos.compare_cont Eq mx my); reflexivity.
Qed.

Lemma SFcompare_refl (x : spec_float) :
  x <> S754_nan -> SFcompare x x = Some Eq.
Proof.
  destruct x as [s|s| |s m e]; simpl; intros H; try reflexivity; try (destruct s; reflexivity).
  - exfalso. apply H. reflexivity.
  - destruct s; rewrite Z.compare_refl, Pos.compare_cont_refl; reflexivity.
Qed.

Lemma SFleb_not_nan (x y : spec_float) :
  SFleb x y = true -> x <> S754_nan /\ y <> S754_nan.
Proof.
  unfold SFleb. destruct x, y; simpl; try discriminate; intros _; split; discriminate.
Qed.

Lemma SFcompare_some (x y : spec_float) :
  x <> S754_nan -> y <> S754_nan -> exists c, SFcompare x y = Some c.
Proof.
  intros Hx Hy. destruct x, y; simpl; try (exfalso; congruence); eexists; reflexivity.
Qed.

(** A float that compares with anything is no NaN, and so equals itself. *)
Lemma leb_self (a p : float) : PrimFloat.leb a p = true -> PrimFloat.leb p p = true.
Proof.
  rewrite !FloatAxioms.leb_spec. intros H. apply SFleb_not_nan in H as [_ H].
  unfold SFleb. rewrite (SFcompare_refl _ H). reflexivity.
Qed.

(** Among numbers, [not (v < p)] is [p <= v]. *)
Lemma leb_of_not_ltb (a v p : float) :
  PrimFloat.leb a v = true -> PrimFloat.leb a p = true ->
  PrimFloat.ltb v p = false -> PrimFloat.leb p v = true.
Proof.
  rewrite !FloatAxioms.leb_spec, FloatAxioms.ltb_spec. intros Hv Hp Hlt.
  apply SFleb_not_nan in Hv as [_ Hv]. apply SFleb_not_nan in Hp as [_ Hp].
  unfold SFleb, SFltb in *. rewrite (SFcompare_antisym (Prim2SF v) (Prim2SF p)).
  destruct (SFcompare_some _ _ Hv Hp) as [c Hc]. rewrite Hc in *.
  destruct c; simpl; congruence.
Qed.

End FloatFacts.

Module DealFacts.
Import Content Output Samples StripFacts.

Lemma all_chars_filter (p : ascii -> bool) (s : string) :
  PyStr.all_chars p (PyStr.filter_chars p s) = true.
Proof.
  induction s as [|c r IH]; simpl; [reflexivity|].
  destruct (p c) eqn:E; simpl; [rewrite E|]; exact IH.
Qed.

Lemma all_chars_substring_0 (p : ascii -> bool) (s : string) :
  forall n, PyStr.all_chars p s = true -> PyStr.all_chars p (substring 0 n s) = true.
Proof.
  induction s as [|c r IH]; intros [|n] H; simpl in *; try reflexivity.
  apply andb_prop in H as [Hc Hr]. rewrite Hc. apply IH. exact Hr.
Qed.

(** What passes a required-text validator is not empty and has no blank at
    either end. *)
Lemma stripped_nonblank (v : string) :
  blank v = false ->
  PyStr.is_empty (PyStr.strip v) = false /\ PyStr.strip (PyStr.strip v) = PyStr.strip v.
Proof. intros H. split; [apply blank_false; exact H|apply strip_idem]. Qed.

Section Constructor.
Variable fromisoformat : string -> option datetime.
Variable strptime_ymd : string -> option datetime.
Variable now : datetime.

(** Every field of a record is the validated form of its argument, or
    the default of a field that was left out. *)
Lemma DealOutput_new_fields
    (id_ title_ imageUrl_ : string) (price_ originalPrice_ : option float)
    (discountPercent_ : option Z) (category_ description_ affiliateUrl_ : string)
    (featured_ : bool) (dateAdded_ : string) (d : DealOutput) :
  DealOutput_new fromisoformat strptime_ymd now id_ title_ imageUrl_ price_ originalPrice_
    discountPercent_ category_ description_ affiliateUrl_ featured_ dateAdded_ = Ok d ->
  validate_deal_id (PyStr.strip id_) = Ok (id d) /\
  validate_deal_title (PyStr.strip title_) = Ok (title d) /\
  validate_image_url (PyStr.strip imageUrl_) = Ok (imageUrl d) /\
  defaulted price_ 0%float price_field = Ok (price d) /\
  defaulted originalPrice_ 0%float
    (fun v => v ← price_field v;
              validate_original_price v (defaulted price_ 0%float price_field))
    = Ok (originalPrice d) /\
  defaulted discountPercent_ 0%Z
    (fun v => v ← percent_field v;
              validate_discount_percent v (defaulted price_ 0%float price_field)
                (defaulted originalPrice_ 0%float
                   (fun v => v ← price_field v;
                             validate_original_price v
                               (defaulted price_ 0%float price_field))))
    = Ok (discountPercent d) /\
  Output.validate_category (PyStr.strip category_) = Ok (category d) /\
  validate_description (PyStr.strip description_) = Ok (description d) /\
  validate_affiliate_url (PyStr.strip affiliateUrl_) = Ok (affiliateUrl d) /\
  featured d = featured_ /\
  validate_date_added fromisoformat strptime_ymd now (PyStr.strip dateAdded_)
    = Ok (dateAdded d).
Proof.
  unfold DealOutput_new. intros H.
  repeat match type of H with
         | context [match ?x with Ok _ => _ | Raise _ => _ end] =>
             destruct x eqn:?; try discriminate H
         | context [match ?e with KeyError => _ | _ => _ end] =>
             destruct e; try discriminate H
         end.
  injection H as <-. simpl. repeat split; reflexivity.
Qed.

(** Every [DealOutput] that exists has an identifier of at most 50
    characters, each a letter, a digit, "-" or "_"; a title, a description
    and an affiliate URL that are not empty and carry no blank at either
    end; an image URL and a category that are not empty; a price and an
    original price that are not negative; an original price that is not
    below the price whenever an original price was passed (one that was
    left out stays 0.0, below any positive price); a discount of at most
    100, and not negative when it is not computed from the prices; and a
    date that was printed by [strftime], whatever string was given. *)
Theorem deal_output_invariant
    (id_ title_ imageUrl_ : string) (price_ originalPrice_ : option float)
    (discountPercent_ : option Z) (category_ description_ affiliateUrl_ : string)
    (featured_ : bool) (dateAdded_ : string) (d : DealOutput) :
  DealOutput_new fromisoformat strptime_ymd now id_ title_ imageUrl_ price_ originalPrice_
    discountPercent_ category_ description_ affiliateUrl_ featured_ dateAdded_ = Ok d ->
  ((String.length (id d) <= 50)%nat /\
   PyStr.all_chars (fun c => PyStr.is_alnum c || PyStr.one_of "-_" c) (id d) = true) /\
  (PyStr.is_empty (title d) = false /\ PyStr.strip (title d) = title d) /\
  (PyStr.is_empty (description d) = false /\ PyStr.strip (description d) = description d) /\
  (PyStr.is_empty (affiliateUrl d) = false /\ PyStr.strip (affiliateUrl d) = affiliateUrl d) /\
  PyStr.is_empty (imageUrl d) = false /\
  PyStr.is_empty (category d) = false /\
  (fge (price d) 0 = true /\ fge (originalPrice d) 0 = true /\
   (originalPrice_ <> None -> fge (originalPrice d) (price d) = true) /\
   (originalPrice_ = None -> originalPrice d = 0%float)) /\
  ((discountPercent d <= 100)%Z /\
   (priced (price d) (originalPrice d) = false -> (0 <= discountPercent d)%Z) /\
   (discountPercent_ = None -> discountPercent d = 0%Z)) /\
  exists dt, dateAdded d = strftime_ymd dt.
Proof.
  intros H.
  apply DealOutput_new_fields in H
    as (Hid & Ht & Him & Hp & Ho & Hd & Hc & Hde & Ha & _ & Hda).
  assert (Hprice : fge (price d) 0 = true).
  { destruct price_ as [p|]; simpl in Hp; [|injection Hp as <-; reflexivity].
    unfold price_field in Hp. destruct (fge p 0) eqn:E; [|discriminate Hp].
    injection Hp as <-. exact E. }
  rewrite Hp in Ho, Hd. rewrite Ho in Hd.
  assert (Horig : fge (originalPrice d) 0 = true /\
                  (originalPrice_ <> None -> fge (originalPrice d) (price d) = true) /\
                  (originalPrice_ = None -> originalPrice d = 0%float)).
  { destruct originalPrice_ as [o|]; simpl in Ho.
    - destruct (price_field o) as [v|x] eqn:Ev; [|discriminate Ho].
      simpl in Ho. unfold validate_original_price in Ho. simpl in Ho.
      assert (Hv : fge v 0 = true).
      { unfold price_field in Ev. destruct (fge o 0) eqn:E; [|discriminate Ev].
        injection Ev as <-. exact E. }
      unfold fge, flt in *.
      destruct (PrimFloat.ltb v (price d)) eqn:Hlt; injection Ho as <-.
      + split; [exact Hprice|]. split; [|intros Hn; discriminate Hn].
        intros _. apply (FloatFacts.leb_self 0). exact Hprice.
      + split; [exact Hv|]. split; [|intros Hn; discriminate Hn].
        intros _. apply (FloatFacts.leb_of_not_ltb 0); assumption.
    - injection Ho as <-. split; [reflexivity|]. split; [intros Hn; contradiction|].
      intros _. reflexivity. }
  assert (Hdisc : (discountPercent d <= 100)%Z /\
                  (priced (price d) (originalPrice d) = false -> (0 <= discountPercent d)%Z) /\
                  (discountPercent_ = None -> discountPercent d = 0%Z)).
  { destruct discountPercent_ as [v0|]; simpl in Hd.
    - destruct (percent_field v0) as [v|x] eqn:Ev; [|discriminate Hd].
      simpl in Hd. unfold validate_discount_percent in Hd. simpl in Hd.
      fold (priced (price d) (originalPrice d)) in Hd.
      split; [|split; [|intros Hn; discriminate Hn]].
      + destruct (priced (price d) (originalPrice d)).
        * destruct (int_of_float _) as [calculated|x]; [|discriminate Hd].
          simpl in Hd. injection Hd as <-. lia.
        * destruct (v >? 0)%Z; injection Hd as <-; lia.
      + intros Hpr. rewrite Hpr in Hd.
        destruct (Z.gtb_spec v 0); injection Hd as <-; lia.
    - injection Hd as <-. split; [lia|]. split; [intros _; lia|intros _; reflexivity]. }
  repeat split; try (apply Horig); try (apply Hdisc); try exact Hprice.
  - unfold validate_deal_id in Hid. destruct (blank _); [discriminate Hid|].
    injection Hid as <-. apply (proj1 (substring_0_length _ 50)).
  - unfold validate_deal_id in Hid. destruct (blank _); [discriminate Hid|].
    injection Hid as <-. apply all_chars_substring_0. apply all_chars_filter.
  - unfold validate_deal_title in Ht. destruct (blank _) eqn:E; [discriminate Ht|].
    injection Ht as <-. apply (stripped_nonblank _ E).
  - unfold validate_deal_title in Ht. destruct (blank _) eqn:E; [discriminate Ht|].
    injection Ht as <-. apply strip_idem.
  - unfold validate_description in Hde. destruct (blank _) eqn:E; [discriminate Hde|].
    injection Hde as <-. apply (stripped_nonblank _ E).
  - unfold validate_description in Hde. destruct (blank _) eqn:E; [discriminate Hde|].
    injection Hde as <-. apply strip_idem.
  - unfold validate_affiliate_url in Ha. destruct (blank _) eqn:E; [discriminate Ha|].
    injection Ha as <-. apply (stripped_nonblank _ E).
  - unfold validate_affiliate_url in Ha. destruct (blank _) eqn:E; [discriminate Ha|].
    injection Ha as <-. apply strip_idem.
  - unfold validate_image_url in Him. destruct (blank _) eqn:E; injection Him as <-;
      [reflexivity|apply (stripped_nonblank _ E)].
  - unfold Output.validate_category in Hc. destruct (blank _) eqn:E; injection Hc as <-;
      [reflexivity|].
    apply is_empty_length. unfold PyStr.title. rewrite title_from_length.
    apply is_empty_length. apply (stripped_nonblank _ E).
  - unfold validate_date_added in Hda.
    destruct (blank _); [injection Hda as <-; eexists; reflexivity|].
    destruct (if PyStr.contains "T" (PyStr.strip dateAdded_)
              then fromisoformat (replace_Z (PyStr.strip dateAdded_))
              else strptime_ymd (PyStr.strip dateAdded_)) as [dt|];
      injection Hda as <-; eexists; reflexivity.
Qed.

End Constructor.

(** A record built from untidy arguments: an identifier with a blank and
    capitals, an original price below the price, a date that does not
    parse; and the same record built without an original price, which
    stays below the price. *)
Lemma deal_output_invariant_witness :
  (exists d,
     DealOutput_new no_date no_date noon "Stand Mixer #1" " Stand mixer " ""
       (Some 249.99%float) (Some 199.99%float) (Some 30%Z)
       "small appliances" "A stand mixer." "https://example.com/mixer" false "yesterday"
     = Ok d /\
     id d = "stand-mixer-1" /\ originalPrice d = 249.99%float /\ discountPercent d = 30%Z /\
     category d = "Small Appliances" /\ dateAdded d = "2026-11-03" /\
     fge (originalPrice d) (price d) = true) /\
  (exists d,
     DealOutput_new no_date no_date noon "Stand Mixer #1" " Stand mixer " ""
       (Some 249.99%float) None (Some 30%Z)
       "small appliances" "A stand mixer." "https://example.com/mixer" false "yesterday"
     = Ok d /\
     originalPrice d = 0%float /\ fge (originalPrice d) (price d) = false).
Proof.
  split.
  - eexists. split; [reflexivity|]. do 5 (split; [reflexivity|]).
    apply (deal_output_invariant no_date no_date noon "Stand Mixer #1" " Stand mixer " ""
             (Some 249.99%float) (Some 199.99%float) (Some 30%Z) "small appliances"
             "A stand mixer." "https://example.com/mixer" false "yesterday" _ eq_refl).
    discriminate.
  - eexists. split; [reflexivity|]. split; [|reflexivity].
    apply (deal_output_invariant no_date no_date noon "Stand Mixer #1" " Stand mixer " ""
             (Some 249.99%float) None (Some 30%Z) "small appliances"
             "A stand mixer." "https://example.com/mixer" false "yesterday" _ eq_refl).
    reflexivity.
Defined.

End DealFacts.

Module ProjectionFacts.
Import Content Output Digest Samples StripFacts.

Lemma is_hex_char (c : ascii) :
  is_hex c = true ->
  PyStr.is_space c = false /\ PyStr.to_lower c = c /\ Ascii.eqb c " " = false /\
  PyStr.is_alnum c = true.
Proof.
  unfold is_hex, PyStr.one_of. simpl. intros H.
  repeat (apply orb_prop in H as [H|H];
          [apply Ascii.eqb_eq in H; subst c; repeat split; reflexivity|]).
  discriminate H.
Qed.

Lemma all_chars_impl (p q : ascii -> bool) (s : string) :
  (forall c, p c = true -> q c = true) ->
  PyStr.all_chars p s = true -> PyStr.all_chars q s = true.
Proof.
  intros Hpq. induction s as [|c r IH]; simpl; [reflexivity|].
  intros H. apply andb_prop in H as [Hc Hr]. rewrite (Hpq c Hc). apply IH. exact Hr.
Qed.

Lemma map_chars_id (p : ascii -> bool) (f : ascii -> ascii) (s : string) :
  (forall c, p c = true -> f c = c) ->
  PyStr.all_chars p s = true -> PyStr.map_chars f s = s.
Proof.
  intros Hf. induction s as [|c r IH]; simpl; [reflexivity|].
  intros H. apply andb_prop in H as [Hc Hr]. rewrite (Hf c Hc), (IH Hr). reflexivity.
Qed.

Lemma filter_chars_id (p : ascii -> bool) (s : string) :
  PyStr.all_chars p s = true -> PyStr.filter_chars p s = s.
Proof.
  induction s as [|c r IH]; simpl; [reflexivity|].
  intros H. apply andb_prop in H as [Hc Hr]. rewrite Hc, (IH Hr). reflexivity.
Qed.

Lemma substring_0_all (s : string) :
  forall n, (String.length s <= n)%nat -> substring 0 n s = s.
Proof.
  induction s as [|c r IH]; intros [|n] H; simpl in *; try reflexivity; try lia.
  rewrite IH by lia. reflexivity.
Qed.

Lemma substring_0_exact (s : string) :
  forall n, (n <= String.length s)%nat -> String.length (substring 0 n s) = n.
Proof.
  induction s as [|c r IH]; intros [|n] H; simpl in *; try reflexivity; try lia.
  rewrite IH by lia. reflexivity.
Qed.

(** The first twelve digits of a digest pass the identifier validator
    unchanged. *)
Lemma digest_prefix_is_its_own_id (digest : string) :
  hex_digest digest = true ->
  validate_deal_id (PyStr.strip (PyStr.take 12 digest)) = Ok (PyStr.take 12 digest).
Proof.
  unfold hex_digest. intros H. apply andb_prop in H as [Hlen Hhex].
  apply Nat.eqb_eq in Hlen.
  set (h := PyStr.take 12 digest).
  assert (Hh : PyStr.all_chars is_hex h = true)
    by (apply DealFacts.all_chars_substring_0; exact Hhex).
  assert (Hl : String.length h = 12%nat) by (apply substring_0_exact; lia).
  assert (Hs : PyStr.strip h = h).
  { apply StringFacts.strip_no_space. unfold PyStr.no_space.
    apply (all_chars_impl is_hex); [|exact Hh].
    intros c Hc. destruct (is_hex_char c Hc) as (-> & _). reflexivity. }
  rewrite Hs. unfold validate_deal_id, blank. rewrite Hs.
  assert (He : PyStr.is_empty h = false) by (apply is_empty_length; lia).
  rewrite He. simpl orb. cbv iota.
  unfold PyStr.replace_char, PyStr.lower.
  rewrite (map_chars_id is_hex _ h); [|intros c Hc|exact Hh].
  2: { destruct (is_hex_char c Hc) as (_ & _ & -> & _). reflexivity. }
  rewrite (map_chars_id is_hex _ h); [|intros c Hc|exact Hh].
  2: { destruct (is_hex_char c Hc) as (_ & -> & _). reflexivity. }
  rewrite filter_chars_id.
  - unfold PyStr.take at 1. rewrite substring_0_all by lia. reflexivity.
  - apply (all_chars_impl is_hex); [|exact Hh].
    intros c Hc. destruct (is_hex_char c Hc) as (_ & _ & _ & ->). reflexivity.
Qed.

Lemma rstrip_by_prefix (p : ascii -> bool) (c : ascii) (r : string) :
  PyStr.rstrip_by p (String c r) = EmptyString \/
  exists r', PyStr.rstrip_by p (String c r) = String c r'.
Proof.
  simpl. destruct (PyStr.rstrip_by p r) as [|c' r''].
  - destruct (p c); [left; reflexivity|right; eexists; reflexivity].
  - right. eexists. reflexivity.
Qed.

(** A string whose first character is no blank is not blank, stripped or
    not. *)
Lemma head_not_blank (c : ascii) (r : string) :
  PyStr.is_space c = false ->
  blank (PyStr.strip (String c r)) = false /\
  exists r', PyStr.strip (String c r) = String c r'.
Proof.
  intros Hc.
  assert (Hs : exists r', PyStr.strip (String c r) = String c r').
  { unfold PyStr.strip. simpl PyStr.lstrip_by. rewrite Hc.
    apply rstrip_by_head. exact Hc. }
  split; [|exact Hs]. destruct Hs as [r' Hs].
  unfold blank. rewrite strip_idem, Hs. reflexivity.
Qed.

Lemma http_url_head (s : string) :
  is_http_url s = true -> exists c r, s = String c r /\ PyStr.is_space c = false.
Proof.
  destruct s as [|c r]; [discriminate|]. intros H. exists c, r. split; [reflexivity|].
  destruct c as [[] [] [] [] [] [] [] []]; try reflexivity;
    exfalso; vm_compute in H; discriminate H.
Qed.

Lemma validated_title_head (v : pyval) (t : string) :
  (s ← str_field (Some 1%nat) (Some 500%nat) v; validate_title s) = Ok t ->
  t = EmptyString \/ exists c r, t = String c r /\ PyStr.is_space c = false.
Proof.
  destruct (str_field (Some 1%nat) (Some 500%nat) v) as [s|] eqn:E; [|discriminate].
  apply ContentInvariants.str_field_bounds in E as [_ Hs]. simpl.
  unfold validate_title. destruct (blank s); [discriminate|].
  intros H. injection H as <-. rewrite Hs.
  destruct (strip_head s) as [He | (c & r & Hc & Hsp)]; rewrite Hs in *; subst s.
  - left. reflexivity.
  - unfold PyStr.rstrip_chars.
    destruct (rstrip_by_prefix (PyStr.one_of "!?.") c r) as [->|[r' ->]];
      [left; reflexivity|right; exists c, r'; split; [reflexivity|exact Hsp]].
Qed.

Lemma validated_excerpt_stripped (v : pyval) (e : string) :
  (s ← str_field (Some 10%nat) (Some 500%nat) v; validate_excerpt s) = Ok e ->
  PyStr.strip e = e.
Proof.
  destruct (str_field (Some 10%nat) (Some 500%nat) v) as [s|] eqn:E; [|discriminate].
  simpl. unfold validate_excerpt. destruct (blank s); [discriminate|].
  destruct (_ && _); intros H; injection H as <-; apply strip_idem.
Qed.

Section Projector.
Variable fromisoformat : string -> option datetime.
Variable strptime_ymd : string -> option datetime.
Variable now : datetime.
Variable md5_hexdigest : string -> string.
Hypothesis md5_is_hex : forall s, hex_digest (md5_hexdigest s) = true.

Lemma affiliate_url_not_blank (u : string) (tag : option string) :
  is_http_url u = true ->
  blank (PyStr.strip (affiliate_url_of u tag)) = false.
Proof.
  intros H. apply http_url_head in H as (c & r & -> & Hc).
  unfold affiliate_url_of. destruct (_ && _); apply head_not_blank; exact Hc.
Qed.

(** What the projection makes of an item the model accepted. *)
Lemma projection_outcome
    (enhanced_now : datetime) (title_ url_ image_ excerpt_ category_ date_ : pyval)
    (quality_score_ : float) (ai_generated_fields_ : list string)
    (enhancement_notes_ : option string) (original_content_ : option RawContent)
    (x : EnhancedContent) (config : SiteConfig) :
  EnhancedContent_new enhanced_now title_ url_ image_ excerpt_ category_ date_ quality_score_
    ai_generated_fields_ enhancement_notes_ original_content_ = Ok x ->
  (Content.title x = EmptyString ->
   convert_to_deal_output fromisoformat strptime_ymd now md5_hexdigest x config
   = Raise ValidationError) /\
  (Content.title x <> EmptyString ->
   exists d,
     convert_to_deal_output fromisoformat strptime_ymd now md5_hexdigest x config = Ok d /\
     id d = PyStr.take 12 (md5_hexdigest (Content.title x +:+ url x)) /\
     title d = PyStr.strip (Content.title x) /\
     description d = excerpt x /\
     featured d = featured_of (quality_score x)).
Proof.
  intros H.
  apply ContentInvariants.EnhancedContent_new_fields in H
    as (Ht & Hu & _ & He & _).
  apply ContentFacts.url_field_http in Hu as [_ Hu].
  pose proof (validated_excerpt_stripped _ _ He) as Hes.
  apply ContentInvariants.validated_excerpt in He.
  apply validated_title_head in Ht.
  assert (E1 : price_field 0 = Ok 0%float) by reflexivity.
  assert (E2 : validate_original_price 0 (Ok 0%float) = Ok 0%float) by reflexivity.
  assert (E4 : validate_discount_percent 0 (Ok 0%float) (Ok 0%float) = Ok 0%Z) by reflexivity.
  assert (Hdesc : validate_description (PyStr.strip (excerpt x)) = Ok (excerpt x)).
  { unfold validate_description, blank. rewrite !Hes.
    destruct (excerpt x); [simpl in He; lia|reflexivity]. }
  pose proof (affiliate_url_not_blank (url x) (affiliate_tag config) Hu) as Haff.
  assert (Himg : exists i, validate_image_url (PyStr.strip (image x)) = Ok i)
    by (unfold validate_image_url; destruct (blank (PyStr.strip (image x)));
        eexists; reflexivity).
  assert (Hcat : exists c, Output.validate_category (PyStr.strip (Content.category x)) = Ok c)
    by (unfold Output.validate_category;
        destruct (blank (PyStr.strip (Content.category x))); eexists; reflexivity).
  assert (Hdate : exists da,
             validate_date_added fromisoformat strptime_ymd now (PyStr.strip (date x))
             = Ok da).
  { unfold validate_date_added.
    destruct (blank (PyStr.strip (date x))); [eexists; reflexivity|].
    destruct (if PyStr.contains "T" (PyStr.strip (date x))
              then fromisoformat (replace_Z (PyStr.strip (date x)))
              else strptime_ymd (PyStr.strip (date x))); eexists; reflexivity. }
  destruct Himg as [i Himg], Hcat as [c Hcat], Hdate as [da Hdate].
  unfold convert_to_deal_output, DealOutput_new, defaulted.
  rewrite (digest_prefix_is_its_own_id _ (md5_is_hex _)).
  rewrite Himg, Hcat, Hdate, Hdesc, E1. simpl mbind. rewrite E2, E4.
  unfold validate_affiliate_url. rewrite Haff.
  split.
  - intros Hempty. rewrite Hempty. reflexivity.
  - intros Hne. destruct Ht as [Ht | (c0 & r & Ht & Hc0)]; [contradiction|].
    unfold validate_deal_title. rewrite Ht.
    destruct (head_not_blank c0 r Hc0) as [Hb _]. rewrite Hb, strip_idem.
    eexists. split; [reflexivity|]. simpl. repeat split; reflexivity.
Qed.


End Projector.


End ProjectionFacts.

Module ConfigFacts.
Import Content ConfigFile Samples.

(** Induction on document trees, through the lists they nest in. *)
Lemma pyval_tree_ind (P : pyval -> Prop) :
  P PNone -> (forall b, P (PBool b)) -> (forall z, P (PInt z)) ->
  (forall r, P (PFloat r)) -> (forall s, P (PStr s)) ->
  (forall items, Forall P items -> P (PList items)) ->
  (forall items, Forall (fun kv => P (snd kv)) items -> P (PDict items)) ->
  forall v, P v.
Proof.
  intros HNone HBool HInt HFloat HStr HList HDict. fix IH 1.
  intros [ |b|z|r|s|items|items]; [exact HNone|apply HBool|apply HInt|apply HFloat|apply HStr| |].
  - apply HList. induction items as [|v rest IHrest]; constructor; [apply IH|exact IHrest].
  - apply HDict. induction items as [|kv rest IHrest]; constructor; [apply IH|exact IHrest].
Qed.

Lemma filter_comments_clean (data : pyval) :
  comment_free (_filter_comments data) = true.
Proof.
  induction data as [ | | | | |items IH|items IH] using pyval_tree_ind; try reflexivity; simpl.
  - induction IH as [|v rest Hv _ IHrest]; simpl; [reflexivity|].
    rewrite Hv. exact IHrest.
  - induction IH as [|kv rest Hv _ IHrest]; simpl; [reflexivity|].
    destruct (PyStr.startswith "//" (fst kv)) eqn:E; [exact IHrest|].
    simpl. rewrite E, Hv. exact IHrest.
Qed.

Lemma filter_comments_fixes_clean (data : pyval) :
  comment_free data = true -> _filter_comments data = data.
Proof.
  induction data as [ | | | | |items IH|items IH] using pyval_tree_ind; try reflexivity;
    simpl; intros H; f_equal.
  - induction IH as [|v rest Hv _ IHrest]; simpl in *; [reflexivity|].
    apply andb_prop in H as [H1 H2]. rewrite (Hv H1), (IHrest H2). reflexivity.
  - induction IH as [|[k v] rest Hv _ IHrest]; simpl in *; [reflexivity|].
    apply andb_prop in H as [H1 H2]. apply andb_prop in H1 as [Hk Hc].
    apply negb_true_iff in Hk. rewrite Hk, (Hv Hc), (IHrest H2). reflexivity.
Qed.

Lemma startswith_differ (p a b : string) :
  PyStr.startswith p a = true -> PyStr.startswith p b = false -> String.eqb a b = false.
Proof.
  intros Ha Hb. destruct (String.eqb a b) eqn:E; [|reflexivity].
  apply String.eqb_eq in E. subst b. congruence.
Qed.

Lemma filter_items_lookup (items : list (string * pyval)) (key : string) :
  (PyStr.startswith "//" key = false ->
   dict_get (filter_items _filter_comments items) key
   = _filter_comments (dict_get items key)) /\
  (PyStr.startswith "//" key = true ->
   dict_has (filter_items _filter_comments items) key = false).
Proof.
  induction items as [|[k v] rest [IH1 IH2]]; simpl.
  - split; reflexivity.
  - split; intros Hkey.
    + destruct (PyStr.startswith "//" k) eqn:Hk.
      * rewrite (startswith_differ "//" k key Hk Hkey). apply IH1. exact Hkey.
      * simpl. destruct (String.eqb k key); [reflexivity|apply IH1; exact Hkey].
    + destruct (PyStr.startswith "//" k) eqn:Hk; [apply IH2; exact Hkey|].
      simpl. rewrite (IH2 Hkey).
      destruct (String.eqb k key) eqn:E; [|reflexivity].
      apply String.eqb_eq in E. subst k. congruence.
Qed.

(** [_filter_comments] removes every key that starts with "//", at every
    depth of dictionaries and lists; it leaves a document without such
    keys as it is, so that filtering twice is filtering once; and in a
    dictionary it changes what a remaining key is bound to only by
    filtering inside it, while a comment key is bound to nothing
    afterwards. *)
Theorem filter_comments_removes_exactly_the_comments (data : pyval) :
  comment_free (_filter_comments data) = true /\
  (comment_free data = true -> _filter_comments data = data) /\
  _filter_comments (_filter_comments data) = _filter_comments data /\
  (forall items key,
      data = PDict items ->
      exists filtered,
        _filter_comments data = PDict filtered /\
        (PyStr.startswith "//" key = false ->
         dict_get filtered key = _filter_comments (dict_get items key)) /\
        (PyStr.startswith "//" key = true -> dict_has filtered key = false)).
Proof.
  split; [apply filter_comments_clean|].
  split; [apply filter_comments_fixes_clean|].
  split; [apply filter_comments_fixes_clean; apply filter_comments_clean|].
  intros items key ->. eexists. split; [reflexivity|]. apply filter_items_lookup.
Qed.

(** On the sample document: the comments are gone at both depths, and
    the site name is where it was. *)
Lemma filter_comments_removes_exactly_the_comments_witness :
  exists filtered,
    _filter_comments commented = PDict filtered /\
    dict_get filtered "site_name" = PStr "Couponing Canada" /\
    dict_has filtered "// note" = false /\
    _filter_comments (PDict filtered) = PDict filtered.
Proof.
  destruct (filter_comments_removes_exactly_the_comments commented)
    as (Hclean & _ & _ & Hdict).
  destruct (Hdict _ "site_name" eq_refl) as (filtered & Hf & Hget & _).
  destruct (Hdict _ "// note" eq_refl) as (filtered' & Hf' & _ & Hhas).
  exists filtered. rewrite Hf in Hf'. injection Hf' as <-.
  split; [exact Hf|]. split; [rewrite (Hget eq_refl); reflexivity|].
  split; [exact (Hhas eq_refl)|].
  rewrite <- Hf.
  apply (proj1 (proj2 (proj2 (filter_comments_removes_exactly_the_comments commented)))).
Defined.



Lemma filter_chars_all (p q : ascii -> bool) (s : string) :
  PyStr.all_chars p s = true -> PyStr.all_chars p (PyStr.filter_chars q s) = true.
Proof.
  induction s as [|c r IH]; simpl; [reflexivity|].
  intros H. apply andb_prop in H as [Hc Hr].
  destruct (q c); simpl; [rewrite Hc|]; apply IH; exact Hr.
Qed.






End ConfigFacts.

Module KeepFacts.
Import Content Pipeline Outcome Keep Samples StripFacts.

Lemma rstrip_by_append (p : ascii -> bool) (s t : string) :
  t <> EmptyString -> PyStr.rstrip_by p t = t ->
  PyStr.rstrip_by p (s +:+ t) = s +:+ t.
Proof.
  intros Hne Ht. induction s as [|c s IH]; [exact Ht|].
  change (String c s +:+ t) with (String c (s +:+ t)).
  change (PyStr.rstrip_by p (String c (s +:+ t)))
    with (match PyStr.rstrip_by p (s +:+ t) with
          | EmptyString => if p c then EmptyString else String c EmptyString
          | r' => String c r'
          end).
  rewrite IH. destruct (s +:+ t) eqn:E; [|reflexivity].
  destruct s; simpl in E; [contradiction|discriminate E].
Qed.

(** A stripped string that is not empty loses nothing to [rstrip]. *)
Lemma stripped_rstrip (t : string) :
  PyStr.strip t = t -> PyStr.rstrip_by PyStr.is_space t = t.
Proof.
  intros H. destruct (strip_head t) as [He | (c & r & Hc & Hsp)].
  - rewrite H in He. subst t. reflexivity.
  - rewrite H in Hc. subst t. unfold PyStr.strip in H. simpl PyStr.lstrip_by in H.
    rewrite Hsp in H. exact H.
Qed.

Lemma blank_of_stripped (s : string) :
  PyStr.strip s = s -> (1 <= String.length s)%nat -> blank s = false.
Proof.
  intros Hs Hl. unfold blank. rewrite Hs. destruct s; [simpl in Hl; lia|reflexivity].
Qed.

Lemma str_field_stripped (lo hi : nat) (s : string) :
  PyStr.strip s = s ->
  str_field (Some lo) (Some hi) (PStr s) = if len_between lo hi s then Ok s else Raise ValidationError.
Proof. intros Hs. unfold str_field, len_between. simpl. rewrite Hs. reflexivity. Qed.

Lemma title_accepted (t : string) :
  PyStr.strip t = t -> len_between 1 500 t = true ->
  exists t', (x ← str_field (Some 1%nat) (Some 500%nat) (PStr t); validate_title x) = Ok t'.
Proof.
  intros Hs Hl. rewrite (str_field_stripped _ _ _ Hs), Hl. simpl.
  unfold validate_title. rewrite blank_of_stripped; [eexists; reflexivity|exact Hs|].
  unfold len_between in Hl. apply andb_prop in Hl as [Hl _]. apply Nat.leb_le in Hl. exact Hl.
Qed.

Lemma category_accepted (c : string) :
  PyStr.strip c = c -> len_between 1 100 c = true ->
  exists c', (x ← str_field (Some 1%nat) (Some 100%nat) (PStr c); validate_category x) = Ok c'.
Proof.
  intros Hs Hl. rewrite (str_field_stripped _ _ _ Hs), Hl. simpl.
  unfold validate_category. rewrite blank_of_stripped; [eexists; reflexivity|exact Hs|].
  unfold len_between in Hl. apply andb_prop in Hl as [Hl _]. apply Nat.leb_le in Hl. exact Hl.
Qed.

Lemma excerpt_accepted (e : string) :
  PyStr.strip e = e ->
  is_ok (x ← str_field (Some 10%nat) (Some 500%nat) (PStr e); validate_excerpt x)
  = len_between 10 500 e.
Proof.
  intros Hs. rewrite (str_field_stripped _ _ _ Hs).
  destruct (len_between 10 500 e) eqn:Hl; [|reflexivity]. simpl.
  unfold validate_excerpt. rewrite blank_of_stripped; [|exact Hs|].
  - destruct (_ && _); reflexivity.
  - unfold len_between in Hl. apply andb_prop in Hl as [Hl _]. apply Nat.leb_le in Hl. lia.
Qed.

Lemma default_excerpt_stripped (t : string) :
  PyStr.strip t = t -> (1 <= String.length t)%nat ->
  PyStr.strip ("Learn more about " +:+ t) = "Learn more about " +:+ t /\
  String.length ("Learn more about " +:+ t) = (17 + String.length t)%nat.
Proof.
  intros Hs Hl. split; [|reflexivity].
  unfold PyStr.strip.
  change (PyStr.lstrip_by PyStr.is_space ("Learn more about " +:+ t))
    with ("Learn more about " +:+ t).
  apply rstrip_by_append; [|apply stripped_rstrip; exact Hs].
  intros ->. simpl in Hl. lia.
Qed.

Lemma eqb_stripped (s : string) (b : bool) :
  String.eqb (PyStr.strip s) s && b = true -> PyStr.strip s = s /\ b = true.
Proof. intros H. apply andb_prop in H as [H1 H2]. apply String.eqb_eq in H1. split; assumption. Qed.

Section Fallback.
Variable now : datetime.

(** Whether a fallback constructor accepts a scraped item is decided by
    its image and its excerpt alone. *)
Lemma minimal_enhanced_accepts (q : float) (notes : string) (raw : RawContent) :
  RawContent_wf raw = true ->
  is_ok (score_field q) = true ->
  is_ok (notes_field (Some notes)) = true ->
  is_ok (minimal_enhanced now q notes raw) = keepable raw.
Proof.
  unfold RawContent_wf. intros Hwf Hq Hn.
  apply andb_prop in Hwf as [Hwf _]. apply andb_prop in Hwf as [Hwf Hcat].
  apply andb_prop in Hwf as [Hwf Hexc]. apply andb_prop in Hwf as [Hwf Himg].
  apply andb_prop in Hwf as [Hwf Hurl]. apply andb_prop in Hwf as [Hts Htl].
  apply String.eqb_eq in Hts.
  destruct (title_accepted _ Hts Htl) as [t' Ht].
  assert (Hc : exists c', (x ← str_field (Some 1%nat) (Some 100%nat)
                             (PStr (category_or_general raw)); validate_category x) = Ok c').
  { unfold category_or_general. destruct (raw_category raw) as [c|]; simpl in *.
    - apply eqb_stripped in Hcat as [Hcs Hcl].
      assert (Hne : PyStr.is_empty c = false).
      { unfold len_between in Hcl. apply andb_prop in Hcl as [Hcl _].
        apply Nat.leb_le in Hcl. destruct c; [simpl in Hcl; lia|reflexivity]. }
      rewrite Hne. simpl. apply category_accepted; assumption.
    - eexists. reflexivity. }
  destruct Hc as [c' Hc].
  destruct (score_field q) as [q'|] eqn:Eq; [|discriminate Hq].
  destruct (notes_field (Some notes)) as [n'|] eqn:En; [|discriminate Hn].
  assert (Hd : exists d', str_field None None (PStr (date_or_scraped raw)) = Ok d')
    by (eexists; reflexivity).
  destruct Hd as [d' Hd].
  assert (He : is_ok (x ← str_field (Some 10%nat) (Some 500%nat)
                        (PStr (excerpt_or_default raw)); validate_excerpt x)
               = match raw_excerpt raw with
                 | Some e => len_between 10 500 e
                 | None => (String.length (raw_title raw) <=? 483)%nat
                 end).
  { unfold excerpt_or_default. destruct (raw_excerpt raw) as [e|].
    - simpl in Hexc. apply eqb_stripped in Hexc as [Hes Hel].
      assert (Hne : PyStr.is_empty e = false).
      { unfold len_between in Hel. apply andb_prop in Hel as [Hel _].
        apply Nat.leb_le in Hel. destruct e; [simpl in Hel; lia|reflexivity]. }
      change (Enhancer.opt_truthy (Some e)) with (negb (PyStr.is_empty e)).
      rewrite Hne. change (default "" (Some e)) with e. cbv iota. simpl negb. cbv iota.
      apply excerpt_accepted. exact Hes.
    - change (Enhancer.opt_truthy None) with false. cbv iota.
      assert (Hl1 : (1 <= String.length (raw_title raw))%nat).
      { unfold len_between in Htl. apply andb_prop in Htl as [Htl _].
        apply Nat.leb_le in Htl. exact Htl. }
      destruct (default_excerpt_stripped _ Hts Hl1) as [Hds Hdl].
      rewrite (excerpt_accepted _ Hds). unfold len_between. rewrite Hdl.
      destruct (Nat.leb_spec (String.length (raw_title raw)) 483);
        destruct (Nat.leb_spec 10 (17 + String.length (raw_title raw)));
        destruct (Nat.leb_spec (17 + String.length (raw_title raw)) 500);
        simpl; try reflexivity; lia. }
  unfold minimal_enhanced, EnhancedContent_new, keepable.
  rewrite Ht, Hc, Hd, Eq, En.
  assert (Hf : validate_ai_fields [] = Ok []) by reflexivity. rewrite Hf.
  assert (Hu : url_field (PStr (raw_url raw)) = Ok (raw_url raw))
    by (simpl; rewrite Hurl; reflexivity).
  rewrite Hu. rewrite <- He.
  destruct (x ← str_field (Some 10%nat) (Some 500%nat) (PStr (excerpt_or_default raw));
            validate_excerpt x) as [e'|];
    unfold image_or_placeholder; destruct (raw_image raw) as [u|]; simpl in Himg |- *;
    try rewrite Himg; reflexivity.
Qed.

Lemma minimal_enhanced_origin (q : float) (notes : string) (raw : RawContent)
    (e : EnhancedContent) :
  minimal_enhanced now q notes raw = Ok e -> original_content e = Some raw.
Proof.
  unfold minimal_enhanced. intros H.
  apply ContentInvariants.EnhancedContent_new_fields in H
    as (_ & _ & _ & _ & _ & _ & _ & _ & _ & Ho).
  exact Ho.
Qed.

Lemma convert_loop_keeps (raw_content : list RawContent) :
  forall (st : state) (acc : list EnhancedContent),
    Forall (fun raw => RawContent_wf raw = true) raw_content ->
    List.map original_content (snd (convert_loop now raw_content st acc))
    = List.map original_content acc ++ List.map Some (List.filter keepable raw_content) /\
    errors (stats (fst (convert_loop now raw_content st acc)))
    = (errors (stats st) + len raw_content - len (List.filter keepable raw_content))%Z.
Proof.
  induction raw_content as [|raw rest IH]; intros st acc Hwf.
  - simpl. rewrite app_nil_r. split; [reflexivity|]. unfold len. simpl. lia.
  - apply Forall_cons in Hwf as [Hraw Hrest].
    pose proof (minimal_enhanced_accepts 0.7 "No AI enhancement applied" raw Hraw
                  eq_refl eq_refl) as Hk.
    simpl convert_loop. simpl List.filter.
    destruct (minimal_enhanced now 0.7 "No AI enhancement applied" raw) as [e|x] eqn:E;
      simpl in Hk; rewrite <- Hk.
    + destruct (IH st (acc ++ [e]) Hrest) as [Hm He]. rewrite Hm, He. split.
      * rewrite map_app, <- app_assoc. simpl.
        rewrite (minimal_enhanced_origin _ _ _ _ E). reflexivity.
      * unfold len. simpl List.length. lia.
    + destruct (IH (with_stats add_error st) acc Hrest) as [Hm He]. rewrite Hm, He.
      split; [reflexivity|]. unfold len. simpl. lia.
Qed.

(** Of well-formed scraped items, both fallback constructors accept
    exactly those that have an image and an excerpt of 10 to 500
    characters (or, without an excerpt, a title of at most 483): so the
    pass-through conversion returns one item for each of these, in order,
    and counts one error for each of the others. *)
Theorem passthrough_keeps_exactly_the_keepable
    (raw_content : list RawContent) (st : state) :
  Forall (fun raw => RawContent_wf raw = true) raw_content ->
  Forall (fun raw => substitutable now raw = keepable raw) raw_content /\
  List.map original_content (snd (_convert_raw_to_enhanced now raw_content st))
  = List.map Some (List.filter keepable raw_content) /\
  errors (stats (fst (_convert_raw_to_enhanced now raw_content st)))
  = (errors (stats st) + len raw_content - len (List.filter keepable raw_content))%Z.
Proof.
  intros Hwf. split.
  - apply Forall_forall. intros raw Hin. rewrite Forall_forall in Hwf.
    unfold substitutable. apply minimal_enhanced_accepts; [apply Hwf; exact Hin| |];
      reflexivity.
  - apply (convert_loop_keeps raw_content st [] Hwf).
Qed.

End Fallback.

(** Three well-formed items: the second has an excerpt of seven
    characters, the third no image; only the first is kept. *)
Lemma passthrough_keeps_exactly_the_keepable_witness :
  List.map original_content
    (snd (_convert_raw_to_enhanced noon [flyer; terse; imageless] (fresh ∅)))
  = [Some flyer] /\
  errors (stats (fst (_convert_raw_to_enhanced noon [flyer; terse; imageless] (fresh ∅))))
  = 2%Z.
Proof.
  destruct (passthrough_keeps_exactly_the_keepable noon [flyer; terse; imageless] (fresh ∅))
    as (_ & Hm & He).
  - repeat constructor.
  - split; [exact Hm|exact He].
Defined.

End KeepFacts.

Module EndToEndFacts.
Import Content Output Pipeline Digest Keep Samples.

Lemma filter_filter {A} (f g : A -> bool) (l : list A) :
  List.filter f (List.filter g l) = List.filter (fun a => g a && f a) l.
Proof.
  induction l as [|a l IH]; simpl; [reflexivity|].
  destruct (g a); simpl; [destruct (f a)|]; rewrite IH; reflexivity.
Qed.

Lemma filter_agree {A} (f g : A -> bool) (l : list A) :
  Forall (fun a => f a = g a) l -> List.filter f l = List.filter g l.
Proof.
  induction 1 as [|a l Ha _ IH]; simpl; [reflexivity|]. rewrite Ha, IH. reflexivity.
Qed.

Section World.
Variable config : SiteConfig.
Variable agents_initialized : bool.
Variable llm : Enhancer.agent.
Variable validator : list EnhancedContent -> option (list Quality.QualityResult).
Variable can_write : string -> bool.
Variable t_start t_end now : datetime.
Variable fromisoformat : string -> option datetime.
Variable strptime_ymd : string -> option datetime.
Variable md5_hexdigest : string -> string.
Hypothesis md5_is_hex : forall s, hex_digest (md5_hexdigest s) = true.

Local Abbreviation run scraped :=
  (run_pipeline config agents_initialized scraped llm validator can_write
     t_start t_end now fromisoformat strptime_ymd md5_hexdigest).
Local Abbreviation passed raw :=
  (minimal_enhanced now 0.7 "No AI enhancement applied" raw).

Lemma convert_loop_result (raw_content : list RawContent) :
  forall (st : state) (acc : list EnhancedContent),
  exists items,
    snd (convert_loop now raw_content st acc) = acc ++ items /\
    Forall2 (fun raw e => passed raw = Ok e)
      (List.filter (fun raw => is_ok (passed raw)) raw_content) items /\
    files (fst (convert_loop now raw_content st acc)) = files st.
Proof.
  induction raw_content as [|raw rest IH]; intros st acc; simpl convert_loop.
  - exists []. rewrite app_nil_r. repeat split. constructor.
  - simpl List.filter. destruct (passed raw) as [e|x] eqn:E; simpl is_ok; cbv iota.
    + destruct (IH st (acc ++ [e])) as (items & Hs & Hall & Hf).
      exists (e :: items). rewrite Hs, <- app_assoc. repeat split; [|exact Hf].
      constructor; assumption.
    + destruct (IH (with_stats add_error st) acc) as (items & Hs & Hall & Hf).
      exists items. repeat split; assumption.
Qed.

Lemma passed_title (raw : RawContent) (e : EnhancedContent) :
  RawContent_wf raw = true -> passed raw = Ok e ->
  Content.title e = PyStr.rstrip_chars "!?." (raw_title raw).
Proof.
  unfold RawContent_wf, minimal_enhanced. intros Hwf H.
  do 5 (apply andb_prop in Hwf as [Hwf _]). apply andb_prop in Hwf as [Hs Hl].
  apply String.eqb_eq in Hs.
  apply ContentInvariants.EnhancedContent_new_fields in H as (Ht & _).
  rewrite (KeepFacts.str_field_stripped _ _ _ Hs), Hl in Ht. simpl in Ht.
  unfold validate_title in Ht. destruct (blank (raw_title raw)); [discriminate Ht|].
  injection Ht as <-. rewrite Hs. reflexivity.
Qed.

Lemma output_loop_count (validated_content : list EnhancedContent) :
  forall (st : state) (acc : list DealOutput),
    Forall (fun e => exists raw, passed raw = Ok e) validated_content ->
    List.length (snd (output_loop config now fromisoformat strptime_ymd md5_hexdigest
                        validated_content st acc))
    = (List.length acc +
       List.length (List.filter (fun e => negb (PyStr.is_empty (Content.title e)))
                      validated_content))%nat /\
    files (fst (output_loop config now fromisoformat strptime_ymd md5_hexdigest
                  validated_content st acc)) = files st.
Proof.
  induction validated_content as [|e rest IH]; intros st acc Hall; simpl output_loop.
  - simpl. split; [lia|reflexivity].
  - apply Forall_cons in Hall as [[raw Hraw] Hrest]. unfold minimal_enhanced in Hraw.
    destruct (ProjectionFacts.projection_outcome fromisoformat strptime_ymd now
                md5_hexdigest md5_is_hex _ _ _ _ _ _ _ _ _ _ _ e config Hraw)
      as [Hfail Hok].
    simpl List.filter. destruct (Content.title e) as [|c r] eqn:Et.
    + rewrite (Hfail eq_refl). simpl negb. cbv iota.
      destruct (IH (with_stats add_error st) acc Hrest) as [Hl Hf]. split; assumption.
    + destruct Hok as (d & Hd & _); [discriminate|]. rewrite Hd. simpl negb. cbv iota.
      destruct (IH st (acc ++ [d]) Hrest) as [Hl Hf]. split; [|exact Hf].
      rewrite Hl, length_app. simpl. lia.
Qed.

Lemma titled_count (kept : list RawContent) (items : list EnhancedContent) :
  Forall (fun raw => RawContent_wf raw = true) kept ->
  Forall2 (fun raw e => passed raw = Ok e) kept items ->
  List.length (List.filter (fun e => negb (PyStr.is_empty (Content.title e))) items)
  = List.length (List.filter
                   (fun raw => negb (PyStr.is_empty (PyStr.rstrip_chars "!?." (raw_title raw))))
                   kept).
Proof.
  intros Hwf H. induction H as [|raw e kept items Hp _ IH]; [reflexivity|].
  apply Forall_cons in Hwf as [Hraw Hrest]. simpl.
  rewrite (passed_title raw e Hraw Hp).
  destruct (negb _); simpl; rewrite (IH Hrest); reflexivity.
Qed.

(** Without AI, and with a path that can be written, the file of a run
    over well-formed scraped items holds one record for each item that
    has an image, an excerpt of 10 to 500 characters (or none and a title
    of at most 483), and a title that is not made of "!", "?" and "."
    alone; every other item is left out. *)
Theorem passthrough_file_holds_the_reachable_items
    (raw0 : RawContent) (rest : list RawContent) (output_path : string) (st : state) :
  ai_agents_enabled config agents_initialized = false ->
  Forall (fun raw => RawContent_wf raw = true) (raw0 :: rest) ->
  can_write output_path = true ->
  exists records,
    files (fst (run (Ok (raw0 :: rest)) output_path st)) !! output_path = Some records /\
    List.length records = List.length (List.filter reaches_output (raw0 :: rest)).
Proof.
  intros Hai Hwf Hw.
  assert (Hrun : files (fst (run (Ok (raw0 :: rest)) output_path st))
                 = files (fst (phases config agents_initialized (Ok (raw0 :: rest)) llm
                                 validator can_write t_end now fromisoformat strptime_ymd
                                 md5_hexdigest output_path
                                 (with_stats (set_start_time t_start) st)))).
  { unfold run_pipeline.
    destruct (phases _ _ _ _ _ _ _ _ _ _ _ _ _) as [st1 [summary|x]]; reflexivity. }
  rewrite Hrun. clear Hrun.
  unfold phases, _scrape_content. cbv beta iota zeta. rewrite Hai.
  set (raw := raw0 :: rest) in *.
  set (st1 := with_stats (set_total_scraped (len raw)) (with_stats (set_start_time t_start) st)).
  unfold _convert_raw_to_enhanced, _generate_output.
  destruct (convert_loop_result raw st1 []) as (items & Hitems & Hall & _).
  destruct (convert_loop now raw st1 []) as [st2 validated_content].
  simpl in Hitems. subst validated_content.
  set (st3 := with_stats (set_total_validated (len items))
                (with_stats (set_total_enhanced (len items)) st2)).
  assert (Hmade : Forall (fun e => exists raw, passed raw = Ok e) items).
  { clear -Hall. induction Hall as [|r e k i Hp _ IH]; constructor; [exists r; exact Hp|exact IH]. }
  destruct (output_loop_count items st3 [] Hmade) as [Hcount _].
  destruct (output_loop config now fromisoformat strptime_ymd md5_hexdigest items st3 [])
    as [st4 records].
  simpl in Hcount.
  unfold _write_output_file. rewrite Hw. cbv beta iota zeta.
  exists records. split.
  - match goal with
    | |- context [_create_output_summary ?a ?b ?c ?s ?p ?r] =>
        destruct (_create_output_summary a b c s p r)
    end; simpl; apply lookup_insert_eq.
  - rewrite Hcount.
    assert (Hkept : List.filter (fun r => is_ok (passed r)) raw = List.filter keepable raw).
    { apply filter_agree. apply Forall_forall. intros r Hin. rewrite Forall_forall in Hwf.
      apply KeepFacts.minimal_enhanced_accepts; [apply Hwf; exact Hin| |]; reflexivity. }
    rewrite Hkept in Hall.
    assert (Hwfk : Forall (fun r => RawContent_wf r = true) (List.filter keepable raw)).
    { apply Forall_forall. intros r Hin. rewrite Forall_forall in Hwf. apply Hwf.
      apply list_elem_of_In in Hin. apply filter_In in Hin as [Hin _].
      apply list_elem_of_In. exact Hin. }
    rewrite (titled_count _ _ Hwfk Hall), filter_filter. reflexivity.
Qed.

End World.

(** Four well-formed items, one of them shouting: only the flyer and the
    tires reach the file. *)
Lemma passthrough_file_holds_the_reachable_items_witness :
  exists records,
    files (fst (run_pipeline (site None false) true (Ok [flyer; terse; shouting; imageful])
                  falters (fun _ => None) (fun _ => true) noon noon noon
                  no_date no_date digest "public/data.json" (fresh ∅)))
      !! "public/data.json" = Some records /\
    List.length records = 2%nat.
Proof.
  destruct (passthrough_file_holds_the_reachable_items (site None false) true falters
              (fun _ => None) (fun _ => true) noon noon noon no_date no_date digest
              (fun _ => eq_refl) flyer [terse; shouting; imageful] "public/data.json"
              (fresh ∅) eq_refl)
    as (records & Hf & Hl); [repeat constructor|reflexivity|].
  exists records. split; [exact Hf|exact Hl].
Defined.

End EndToEndFacts.

Module ToolFacts.
Import EnhancerTools StripFacts.





End ToolFacts.
